(** * Mars Weather App: the weather source and the persistence model

    A shallow embedding of [src/api_client.py] and [src/utils.py], and
    of what their callers in [src/main.py] and [src/weather_ui.py]
    decide.

    The program is dynamically typed Python working on decoded JSON, so
    the embedding is layered:

    - [Py]: the run-time values the code manipulates (the image of
      [json.load]), the exceptions it can meet, and the built-ins it
      calls ([dict.get], subscripting, truth value, [int(str)],
      arithmetic on [int] and binary64 [float], [str.lower],
      [format(x, ".1f")]);
    - [Calendar]: the part of [datetime] the parser uses
      ([fromisoformat], [+ timedelta(days=n)], [strftime('%Y-%m-%d')]);
    - [Utils] and [ApiClient]: the repository's own functions, one
      definition per source function, under the source's names;
    - [Spec]: the vocabulary of the specification, and [Fixtures]: the
      payloads and records the examples run on.

    Randomness, the wall clock, the HTTP transport and the file system
    are inputs: a [World] carries an entropy tape and the clock, and the
    transport outcome and the state of the configuration directory are
    explicit arguments.  What the program inherits from the
    interpreter and the C library it runs on, and what is not the same
    on all of them, is an input too, a [Platform]: the text [int]
    reads beyond ASCII and the limit it puts on the digits of a
    numeral, the grammar of [datetime.fromisoformat], and the padding
    of a year below 1000 by [strftime].  The properties are proved for
    every platform; the examples run on one.  [print] calls are not
    modelled; no property below reads the console. *)

From Stdlib Require Import ZArith List String Ascii Bool Lia.
From Stdlib Require Import DecimalString.
From Stdlib Require DecimalZ DecimalPos.
From Stdlib Require Import Floats.SpecFloat.
Import ListNotations.

Local Open Scope string_scope.
Local Open Scope Z_scope.

(* ================================================================== *)
(** * Python values, exceptions and built-ins                          *)
(* ================================================================== *)

Module Py.

(** A run-time value.  [json.load] produces exactly these shapes; the
    dataclasses of [utils.py] do not check their field annotations, so
    a record field holds any of them.  A [dict] is an association list
    in insertion order, read by first match.  Strings are byte strings,
    the UTF-8 form of the text: they are indexed by character,
    [lower] changes the ASCII letters, and where [int] is given text
    beyond ASCII it asks the interpreter (see [Interpreter]). *)
#[local] Unset Elimination Schemes.
Inductive pyval : Type :=
| PNone
| PBool (b : bool)
| PInt (z : Z)
| PFloat (f : spec_float)
| PStr (s : string)
| PList (l : list pyval)
| PDict (d : list (string * pyval)).
#[local] Set Elimination Schemes.

(** Exception classes.  The [Req*] classes are those of
    [requests.exceptions]; [ReqConnectTimeout] derives from both
    [ConnectionError] and [Timeout] there.  Only subclasses of
    [Exception] are modelled (no [KeyboardInterrupt], no [SystemExit]). *)
Inductive exc_class : Type :=
| Exception_
| TypeError | KeyError | ValueError | AttributeError | IndexError
| OverflowError | ZeroDivisionError
| OSError_ | PermissionError | FileNotFoundError | BuiltinTimeoutError
| JSONDecodeError
| ReqRequestException | ReqHTTPError | ReqInvalidURL | ReqTooManyRedirects
| ReqTimeout | ReqConnectTimeout | ReqReadTimeout
| ReqConnectionError | ReqProxyError | ReqSSLError.

Record exc : Type := Exc { exc_cls : exc_class; exc_msg : string }.

(** [isinstance(e, requests.exceptions.Timeout)] *)
Definition is_req_timeout (c : exc_class) : bool :=
  match c with
  | ReqTimeout | ReqConnectTimeout | ReqReadTimeout => true
  | _ => false
  end.

(** [isinstance(e, requests.exceptions.ConnectionError)] *)
Definition is_req_connection_error (c : exc_class) : bool :=
  match c with
  | ReqConnectionError | ReqConnectTimeout | ReqProxyError | ReqSSLError => true
  | _ => false
  end.

(** The outcome of evaluating an expression: it raises or it yields. *)
Definition result (A : Type) : Type := (exc + A)%type.

Definition raise {A : Type} (c : exc_class) : result A := inl (Exc c "").

Definition rbind {A B : Type} (r : result A) (k : A -> result B) : result B :=
  match r with
  | inl e => inl e
  | inr a => k a
  end.

Notation "x <- r ;; k" := (rbind r (fun x => k))
  (at level 61, r at next level, right associativity).

(** ** Dictionaries *)

Fixpoint dict_lookup (k : string) (d : list (string * pyval)) : option pyval :=
  match d with
  | [] => None
  | (k', v) :: d' => if String.eqb k k' then Some v else dict_lookup k d'
  end.

(** [d[k] = v] on a dict: an existing key keeps its place. *)
Fixpoint dict_set (k : string) (v : pyval) (d : list (string * pyval))
  : list (string * pyval) :=
  match d with
  | [] => [(k, v)]
  | (k', v') :: d' =>
      if String.eqb k k' then (k', v) :: d' else (k', v') :: dict_set k v d'
  end.

(** The dict display that unpacks [d1], then [d2]: the keys of [d1]
    keep their places and take the values of [d2]; new keys follow. *)
Definition dict_merge (d1 d2 : list (string * pyval)) : list (string * pyval) :=
  fold_left (fun acc kv => dict_set (fst kv) (snd kv) acc) d2 d1.

(** [obj.get(key, default)]: only a dict has the method. *)
Definition py_get (obj : pyval) (key : string) (default : pyval) : result pyval :=
  match obj with
  | PDict d =>
      inr (match dict_lookup key d with Some v => v | None => default end)
  | _ => raise AttributeError
  end.

(** ** Characters

    A string is the UTF-8 form of a text.  A character of the text is
    one byte, or a leading byte and the continuation bytes (binary
    10xxxxxx) that follow it. *)
Definition is_continuation (c : ascii) : bool :=
  let n := nat_of_ascii c in
  ((128 <=? n) && (n <? 192))%nat.

(** The characters of a text in order, each as a string. *)
Fixpoint characters (s : string) : list string :=
  match s with
  | EmptyString => []
  | String c s' =>
      match characters s' with
      | String d ds :: rest =>
          if is_continuation d then String c (String d ds) :: rest
          else String c EmptyString :: String d ds :: rest
      | other => String c EmptyString :: other
      end
  end.

(** [len(s)] *)
Definition str_len (s : string) : nat := List.length (characters s).

(** The one-character string at position [i] of [s]. *)
Definition str_at (s : string) (i : nat) : option string :=
  nth_error (characters s) i.

(** Python index normalisation for a sequence of length [len]. *)
Definition seq_index (len i : Z) : option nat :=
  let j := if i <? 0 then i + len else i in
  if (0 <=? j) && (j <? len) then Some (Z.to_nat j) else None.

(** A value usable as a sequence index ([bool] is an [int]). *)
Definition as_index (key : pyval) : option Z :=
  match key with
  | PInt i => Some i
  | PBool b => Some (Z.b2z b)
  | _ => None
  end.

(** [obj[key]].  Keys of a decoded JSON object are all strings, so a
    hashable key of another type is a [KeyError]; a list or a dict used
    as a key is unhashable. *)
Definition py_getitem (obj key : pyval) : result pyval :=
  match obj with
  | PDict d =>
      match key with
      | PStr k =>
          match dict_lookup k d with
          | Some v => inr v
          | None => raise KeyError
          end
      | PList _ | PDict _ => raise TypeError
      | _ => raise KeyError
      end
  | PList l =>
      match as_index key with
      | Some i =>
          match seq_index (Z.of_nat (List.length l)) i with
          | Some n =>
              match nth_error l n with
              | Some v => inr v
              | None => raise IndexError
              end
          | None => raise IndexError
          end
      | None => raise TypeError
      end
  | PStr s =>
      match as_index key with
      | Some i =>
          match seq_index (Z.of_nat (str_len s)) i with
          | Some n =>
              match str_at s n with
              | Some c => inr (PStr c)
              | None => raise IndexError
              end
          | None => raise IndexError
          end
      | None => raise TypeError
      end
  | _ => raise TypeError
  end.

(** ** Truth value *)

Definition float_is_zero (f : spec_float) : bool :=
  match f with
  | S754_zero _ => true
  | _ => false
  end.

(** [bool(v)], as [if not v] tests it. *)
Definition py_truthy (v : pyval) : bool :=
  match v with
  | PNone => false
  | PBool b => b
  | PInt z => negb (z =? 0)
  | PFloat f => negb (float_is_zero f)
  | PStr s => negb (String.eqb s "")
  | PList l => match l with [] => false | _ => true end
  | PDict d => match d with [] => false | _ => true end
  end.

(** ** Strings *)

Definition ascii_lower (c : ascii) : ascii :=
  let n := nat_of_ascii c in
  if ((65 <=? n) && (n <=? 90))%nat then ascii_of_nat (n + 32) else c.

(** [s.lower()] *)
Fixpoint lower (s : string) : string :=
  match s with
  | EmptyString => EmptyString
  | String c s' => String (ascii_lower c) (lower s')
  end.

(** [s.replace(c, by)] for a one-character pattern: every occurrence. *)
Fixpoint replace_char (c : ascii) (by_ : string) (s : string) : string :=
  match s with
  | EmptyString => EmptyString
  | String x s' =>
      if Ascii.eqb x c then by_ ++ replace_char c by_ s'
      else String x (replace_char c by_ s')
  end.

(** Decimal numeral of a natural number, and of an integer. *)
Definition str_of_N (n : N) : string := NilZero.string_of_uint (N.to_uint n).

Definition str_of_Z (z : Z) : string := NilZero.string_of_int (Z.to_int z).

(** ** [int(x)] *)

Definition digit_of (c : ascii) : option Z :=
  let n := nat_of_ascii c in
  if ((48 <=? n) && (n <=? 57))%nat then Some (Z.of_nat (n - 48)) else None.

(** White space that [int] skips at both ends of an ASCII string. *)
Definition is_space (c : ascii) : bool :=
  let n := nat_of_ascii c in
  (((9 <=? n) && (n <=? 13)) || (n =? 32))%nat.

Fixpoint lstrip (s : list ascii) : list ascii :=
  match s with
  | c :: s' => if is_space c then lstrip s' else s
  | [] => []
  end.

Definition strip (s : list ascii) : list ascii :=
  rev (lstrip (rev (lstrip s))).

(** Digits with single underscores between them; [after_digit] tells
    whether the previous character was a digit. *)
Fixpoint int_digits (acc : Z) (after_digit : bool) (s : list ascii) : option Z :=
  match s with
  | [] => if after_digit then Some acc else None
  | c :: s' =>
      match digit_of c with
      | Some d => int_digits (10 * acc + d) true s'
      | None =>
          if Ascii.eqb c "_" && after_digit then
            match s' with
            | c' :: _ =>
                match digit_of c' with
                | Some _ => int_digits acc false s'
                | None => None
                end
            | [] => None
            end
          else None
      end
  end.

(** [int(s)] for a string of ASCII characters, base ten, before any
    limit on its length. *)
Definition int_of_ascii (s : string) : option Z :=
  match strip (list_ascii_of_string s) with
  | "+"%char :: ds => int_digits 0 false ds
  | "-"%char :: ds => option_map Z.opp (int_digits 0 false ds)
  | ds => int_digits 0 false ds
  end.

Definition is_ascii (s : string) : bool :=
  forallb (fun c => (nat_of_ascii c <? 128)%nat) (list_ascii_of_string s).

(** The number of digits in a numeral: underscores, the sign and the
    white space around it do not count, leading zeros do. *)
Definition digit_count (s : string) : Z :=
  Z.of_nat
    (List.length
       (filter (fun c => match digit_of c with Some _ => true | None => false end)
          (list_ascii_of_string s))).

(** The length check of the conversion: a numeral of more than 640
    digits is refused when it has more digits than [limit] allows;
    a [limit] of 0 allows any number. *)
Definition exceeds_limit (limit digits : Z) : bool :=
  (640 <? digits) && (0 <? limit) && (limit <? digits).

(** ** [int] on text beyond ASCII

    CPython first rewrites the text: a character below 127 stays, a
    character that is white space becomes a space, a character that
    is a decimal digit becomes its ASCII digit, and any other ends the
    conversion; the rewritten text is then read as above.  Which
    characters are digits is told by the Unicode database: the blocks
    below are those of Unicode 14.0, the database of Python 3.11, each
    given by its first code point and its length, the digits 0 to 9
    following one another in each ten. *)
Definition unicode_digit_blocks : list (Z * Z) :=
  [(1632, 10); (1776, 10); (1984, 10); (2406, 10); (2534, 10);
   (2662, 10); (2790, 10); (2918, 10); (3046, 10); (3174, 10);
   (3302, 10); (3430, 10); (3558, 10); (3664, 10); (3792, 10);
   (3872, 10); (4160, 10); (4240, 10); (6112, 10); (6160, 10);
   (6470, 10); (6608, 10); (6784, 10); (6800, 10); (6992, 10);
   (7088, 10); (7232, 10); (7248, 10); (42528, 10); (43216, 10);
   (43264, 10); (43472, 10); (43504, 10); (43600, 10); (44016, 10);
   (65296, 10); (66720, 10); (68912, 10); (69734, 10); (69872, 10);
   (69942, 10); (70096, 10); (70384, 10); (70736, 10); (70864, 10);
   (71248, 10); (71360, 10); (71472, 10); (71904, 10); (72016, 10);
   (72784, 10); (73040, 10); (73120, 10); (92768, 10); (92864, 10);
   (93008, 10); (120782, 50); (123200, 10); (123632, 10); (125264, 10);
   (130032, 10)].

Definition unicode_spaces : list Z :=
  [133; 160; 5760; 8192; 8193; 8194; 8195; 8196; 8197; 8198; 8199; 8200;
   8201; 8202; 8232; 8233; 8239; 8287; 12288].

(** The code point a character stands for, when its bytes are a UTF-8
    sequence. *)
Definition code_point (ch : string) : option Z :=
  match map (fun c => Z.of_nat (nat_of_ascii c)) (list_ascii_of_string ch) with
  | [a] => if a <? 128 then Some a else None
  | [a; b] =>
      if (192 <=? a) && (a <? 224) then Some ((a - 192) * 64 + (b - 128))
      else None
  | [a; b; c] =>
      if (224 <=? a) && (a <? 240)
      then Some (((a - 224) * 64 + (b - 128)) * 64 + (c - 128))
      else None
  | [a; b; c; d] =>
      if (240 <=? a) && (a <? 248)
      then Some ((((a - 240) * 64 + (b - 128)) * 64 + (c - 128)) * 64 + (d - 128))
      else None
  | _ => None
  end.

(** What a character is rewritten to; [None] for a character that is
    neither a digit nor white space. *)
Definition numeral_char (ch : string) : option ascii :=
  match code_point ch with
  | Some cp =>
      if cp <? 127 then Some (ascii_of_nat (Z.to_nat cp))
      else if existsb (Z.eqb cp) unicode_spaces then Some " "%char
      else
        match find (fun b => (fst b <=? cp) && (cp <? fst b + snd b))
                unicode_digit_blocks with
        | Some b => Some (ascii_of_nat (48 + Z.to_nat ((cp - fst b) mod 10)))
        | None => None
        end
  | None => None
  end.

Fixpoint rewrite_numeral (chs : list string) : option string :=
  match chs with
  | [] => Some EmptyString
  | ch :: rest =>
      match numeral_char ch, rewrite_numeral rest with
      | Some c, Some t => Some (String c t)
      | _, _ => None
      end
  end.

(** [int(s)] under a limit of digits, with these tables. *)
Definition int_of_unicode (limit : Z) (s : string) : option Z :=
  match rewrite_numeral (characters s) with
  | Some t =>
      match int_of_ascii t with
      | Some z => if exceeds_limit limit (digit_count t) then None else Some z
      | None => None
      end
  | None => None
  end.

(** What [int] does with a string differs from one interpreter to the
    next in two respects, which the model takes from the interpreter
    the program runs on.

    - [int_max_str_digits] is [sys.get_int_max_str_digits()]: 4300 by
      default since 3.11 (and in the security releases of 3.8 to
      3.10), another number or 0 when the user set it, 0 where there
      is no limit.
    - [int_of_text] is [int(s)] for a string that holds a character
      outside ASCII: which characters are decimal digits and which are
      white space is read from the interpreter's Unicode database. *)
Class Interpreter : Type := {
  int_max_str_digits : Z;
  int_of_text : string -> option Z
}.

Section WithInterpreter.
Context {I : Interpreter}.

(** [int(s)] for a string, base ten; [None] stands for [ValueError]. *)
Definition int_of_string (s : string) : option Z :=
  if is_ascii s then
    match int_of_ascii s with
    | Some z =>
        if exceeds_limit int_max_str_digits (digit_count s) then None
        else Some z
    | None => None
    end
  else int_of_text s.

(** Truncation toward zero of a finite float. *)
Definition float_trunc (f : spec_float) : result Z :=
  match f with
  | S754_zero _ => inr 0
  | S754_infinity _ => raise OverflowError
  | S754_nan => raise ValueError
  | S754_finite s m e =>
      let a := if 0 <=? e then Z.pos m * 2 ^ e else Z.pos m / 2 ^ (- e) in
      inr (if s then - a else a)
  end.

Definition py_int (v : pyval) : result Z :=
  match v with
  | PInt z => inr z
  | PBool b => inr (Z.b2z b)
  | PFloat f => float_trunc f
  | PStr s =>
      match int_of_string s with
      | Some z => inr z
      | None => raise ValueError
      end
  | _ => raise TypeError
  end.

End WithInterpreter.

(** ** Numbers

    A Python [float] is an IEEE 754 binary64 number: [spec_float] with
    53 bits of precision and [emax = 1024], rounded to nearest even. *)

Definition prec : Z := 53.
Definition emax : Z := 1024.

Definition fmul : spec_float -> spec_float -> spec_float := SFmul prec emax.
Definition fdiv : spec_float -> spec_float -> spec_float := SFdiv prec emax.
Definition fadd : spec_float -> spec_float -> spec_float := SFadd prec emax.
Definition fsub : spec_float -> spec_float -> spec_float := SFsub prec emax.

(** The float nearest to an integer (infinite when out of range). *)
Definition float_of_Z (z : Z) : spec_float := binary_normalize prec emax z 0 false.

Definition float_is_inf (f : spec_float) : bool :=
  match f with
  | S754_infinity _ => true
  | _ => false
  end.

(** The same float, bit for bit. *)
Definition float_same (f g : spec_float) : bool :=
  match f, g with
  | S754_zero s, S754_zero s' => Bool.eqb s s'
  | S754_infinity s, S754_infinity s' => Bool.eqb s s'
  | S754_nan, S754_nan => true
  | S754_finite s m e, S754_finite s' m' e' =>
      Bool.eqb s s' && Pos.eqb m m' && Z.eqb e e'
  | _, _ => false
  end.

(** [float(z)] for an [int]: too large an integer is an [OverflowError]. *)
Definition float_of_int (z : Z) : result spec_float :=
  let f := float_of_Z z in
  if float_is_inf f then raise OverflowError else inr f.

(** An integer as an exact, unrounded mantissa. *)
Definition exact_of_Z (z : Z) : spec_float :=
  match z with
  | Z0 => S754_zero false
  | Zpos p => S754_finite false p 0
  | Zneg p => S754_finite true p 0
  end.

(** [a / b] on two [int]s: the correctly rounded quotient. *)
Definition int_truediv (a b : Z) : result spec_float :=
  if b =? 0 then raise ZeroDivisionError
  else
    let f := fdiv (exact_of_Z a) (exact_of_Z b) in
    if float_is_inf f then raise OverflowError else inr f.

Inductive num : Type :=
| NInt (z : Z)
| NFloat (f : spec_float).

(** The numeric view of a value ([bool] is a subclass of [int]). *)
Definition as_num (v : pyval) : option num :=
  match v with
  | PBool b => Some (NInt (Z.b2z b))
  | PInt z => Some (NInt z)
  | PFloat f => Some (NFloat f)
  | _ => None
  end.

Definition num_float (n : num) : result spec_float :=
  match n with
  | NInt z => float_of_int z
  | NFloat f => inr f
  end.

Fixpoint str_repeat (n : nat) (s : string) : string :=
  match n with
  | O => EmptyString
  | S n' => s ++ str_repeat n' s
  end.

Fixpoint list_repeat {A : Type} (n : nat) (l : list A) : list A :=
  match n with
  | O => []
  | S n' => l ++ list_repeat n' l
  end.

(** [a * b] *)
Definition py_mul (a b : pyval) : result pyval :=
  match as_num a, as_num b with
  | Some (NInt x), Some (NInt y) => inr (PInt (x * y))
  | Some x, Some y =>
      fx <- num_float x ;; fy <- num_float y ;; inr (PFloat (fmul fx fy))
  | _, _ =>
      match a, as_num b with
      | PStr s, Some (NInt n) => inr (PStr (str_repeat (Z.to_nat n) s))
      | PList l, Some (NInt n) => inr (PList (list_repeat (Z.to_nat n) l))
      | _, _ =>
          match as_num a, b with
          | Some (NInt n), PStr s => inr (PStr (str_repeat (Z.to_nat n) s))
          | Some (NInt n), PList l => inr (PList (list_repeat (Z.to_nat n) l))
          | _, _ => raise TypeError
          end
      end
  end.

(** [a / b] *)
Definition py_truediv (a b : pyval) : result pyval :=
  match as_num a, as_num b with
  | Some (NInt x), Some (NInt y) => f <- int_truediv x y ;; inr (PFloat f)
  | Some x, Some y =>
      fx <- num_float x ;; fy <- num_float y ;;
      if float_is_zero fy then raise ZeroDivisionError
      else inr (PFloat (fdiv fx fy))
  | _, _ => raise TypeError
  end.

(** [a + b] *)
Definition py_add (a b : pyval) : result pyval :=
  match as_num a, as_num b with
  | Some (NInt x), Some (NInt y) => inr (PInt (x + y))
  | Some x, Some y =>
      fx <- num_float x ;; fy <- num_float y ;; inr (PFloat (fadd fx fy))
  | _, _ =>
      match a, b with
      | PStr s, PStr t => inr (PStr (s ++ t))
      | PList l, PList m => inr (PList (l ++ m))
      | _, _ => raise TypeError
      end
  end.

(** [f == z] for a float and an [int]: the exact values are compared. *)
Definition float_eq_Z (f : spec_float) (z : Z) : bool :=
  match f with
  | S754_zero _ => z =? 0
  | S754_finite s m e =>
      let v := if s then Z.neg m else Z.pos m in
      if 0 <=? e then z =? v * 2 ^ e else z * 2 ^ (- e) =? v
  | _ => false
  end.

(** [a == b] on two numbers. *)
Definition num_eq (a b : pyval) : bool :=
  match as_num a, as_num b with
  | Some (NInt x), Some (NInt y) => x =? y
  | Some (NFloat f), Some (NInt y) => float_eq_Z f y
  | Some (NInt x), Some (NFloat g) => float_eq_Z g x
  | Some (NFloat f), Some (NFloat g) => SFeqb f g
  | _, _ => false
  end.

(** ** [format(x, ".1f")] *)

(** [n / d] rounded to the nearest integer, ties to even ([0 < d]). *)
Definition div_half_even (n d : Z) : Z :=
  let q := n / d in
  let r := n mod d in
  match 2 * r ?= d with
  | Lt => q
  | Gt => q + 1
  | Eq => if Z.even q then q else q + 1
  end.

(** The tenths in [m * 2^e], correctly rounded. *)
Definition tenths (m : positive) (e : Z) : Z :=
  if 0 <=? e then Z.pos m * 2 ^ e * 10
  else div_half_even (Z.pos m * 10) (2 ^ (- e)).

Definition fixed1 (neg : bool) (t : Z) : string :=
  (if neg then "-" else "") ++ str_of_N (Z.to_N (t / 10)) ++ "."
    ++ str_of_N (Z.to_N (t mod 10)).

Definition format_float_1f (f : spec_float) : string :=
  match f with
  | S754_zero s => fixed1 s 0
  | S754_infinity s => if s then "-inf" else "inf"
  | S754_nan => "nan"
  | S754_finite s m e => fixed1 s (tenths m e)
  end.

(** [format(v, ".1f")]: a number formats, a string rejects the code
    (ValueError), every other type rejects the format spec (TypeError). *)
Definition format_1f (v : pyval) : result string :=
  match as_num v with
  | Some n => f <- num_float n ;; inr (format_float_1f f)
  | None =>
      match v with
      | PStr _ => raise ValueError
      | _ => raise TypeError
      end
  end.

(** ** Ordering of numbers *)

(** The exact comparison of a float with an integer; [None] when the
    float is not a number. *)
Definition float_cmp_Z (f : spec_float) (z : Z) : option comparison :=
  match f with
  | S754_nan => None
  | S754_zero _ => Some (0 ?= z)
  | S754_infinity s => Some (if s then Lt else Gt)
  | S754_finite s m e =>
      let v := if s then Z.neg m else Z.pos m in
      Some (if 0 <=? e then v * 2 ^ e ?= z else v ?= z * 2 ^ (- e))
  end.

(** The comparison of two numbers; [None] when one is not a number. *)
Definition num_cmp (a b : num) : option comparison :=
  match a, b with
  | NInt x, NInt y => Some (x ?= y)
  | NFloat f, NInt y => float_cmp_Z f y
  | NInt x, NFloat g => option_map CompOpp (float_cmp_Z g x)
  | NFloat f, NFloat g => SFcompare f g
  end.

(** [a < b]: between two numbers only (one side is always a number
    where the program compares). *)
Definition py_lt (a b : pyval) : result bool :=
  match as_num a, as_num b with
  | Some x, Some y =>
      inr (match num_cmp x y with Some Lt => true | _ => false end)
  | _, _ => raise TypeError
  end.

(** [a > b] *)
Definition py_gt (a b : pyval) : result bool := py_lt b a.

(** [a <= b] on two numbers, as a truth value. *)
Definition num_le (a b : pyval) : bool :=
  match as_num a, as_num b with
  | Some x, Some y =>
      match num_cmp x y with Some Lt | Some Eq => true | _ => false end
  | _, _ => false
  end.

(** [max(a, b)]: [b] when [b > a], else [a]. *)
Definition py_max (a b : pyval) : result pyval :=
  g <- py_gt b a ;; inr (if g then b else a).

(** [min(a, b)]: [b] when [b < a], else [a]. *)
Definition py_min (a b : pyval) : result pyval :=
  l <- py_lt b a ;; inr (if l then b else a).

(** [a - b] on numbers. *)
Definition py_sub (a b : pyval) : result pyval :=
  match as_num a, as_num b with
  | Some (NInt x), Some (NInt y) => inr (PInt (x - y))
  | Some x, Some y =>
      fx <- num_float x ;; fy <- num_float y ;; inr (PFloat (fsub fx fy))
  | _, _ => raise TypeError
  end.

(** ** [format(x, ".0f")] *)

(** The units in [m * 2^e], correctly rounded. *)
Definition units (m : positive) (e : Z) : Z :=
  if 0 <=? e then Z.pos m * 2 ^ e
  else div_half_even (Z.pos m) (2 ^ (- e)).

Definition fixed0 (neg : bool) (t : Z) : string :=
  (if neg then "-" else "") ++ str_of_N (Z.to_N t).

Definition format_float_0f (f : spec_float) : string :=
  match f with
  | S754_zero s => fixed0 s 0
  | S754_infinity s => if s then "-inf" else "inf"
  | S754_nan => "nan"
  | S754_finite s m e => fixed0 s (units m e)
  end.

Definition format_0f (v : pyval) : result string :=
  match as_num v with
  | Some n => f <- num_float n ;; inr (format_float_0f f)
  | None =>
      match v with
      | PStr _ => raise ValueError
      | _ => raise TypeError
      end
  end.

(** ** Equality and hashing *)

(** [a != "text"] for a string literal: a value of another type differs. *)
Definition py_ne_str (a : pyval) (text : string) : bool :=
  match a with
  | PStr s => negb (String.eqb s text)
  | _ => true
  end.

(** [v is not None] *)
Definition py_is_not_none (v : pyval) : bool :=
  match v with
  | PNone => false
  | _ => true
  end.

(** [table.get(key, default)] on a dict literal with string keys, for a
    key of any type: a list or a dict cannot be hashed, and no other
    non-string value equals a string. *)
Definition table_get (table : list (string * pyval)) (key default : pyval)
  : result pyval :=
  match key with
  | PStr k =>
      inr (match dict_lookup k table with Some v => v | None => default end)
  | PList _ | PDict _ => raise TypeError
  | _ => inr default
  end.

(** [a or b] *)
Definition py_or (a b : pyval) : pyval := if py_truthy a then a else b.

(** ** [str(x)] *)

(** [str(v)], as an f-string field without a format spec prints it.
    The text of a float, a list or a dict is the library's [repr],
    taken as [repr_other]. *)
Definition py_str (repr_other : pyval -> string) (v : pyval) : string :=
  match v with
  | PNone => "None"
  | PBool true => "True"
  | PBool false => "False"
  | PInt z => str_of_Z z
  | PStr s => s
  | _ => repr_other v
  end.

End Py.


(* ================================================================== *)
(** * The calendar: the part of [datetime] the parser calls            *)
(* ================================================================== *)

Module Calendar.
Import Py.

(** An aware or naive [datetime]; [utcoffset] is in microseconds. *)
Record datetime : Type := mkDatetime {
  year : Z; month : Z; day : Z;
  hour : Z; minute : Z; second : Z; microsecond : Z;
  utcoffset : option Z
}.

Definition is_leap (y : Z) : bool :=
  (y mod 4 =? 0) && (negb (y mod 100 =? 0) || (y mod 400 =? 0)).

Definition days_in_month (y m : Z) : Z :=
  match m with
  | 1 | 3 | 5 | 7 | 8 | 10 | 12 => 31
  | 4 | 6 | 9 | 11 => 30
  | 2 => if is_leap y then 29 else 28
  | _ => 0
  end.

(** Days in the year before the first of month [m], in a common year. *)
Definition days_before_month_common (m : Z) : Z :=
  match m with
  | 1 => 0 | 2 => 31 | 3 => 59 | 4 => 90 | 5 => 120 | 6 => 151
  | 7 => 181 | 8 => 212 | 9 => 243 | 10 => 273 | 11 => 304 | 12 => 334
  | _ => 0
  end.

Definition days_before_month (y m : Z) : Z :=
  days_before_month_common m + (if (2 <? m) && is_leap y then 1 else 0).

Definition days_before_year (y : Z) : Z :=
  let p := y - 1 in
  p * 365 + p / 4 - p / 100 + p / 400.

(** [date.toordinal()]: 1 is 0001-01-01 of the proleptic Gregorian
    calendar. *)
Definition ymd2ord (y m d : Z) : Z :=
  days_before_year y + days_before_month y m + d.

Definition DI400Y : Z := 146097.
Definition DI100Y : Z := 36524.
Definition DI4Y : Z := 1461.
Definition MAXORDINAL : Z := 3652059.

(** [date.fromordinal(n)], after the reference implementation. *)
Definition ord2ymd (n : Z) : Z * Z * Z :=
  let n0 := n - 1 in
  let n400 := n0 / DI400Y in
  let r400 := n0 mod DI400Y in
  let n100 := r400 / DI100Y in
  let r100 := r400 mod DI100Y in
  let n4 := r100 / DI4Y in
  let r4 := r100 mod DI4Y in
  let n1 := r4 / 365 in
  let r1 := r4 mod 365 in
  let y := n400 * 400 + 1 + n100 * 100 + n4 * 4 + n1 in
  if (n1 =? 4) || (n100 =? 4) then (y - 1, 12, 31)
  else
    let leapyear := (n1 =? 3) && (negb (n4 =? 24) || (n100 =? 3)) in
    let m0 := Z.shiftr (r1 + 50) 5 in
    let before m := days_before_month_common m
                    + (if (2 <? m) && leapyear then 1 else 0) in
    let m := if r1 <? before m0 then m0 - 1 else m0 in
    (y, m, r1 - before m + 1).

(** The range checks of the [datetime] constructor. *)
Definition valid_date (y m d : Z) : bool :=
  (1 <=? y) && (y <=? 9999) && (1 <=? m) && (m <=? 12)
  && (1 <=? d) && (d <=? days_in_month y m).

Definition valid_time (h mi s us : Z) : bool :=
  (0 <=? h) && (h <=? 23) && (0 <=? mi) && (mi <=? 59)
  && (0 <=? s) && (s <=? 59) && (0 <=? us) && (us <=? 999999).

(** A fixed offset must lie strictly within one day of UTC. *)
Definition valid_offset (off : Z) : bool :=
  (- 86400000000 <? off) && (off <? 86400000000).

(** ** The strings [datetime.isoformat] writes

    The grammar of [datetime.fromisoformat] in versions 3.8 to 3.10,
    which is that of the strings [isoformat] emits:
    [YYYY-MM-DD[*HH[:MM[:SS[.fff[fff]]]][+HH:MM[:SS[.ffffff]]]]],
    where [*] is any one character.  It serves as one grammar a
    platform may have; later versions read further ISO 8601
    spellings. *)

(** Exactly [n] decimal digits at the head of [s]. *)
Fixpoint take_digits (n : nat) (acc : Z) (s : list ascii) : option (Z * list ascii) :=
  match n with
  | O => Some (acc, s)
  | S n' =>
      match s with
      | c :: s' =>
          match digit_of c with
          | Some d => take_digits n' (10 * acc + d) s'
          | None => None
          end
      | [] => None
      end
  end.

Definition expect (c : ascii) (s : list ascii) : option (list ascii) :=
  match s with
  | x :: s' => if Ascii.eqb x c then Some s' else None
  | [] => None
  end.

(** [HH[:MM[:SS[.fff[fff]]]]]; yields the fields and what follows. *)
Definition parse_hh_mm_ss_ff (s : list ascii) : option (Z * Z * Z * Z * list ascii) :=
  match take_digits 2 0 s with
  | None => None
  | Some (h, s1) =>
      match expect ":" s1 with
      | None => Some (h, 0, 0, 0, s1)
      | Some s1' =>
          match take_digits 2 0 s1' with
          | None => None
          | Some (mi, s2) =>
              match expect ":" s2 with
              | None => Some (h, mi, 0, 0, s2)
              | Some s2' =>
                  match take_digits 2 0 s2' with
                  | None => None
                  | Some (sec, s3) =>
                      match expect "." s3 with
                      | None => Some (h, mi, sec, 0, s3)
                      | Some s3' =>
                          match take_digits 6 0 s3' with
                          | Some (us, s4) => Some (h, mi, sec, us, s4)
                          | None =>
                              match take_digits 3 0 s3' with
                              | Some (ms, s4) => Some (h, mi, sec, ms * 1000, s4)
                              | None => None
                              end
                          end
                      end
                  end
              end
          end
      end
  end.

(** [+HH:MM[:SS[.ffffff]]] up to the end of the string, in microseconds. *)
Definition parse_offset (s : list ascii) : option Z :=
  match s with
  | sg :: s0 =>
      if Ascii.eqb sg "+" || Ascii.eqb sg "-" then
        match take_digits 2 0 s0 with
        | None => None
        | Some (h, s1) =>
            match expect ":" s1 with
            | None => None
            | Some s1' =>
                match take_digits 2 0 s1' with
                | None => None
                | Some (mi, s2) =>
                    let sign := if Ascii.eqb sg "-" then -1 else 1 in
                    let total sec us :=
                      sign * (((h * 3600 + mi * 60 + sec) * 1000000) + us) in
                    match s2 with
                    | [] => Some (total 0 0)
                    | _ =>
                        match expect ":" s2 with
                        | None => None
                        | Some s2' =>
                            match take_digits 2 0 s2' with
                            | None => None
                            | Some (sec, s3) =>
                                match s3 with
                                | [] => Some (total sec 0)
                                | _ =>
                                    match expect "." s3 with
                                    | None => None
                                    | Some s3' =>
                                        match take_digits 6 0 s3' with
                                        | Some (us, []) => Some (total sec us)
                                        | _ => None
                                        end
                                    end
                                end
                            end
                        end
                    end
                end
            end
        end
      else None
  | [] => None
  end.

Definition parse_iso (s : list ascii) : option datetime :=
  match take_digits 4 0 s with
  | None => None
  | Some (y, s1) =>
  match expect "-" s1 with
  | None => None
  | Some s1' =>
  match take_digits 2 0 s1' with
  | None => None
  | Some (m, s2) =>
  match expect "-" s2 with
  | None => None
  | Some s2' =>
  match take_digits 2 0 s2' with
  | None => None
  | Some (d, s3) =>
      match s3 with
      | [] => Some (mkDatetime y m d 0 0 0 0 None)
      | _sep :: t =>
          match parse_hh_mm_ss_ff t with
          | None => None
          | Some (h, mi, sec, us, rest) =>
              match rest with
              | [] => Some (mkDatetime y m d h mi sec us None)
              | _ =>
                  match parse_offset rest with
                  | Some off => Some (mkDatetime y m d h mi sec us (Some off))
                  | None => None
                  end
              end
          end
      end
  end end end end end.

Definition valid_datetime (dt : datetime) : bool :=
  valid_date (year dt) (month dt) (day dt)
  && valid_time (hour dt) (minute dt) (second dt) (microsecond dt)
  && match utcoffset dt with
     | Some off => valid_offset off
     | None => true
     end.

(** A string of that grammar, read; [None] when it is not one, or
    spells no date or time. *)
Definition isoformat_basic (s : string) : option datetime :=
  match parse_iso (list_ascii_of_string s) with
  | Some dt => if valid_datetime dt then Some dt else None
  | None => None
  end.

(** ** The platform

    Beside the interpreter's treatment of numerals, two behaviours of
    the [datetime] module are not the same wherever the program runs,
    and the model takes them from the platform.

    - [isoformat s] is [datetime.fromisoformat(s)], [None] standing
      for its [ValueError].  The grammar grew with version 3.11; what
      every version guarantees is that the result is a [datetime]
      (its fields are in range) and that the strings [isoformat]
      emits are read back, of which the program relies on one, the
      mission start.
    - [pads_year] tells whether [strftime] writes a year below 1000
      with leading zeros: the directive is handed to the C library,
      and glibc writes year 1 as "1" where others write "0001". *)
Class Platform : Type := {
  interpreter :: Interpreter;
  isoformat : string -> option datetime;
  isoformat_valid :
    forall s dt, isoformat s = Some dt -> valid_datetime dt = true;
  isoformat_mission_start :
    isoformat "2018-11-27T00:00:00+00:00"
    = Some (mkDatetime 2018 11 27 0 0 0 0 (Some 0));
  pads_year : bool
}.

Section WithPlatform.
Context {P : Platform}.

(** [datetime.fromisoformat(s)] *)
Definition fromisoformat (s : string) : result datetime :=
  match isoformat s with
  | Some dt => inr dt
  | None => raise ValueError
  end.

End WithPlatform.

(** [dt + timedelta(days=n)]: building the [timedelta] fails beyond
    999999999 days, and the sum must stay within years 1 to 9999.  The
    fields are moved as written: no conversion to UTC takes place. *)
Definition add_days (dt : datetime) (n : Z) : result datetime :=
  if 999999999 <? Z.abs n then raise OverflowError
  else
    let o := ymd2ord (year dt) (month dt) (day dt) + n in
    if (1 <=? o) && (o <=? MAXORDINAL) then
      let '(y, m, d) := ord2ymd o in
      inr (mkDatetime y m d (hour dt) (minute dt) (second dt)
             (microsecond dt) (utcoffset dt))
    else raise OverflowError.

(** Decimal numeral of [z], zero-filled on the left to [width]. *)
Definition zero_pad (width : nat) (z : Z) : string :=
  let s := str_of_N (Z.to_N z) in
  str_repeat (width - String.length s) "0" ++ s.

Section WithPlatform.
Context {P : Platform}.

(** The year as [%Y] writes it: four digits from 1000 on; below, with
    or without leading zeros as the C library has it. *)
Definition year_text (y : Z) : string :=
  if pads_year || (1000 <=? y) then zero_pad 4 y else str_of_N (Z.to_N y).

(** [dt.strftime('%Y-%m-%d')] *)
Definition strftime_Ymd (dt : datetime) : string :=
  year_text (year dt) ++ "-" ++ zero_pad 2 (month dt) ++ "-"
    ++ zero_pad 2 (day dt).

End WithPlatform.

End Calendar.


(* ================================================================== *)
(** * [utils.py]: the data model and the configuration store           *)
(* ================================================================== *)

Module Utils.
Import Py.

(** The degree sign, as its two UTF-8 bytes. *)
Definition degree : string :=
  String (ascii_of_nat 194) (String (ascii_of_nat 176) EmptyString).

(** A constructor call that unpacks [x] as keyword arguments: [x] must
    be a mapping and every key a parameter. *)
Definition kwargs (params : list string) (x : pyval)
  : result (list (string * pyval)) :=
  match x with
  | PDict d =>
      if forallb (fun kv => existsb (String.eqb (fst kv)) params) d
      then inr d else raise TypeError
  | _ => raise TypeError
  end.

(** A parameter without a default. *)
Definition required (k : string) (d : list (string * pyval)) : result pyval :=
  match dict_lookup k d with
  | Some v => inr v
  | None => raise TypeError
  end.

(** A parameter whose default is [None]. *)
Definition optional (k : string) (d : list (string * pyval)) : pyval :=
  match dict_lookup k d with
  | Some v => v
  | None => PNone
  end.

Module TemperatureData.

Record t : Type := mk {
  min_temp : pyval;
  max_temp : pyval;
  avg_temp : pyval
}.

(** [TemperatureData] called on the unpacked mapping [x]. *)
Definition of_kwargs (x : pyval) : result t :=
  d <- kwargs ["min_temp"; "max_temp"; "avg_temp"] x ;;
  mn <- required "min_temp" d ;;
  mx <- required "max_temp" d ;;
  av <- required "avg_temp" d ;;
  inr (mk mn mx av).

(** The expression [c * 9/5 + 32]. *)
Definition fahrenheit (c : pyval) : result pyval :=
  x <- py_mul c (PInt 9) ;;
  y <- py_truediv x (PInt 5) ;;
  py_add y (PInt 32).

Definition to_fahrenheit (self : t) : result t :=
  mn <- fahrenheit (min_temp self) ;;
  mx <- fahrenheit (max_temp self) ;;
  av <- fahrenheit (avg_temp self) ;;
  inr (mk mn mx av).

(** The dict literal at the end of [format_temp]. *)
Definition render (temp_data : t) (unit_symbol : string)
  : result (list (string * string)) :=
  mn <- format_1f (min_temp temp_data) ;;
  mx <- format_1f (max_temp temp_data) ;;
  av <- format_1f (avg_temp temp_data) ;;
  inr [("min", mn ++ unit_symbol);
       ("max", mx ++ unit_symbol);
       ("avg", av ++ unit_symbol)].

Definition format_temp (self : t) (unit : string)
  : result (list (string * string)) :=
  if String.eqb (lower unit) "fahrenheit" then
    temp_data <- to_fahrenheit self ;;
    render temp_data (degree ++ "F")
  else
    render self (degree ++ "C").

(** ** The method on objects

    The definitions above take a record by value.  To speak about the
    object a method is called on and the one it returns, the same
    body is read once more with [self] a reference: the instances of
    the class live in a heap and are named by their position in it;
    reading an attribute leaves the heap as it is, and a call of the
    constructor puts a new object at the next position. *)
Definition heap : Type := list t.

(** A computation on the heap that may raise. *)
Definition Op (A : Type) : Type := heap -> result A * heap.

Definition op_bind {A B : Type} (m : Op A) (k : A -> Op B) : Op B :=
  fun h =>
    match m h with
    | (inr a, h') => k a h'
    | (inl e, h') => (inl e, h')
    end.

(** An expression that touches no object. *)
Definition op_pure {A : Type} (r : result A) : Op A := fun h => (r, h).

(** [obj.attr]; a position beyond the heap names no object, and no
    reference of the program is such. *)
Definition getattr (obj : nat) (attr : t -> pyval) : Op pyval :=
  fun h =>
    match nth_error h obj with
    | Some o => (inr (attr o), h)
    | None => (raise AttributeError, h)
    end.

(** [TemperatureData(min_temp=mn, max_temp=mx, avg_temp=av)] *)
Definition construct (mn mx av : pyval) : Op nat :=
  fun h => (inr (List.length h), (h ++ [mk mn mx av])%list).

(** [self.to_fahrenheit()]: the three keyword arguments are evaluated
    in turn, each reading one attribute of [self]; then the
    constructor is called. *)
Definition to_fahrenheit_call (self : nat) : Op nat :=
  op_bind (getattr self min_temp) (fun c1 =>
  op_bind (op_pure (fahrenheit c1)) (fun mn =>
  op_bind (getattr self max_temp) (fun c2 =>
  op_bind (op_pure (fahrenheit c2)) (fun mx =>
  op_bind (getattr self avg_temp) (fun c3 =>
  op_bind (op_pure (fahrenheit c3)) (fun av =>
  construct mn mx av)))))).

End TemperatureData.

Module PressureData.

Record t : Type := mk {
  pressure : pyval;
  min_pressure : pyval;
  max_pressure : pyval
}.

(** [PressureData] called on the unpacked mapping [x]. *)
Definition of_kwargs (x : pyval) : result t :=
  d <- kwargs ["pressure"; "min_pressure"; "max_pressure"] x ;;
  p <- required "pressure" d ;;
  inr (mk p (optional "min_pressure" d) (optional "max_pressure" d)).

Definition format_pressure (self : t) : result (list (string * string)) :=
  avg <- format_0f (pressure self) ;;
  let result0 := [("avg", avg ++ " Pa")] in
  result1 <-
    (if py_is_not_none (min_pressure self) then
       mn <- format_0f (min_pressure self) ;;
       inr (List.app result0 [("min", mn ++ " Pa")])
     else inr result0) ;;
  if py_is_not_none (max_pressure self) then
    mx <- format_0f (max_pressure self) ;;
    inr (List.app result1 [("max", mx ++ " Pa")])
  else inr result1.

End PressureData.

Module WindData.

Record t : Type := mk {
  wind_speed : pyval;
  wind_direction : pyval
}.

(** [WindData] called on the unpacked mapping [x]. *)
Definition of_kwargs (x : pyval) : result t :=
  d <- kwargs ["wind_speed"; "wind_direction"] x ;;
  s <- required "wind_speed" d ;;
  inr (mk s (optional "wind_direction" d)).

(** The entry under ['direction'] is the attribute itself when it is
    truthy, whatever its type. *)
Definition format_wind (self : t) : result (list (string * pyval)) :=
  speed <- format_1f (wind_speed self) ;;
  inr [("speed", PStr (speed ++ " m/s"));
       ("direction", py_or (wind_direction self) (PStr "Unknown"))].

(** [x.5] for an odd numerator [n]: the float [n / 2]. *)
Definition halves (n : Z) : pyval := PFloat (fdiv (float_of_Z n) (float_of_Z 2)).

Definition direction_map : list (string * pyval) :=
  [("N", PInt 0); ("NNE", halves 45); ("NE", PInt 45); ("ENE", halves 135);
   ("E", PInt 90); ("ESE", halves 225); ("SE", PInt 135); ("SSE", halves 315);
   ("S", PInt 180); ("SSW", halves 405); ("SW", PInt 225); ("WSW", halves 495);
   ("W", PInt 270); ("WNW", halves 585); ("NW", PInt 315); ("NNW", halves 675)].

Definition get_wind_direction_degrees (self : t) : result pyval :=
  table_get direction_map (wind_direction self) PNone.

End WindData.

Module MarsWeatherData.

Record t : Type := mk {
  sol : pyval;
  terrestrial_date : pyval;
  season : pyval;
  temperature : TemperatureData.t;
  pressure : PressureData.t;
  wind : WindData.t
}.

(** [dataclasses.asdict(self)]: nested dataclasses become dicts keyed
    by field name, in field order; field values are copied. *)
Definition to_dict (self : t) : pyval :=
  PDict
    [("sol", sol self);
     ("terrestrial_date", terrestrial_date self);
     ("season", season self);
     ("temperature",
        PDict [("min_temp", TemperatureData.min_temp (temperature self));
               ("max_temp", TemperatureData.max_temp (temperature self));
               ("avg_temp", TemperatureData.avg_temp (temperature self))]);
     ("pressure",
        PDict [("pressure", PressureData.pressure (pressure self));
               ("min_pressure", PressureData.min_pressure (pressure self));
               ("max_pressure", PressureData.max_pressure (pressure self))]);
     ("wind",
        PDict [("wind_speed", WindData.wind_speed (wind self));
               ("wind_direction", WindData.wind_direction (wind self))])].

Definition from_dict (data : pyval) : result t :=
  s <- py_getitem data (PStr "sol") ;;
  td <- py_getitem data (PStr "terrestrial_date") ;;
  se <- py_getitem data (PStr "season") ;;
  x <- py_getitem data (PStr "temperature") ;;
  te <- TemperatureData.of_kwargs x ;;
  y <- py_getitem data (PStr "pressure") ;;
  pr <- PressureData.of_kwargs y ;;
  z <- py_getitem data (PStr "wind") ;;
  wi <- WindData.of_kwargs z ;;
  inr (mk s td se te pr wi).

End MarsWeatherData.

(** ** The configuration store

    What the file system answers to the calls of [get_config_path] and
    [load_config]: whether [~/.mars_weather] exists, what
    [os.makedirs] does when asked to create it, whether [config.json]
    exists, and what opening and decoding it yields. *)
Record ConfigFs : Type := mkConfigFs {
  dir_exists : bool;
  makedirs : result unit;
  file_exists : bool;
  json_load : result pyval
}.

(** Only the failure of [get_config_path] matters to its callers: the
    path itself is a constant of the model. *)
Definition get_config_path (fs : ConfigFs) : result unit :=
  if negb (dir_exists fs) then makedirs fs else inr tt.

Definition default_config : list (string * pyval) :=
  [("api_key", PStr "DEMO_KEY");
   ("temperature_unit", PStr "Celsius");
   ("auto_refresh", PBool true);
   ("refresh_interval", PInt 300);
   ("notifications_enabled", PBool true)].

(** The dict display that unpacks [default_config], then [config]: the
    second operand must be a mapping. *)
Definition merge_into_defaults (config : pyval) : result (list (string * pyval)) :=
  match config with
  | PDict c => inr (dict_merge default_config c)
  | _ => raise TypeError
  end.

Definition load_config (fs : ConfigFs) : result (list (string * pyval)) :=
  _ <- get_config_path fs ;;
  let attempt : result (option (list (string * pyval))) :=
    if file_exists fs then
      config <- json_load fs ;;
      merged <- merge_into_defaults config ;;
      inr (Some merged)
    else inr None in
  match attempt with
  | inr (Some merged) => inr merged
  | inr None => inr default_config
  | inl _ => inr default_config
  end.

(** What [json.dump] into the opened file does is the file system's
    answer too; [save_config] asks for the path inside its [try]. *)
Definition save_config (fs : ConfigFs) (write : result unit) : bool :=
  match (_ <- get_config_path fs ;; write) with
  | inr _ => true
  | inl _ => false
  end.

(** ** The configuration store, written

    What opening a file for writing and [json.dump] into it do: the
    dump completes; or [open] fails and the file is as it was; or the
    dump fails and leaves [remains] to be read back. *)
Inductive write_outcome : Type :=
| WriteDone
| OpenFails (e : exc)
| DumpFails (e : exc) (remains : result pyval).

Definition write_result (io : write_outcome) : result unit :=
  match io with
  | WriteDone => inr tt
  | OpenFails e => inl e
  | DumpFails e _ => inl e
  end.

(** [save_config config] with the file system it leaves behind.  A
    value of the model that was dumped is read back as itself. *)
Definition save_config_to (fs : ConfigFs) (io : write_outcome) (config : pyval)
  : bool * ConfigFs :=
  match get_config_path fs with
  | inl _ => (false, fs)
  | inr _ =>
      match io with
      | WriteDone => (true, mkConfigFs true (makedirs fs) true (inr config))
      | OpenFails _ =>
          (false, mkConfigFs true (makedirs fs) (file_exists fs) (json_load fs))
      | DumpFails _ remains => (false, mkConfigFs true (makedirs fs) true remains)
      end
  end.

(** ** The cache

    The cache directory: whether it exists, and for each file name
    what opening and decoding the file yields ([None]: no such file). *)
Record CacheFs : Type := mkCacheFs {
  cache_dir_exists : bool;
  cache_file : string -> option (result pyval)
}.

Definition write_file (name : string) (content : result pyval) (fs : CacheFs)
  : CacheFs :=
  mkCacheFs (cache_dir_exists fs)
    (fun n => if String.eqb n name then Some content else cache_file fs n).

(** [mk] is what [os.makedirs] does if it is called. *)
Definition get_cache_path (mk : result unit) (fs : CacheFs) : result unit * CacheFs :=
  if negb (cache_dir_exists fs) then
    match mk with
    | inr _ => (inr tt, mkCacheFs true (cache_file fs))
    | inl e => (inl e, fs)
    end
  else (inr tt, fs).

Section Cache.

(** [repr] of a float, a list or a dict, for [str]. *)
Variable repr_other : pyval -> string.

(** The name [f"weather_sol_{sol}.json"]. *)
Definition cache_file_name (sol : pyval) : string :=
  "weather_sol_" ++ py_str repr_other sol ++ ".json".

Definition cache_weather_data (mk : result unit) (io : write_outcome)
           (data : MarsWeatherData.t) (fs : CacheFs) : bool * CacheFs :=
  match get_cache_path mk fs with
  | (inl _, fs1) => (false, fs1)
  | (inr _, fs1) =>
      let name := cache_file_name (MarsWeatherData.sol data) in
      match io with
      | WriteDone =>
          (true, write_file name (inr (MarsWeatherData.to_dict data)) fs1)
      | OpenFails _ => (false, fs1)
      | DumpFails _ remains => (false, write_file name remains fs1)
      end
  end.

Definition load_cached_weather_data (mk : result unit) (sol : pyval)
           (fs : CacheFs) : option MarsWeatherData.t * CacheFs :=
  match get_cache_path mk fs with
  | (inl _, fs1) => (None, fs1)
  | (inr _, fs1) =>
      match cache_file fs1 (cache_file_name sol) with
      | Some content =>
          match (data <- content ;; MarsWeatherData.from_dict data) with
          | inr r => (Some r, fs1)
          | inl _ => (None, fs1)
          end
      | None => (None, fs1)
      end
  end.

End Cache.

Definition validate_temperature_unit (unit : string) : string :=
  let unit := lower unit in
  if existsb (String.eqb unit) ["celsius"; "c"] then "Celsius"
  else if existsb (String.eqb unit) ["fahrenheit"; "f"] then "Fahrenheit"
  else "Celsius".

End Utils.

(* ================================================================== *)
(** * [api_client.py]: the weather source                              *)
(* ================================================================== *)

Module ApiClient.
Import Py Calendar Utils.

(** ** The world a call runs in

    [entropy] is what the random generator will deliver, draw by draw,
    and [cursor] counts the draws made so far; [now] is the local wall
    clock.  Every sequence of draws is some world. *)
Record World : Type := mkWorld {
  entropy : nat -> N;
  cursor : nat;
  now : datetime
}.

(** A computation that may raise and may draw random numbers. *)
Definition M (A : Type) : Type := World -> result A * World.

Definition ret {A : Type} (a : A) : M A := fun w => (inr a, w).

Definition throw {A : Type} (e : exc) : M A := fun w => (inl e, w).

Definition bind {A B : Type} (m : M A) (k : A -> M B) : M B :=
  fun w =>
    match m w with
    | (inr a, w') => k a w'
    | (inl e, w') => (inl e, w')
    end.

Definition lift {A : Type} (r : result A) : M A := fun w => (r, w).

(** [try: body / except Exception as e: handler e] *)
Definition try_except {A : Type} (body : M A) (handler : exc -> M A) : M A :=
  fun w =>
    match body w with
    | (inr a, w') => (inr a, w')
    | (inl e, w') => handler e w'
    end.

Notation "x <~ m ;; k" := (bind m (fun x => k))
  (at level 61, m at next level, right associativity).

(** ** The [random] module *)

(** One draw, reduced below [n] ([0 < n]). *)
Definition randbelow (n : Z) : M Z :=
  fun w =>
    (inr (Z.of_N (entropy w (cursor w)) mod n),
     mkWorld (entropy w) (S (cursor w)) (now w)).

(** [random.randint(a, b)]: an integer of [a..b], ends included. *)
Definition randint (a b : Z) : M Z :=
  k <~ randbelow (b - a + 1) ;; ret (a + k).

(** [random.choice(seq)] on a non-empty list; [d] is never returned. *)
Definition choice {A : Type} (d : A) (seq : list A) : M A :=
  k <~ randbelow (Z.of_nat (List.length seq)) ;; ret (nth (Z.to_nat k) seq d).

(** [random.random()]: a multiple of [2^-53] in [[0, 1)]. *)
Definition random : M spec_float :=
  k <~ randbelow (2 ^ 53) ;; ret (fdiv (float_of_Z k) (float_of_Z (2 ^ 53))).

(** [random.uniform(a, b)], which is [a + (b - a) * random()]. *)
Definition uniform (a b : spec_float) : M spec_float :=
  u <~ random ;; ret (fadd a (fmul (fsub b a) u)).

(** [datetime.now()] *)
Definition datetime_now : M datetime := fun w => (inr (now w), w).

(** The float literals of the file. *)
Definition f2_0 : spec_float := float_of_Z 2.
Definition f15_0 : spec_float := float_of_Z 15.
Definition f5_5 : spec_float := fdiv (float_of_Z 11) (float_of_Z 2).

(** ** [NASAAPIClient] *)

Definition directions : list string :=
  ["N"; "NE"; "E"; "SE"; "S"; "SW"; "W"; "NW"].

Definition seasons : list string :=
  ["Spring"; "Summer"; "Autumn"; "Winter"].

Section WithPlatform.
Context {P : Platform}.

Definition _get_demo_weather_data : M MarsWeatherData.t :=
  base_temp <~ randint (-90) (-40) ;;
  dmin <~ randint 5 15 ;;
  dmax <~ randint 10 30 ;;
  let temperature :=
    TemperatureData.mk (PInt (base_temp - dmin)) (PInt (base_temp + dmax))
      (PInt base_temp) in
  p <~ randint 600 800 ;;
  pmin <~ randint 580 650 ;;
  pmax <~ randint 750 850 ;;
  let pressure := PressureData.mk (PInt p) (PInt pmin) (PInt pmax) in
  speed <~ uniform f2_0 f15_0 ;;
  dir <~ choice "" directions ;;
  let wind := WindData.mk (PFloat speed) (PStr dir) in
  k <~ randint 0 500 ;;
  let current_sol := 3000 + k in
  today <~ datetime_now ;;
  season <~ choice "" seasons ;;
  ret (MarsWeatherData.mk (PInt current_sol) (PStr (strftime_Ymd today))
         (PStr season) temperature pressure wind).

(** [s.replace('Z', '+00:00')]: only a string has the method. *)
Definition replace_Z (v : pyval) : result string :=
  match v with
  | PStr s => inr (replace_char "Z" "+00:00" s)
  | _ => raise AttributeError
  end.

(** The body of [_parse_weather_data] from [sol_data = data[latest_sol]]
    to the final [return]: everything that is read off the payload once
    the latest sol is chosen. *)
Definition parse_latest (data latest_sol : pyval) : result MarsWeatherData.t :=
  sol_data <- py_getitem data latest_sol ;;
  temp_data <- py_get sol_data "AT" (PDict []) ;;
  t_mn <- py_get temp_data "mn" (PInt (-80)) ;;
  t_mx <- py_get temp_data "mx" (PInt (-20)) ;;
  t_av <- py_get temp_data "av" (PInt (-50)) ;;
  let temperature := TemperatureData.mk t_mn t_mx t_av in
  pressure_data <- py_get sol_data "PRE" (PDict []) ;;
  p_av <- py_get pressure_data "av" (PInt 650) ;;
  p_mn <- py_get pressure_data "mn" (PInt 600) ;;
  p_mx <- py_get pressure_data "mx" (PInt 700) ;;
  let pressure := PressureData.mk p_av p_mn p_mx in
  wind_data <- py_get sol_data "HWS" (PDict []) ;;
  w_av <- py_get wind_data "av" (PFloat f5_5) ;;
  wd <- py_get sol_data "WD" (PDict []) ;;
  most_common <- py_get wd "most_common" (PDict []) ;;
  compass_point <- py_get most_common "compass_point" (PStr "NE") ;;
  let wind := WindData.mk w_av compass_point in
  season <- py_get sol_data "Season" (PStr "Unknown") ;;
  sol_one <- py_get data "1" (PDict []) ;;
  first_utc <- py_get sol_one "First_UTC" (PStr "2018-11-27T00:00:00Z") ;;
  iso <- replace_Z first_utc ;;
  base_date <- fromisoformat iso ;;
  days <- py_int latest_sol ;;
  current_date <- add_days base_date days ;;
  sol <- py_int latest_sol ;;
  inr (MarsWeatherData.mk (PInt sol) (PStr (strftime_Ymd current_date))
         season temperature pressure wind).

(** The [try] block of [_parse_weather_data]. *)
Definition parse_body (data : pyval) : M MarsWeatherData.t :=
  sol_keys <~ lift (py_get data "sol_keys" (PList [])) ;;
  if negb (py_truthy sol_keys) then _get_demo_weather_data
  else
    latest_sol <~ lift (py_getitem sol_keys (PInt (-1))) ;;
    lift (parse_latest data latest_sol).

Definition _parse_weather_data (data : pyval) : M MarsWeatherData.t :=
  try_except (parse_body data) (fun _ => _get_demo_weather_data).

(** What [session.get] hands back, when it does: the status code and
    the outcome of [response.json()]. *)
Record Response : Type := mkResponse {
  status_code : Z;
  json : result pyval
}.

(** The four messages the client raises with. *)
Definition invalid_key_error : exc :=
  Exc Exception_ "Invalid API key. Please check your NASA API key.".
Definition rate_limit_error : exc :=
  Exc Exception_ "API rate limit exceeded. Please try again later.".
Definition timeout_error : exc :=
  Exc Exception_ "Request timed out. Please check your internet connection.".
Definition connection_error : exc :=
  Exc Exception_ "Connection error. Please check your internet connection.".

(** The [try] block of [get_mars_weather]; [net] is the outcome of
    [self.session.get(url, params=params, timeout=30)]. *)
Definition fetch_body (net : result Response) : M MarsWeatherData.t :=
  response <~ lift net ;;
  if status_code response =? 200 then
    data <~ lift (json response) ;;
    _parse_weather_data data
  else if status_code response =? 403 then throw invalid_key_error
  else if status_code response =? 429 then throw rate_limit_error
  else _get_demo_weather_data.

(** The [except] clauses, tried in order; a [raise] inside a clause
    leaves the statement. *)
Definition fetch_handler (e : exc) : M MarsWeatherData.t :=
  if is_req_timeout (exc_cls e) then throw timeout_error
  else if is_req_connection_error (exc_cls e) then throw connection_error
  else _get_demo_weather_data.

Definition get_mars_weather (net : result Response) : M MarsWeatherData.t :=
  try_except (fetch_body net) fetch_handler.

End WithPlatform.

Definition get_historical_weather (days : Z) : list MarsWeatherData.t := [].

(** [validate_api_key]: [net] is the outcome of the [session.get] on
    the picture-of-the-day endpoint; the bare [except] takes all. *)
Definition validate_api_key (net : result Response) : bool :=
  match net with
  | inr response => status_code response =? 200
  | inl _ => false
  end.

End ApiClient.


(* ================================================================== *)
(** * [weather_ui.py] and [main.py]: what the callers decide            *)
(* ================================================================== *)

Module WeatherUI.
Import Py Utils.

Definition direction_map : list (string * pyval) :=
  [("N", PInt 0); ("NNE", WindData.halves 45); ("NE", PInt 45);
   ("ENE", WindData.halves 135);
   ("E", PInt 90); ("ESE", WindData.halves 225); ("SE", PInt 135);
   ("SSE", WindData.halves 315);
   ("S", PInt 180); ("SSW", WindData.halves 405); ("SW", PInt 225);
   ("WSW", WindData.halves 495);
   ("W", PInt 270); ("WNW", WindData.halves 585); ("NW", PInt 315);
   ("NNW", WindData.halves 675)].

Definition get_direction_degrees (direction : pyval) : result pyval :=
  table_get direction_map direction (PInt 0).

(** The arrow [draw_wind_compass] decides to draw: [None] when it draws
    none, else the bearing in degrees and the length.  The canvas calls
    and the trigonometry that places the arrow's end are not modelled;
    [radius - 5] is 35. *)
Definition draw_wind_compass (direction speed : pyval)
  : result (option (pyval * pyval)) :=
  if py_truthy direction && py_ne_str direction "Unknown" then
    degrees <- get_direction_degrees direction ;;
    if py_is_not_none degrees then
      _ <- py_sub degrees (PInt 90) ;;
      scaled <- py_mul speed (PInt 3) ;;
      longest <- py_max (PInt 10) scaled ;;
      arrow_length <- py_min (PInt 35) longest ;;
      inr (Some (degrees, arrow_length))
    else inr None
  else inr None.

End WeatherUI.

Module Main.
Import Py Calendar Utils ApiClient.

(** What the background thread asks the main thread to do. *)
Inductive ui_call : Type :=
| update_ui_with_weather (weather_data : MarsWeatherData.t)
| show_error (error_msg : string).

(** An instance of a dataclass that defines neither [__bool__] nor
    [__len__] is true. *)
Definition instance_truthy (weather_data : MarsWeatherData.t) : bool := true.

Section WithPlatform.
Context {P : Platform}.

(** [_fetch_weather_data]; [str(e)] of an exception built from one
    message is the message. *)
Definition _fetch_weather_data (net : result Response) (w : World)
  : ui_call * World :=
  match get_mars_weather net w with
  | (inr weather_data, w') =>
      if instance_truthy weather_data
      then (update_ui_with_weather weather_data, w')
      else (show_error "No weather data available", w')
  | (inl e, w') =>
      (show_error ("Failed to fetch weather data: " ++ exc_msg e), w')
  end.

End WithPlatform.

End Main.

(* ================================================================== *)
(** * The specification's vocabulary                                   *)
(* ================================================================== *)

(** Definitions written after the words of the specification, to be
    compared with the code above. *)
Module Spec.
Import Py Calendar Utils ApiClient.

(** The value found by following [path] through nested mappings; a
    level is missing when the key is absent or the value reached is
    not a mapping. *)
Fixpoint path_lookup (v : pyval) (path : list string) : option pyval :=
  match path with
  | [] => Some v
  | k :: rest =>
      match v with
      | PDict d =>
          match dict_lookup k d with
          | Some x => path_lookup x rest
          | None => None
          end
      | _ => None
      end
  end.

(** The field at [path], or its default when any level is missing. *)
Definition field_or (v : pyval) (path : list string) (default : pyval) : pyval :=
  match path_lookup v path with
  | Some x => x
  | None => default
  end.

(** The default wind speed, 5.5 = 11/2. *)
Definition five_and_a_half : spec_float := S754_finite false (11 * 2 ^ 49) (-50).

(** The fixed mission-start timestamp. *)
Definition mission_start : string := "2018-11-27T00:00:00Z".

(** [sol_keys] is absent from the payload, or is the empty list. *)
Definition sol_keys_absent_or_empty (data : pyval) : Prop :=
  exists d, data = PDict d
    /\ (dict_lookup "sol_keys" d = None
        \/ dict_lookup "sol_keys" d = Some (PList [])).

(** The synthetic-record invariants. *)
Definition synthetic_record (r : MarsWeatherData.t) : Prop :=
  exists sol avg dmin dmax p pmin pmax speed dir sea date,
    r = MarsWeatherData.mk (PInt sol) (PStr date) (PStr sea)
          (TemperatureData.mk (PInt (avg - dmin)) (PInt (avg + dmax)) (PInt avg))
          (PressureData.mk (PInt p) (PInt pmin) (PInt pmax))
          (WindData.mk (PFloat speed) (PStr dir))
    /\ 3000 <= sol <= 3500
    /\ In sea ["Spring"; "Summer"; "Autumn"; "Winter"]
    /\ In dir ["N"; "NE"; "E"; "SE"; "S"; "SW"; "W"; "NW"]
    /\ - 90 <= avg <= - 40 /\ 5 <= dmin <= 15 /\ 10 <= dmax <= 30
    /\ 600 <= p <= 800 /\ 580 <= pmin <= 650 /\ 750 <= pmax <= 850.

(** The default table: each field of the record is the value at its
    path in the sol, or the documented default. *)
Definition follows_default_table (sol_data : pyval) (r : MarsWeatherData.t) : Prop :=
  TemperatureData.min_temp (MarsWeatherData.temperature r)
  = field_or sol_data ["AT"; "mn"] (PInt (-80))
  /\ TemperatureData.max_temp (MarsWeatherData.temperature r)
     = field_or sol_data ["AT"; "mx"] (PInt (-20))
  /\ TemperatureData.avg_temp (MarsWeatherData.temperature r)
     = field_or sol_data ["AT"; "av"] (PInt (-50))
  /\ PressureData.min_pressure (MarsWeatherData.pressure r)
     = field_or sol_data ["PRE"; "mn"] (PInt 600)
  /\ PressureData.max_pressure (MarsWeatherData.pressure r)
     = field_or sol_data ["PRE"; "mx"] (PInt 700)
  /\ PressureData.pressure (MarsWeatherData.pressure r)
     = field_or sol_data ["PRE"; "av"] (PInt 650)
  /\ WindData.wind_speed (MarsWeatherData.wind r)
     = field_or sol_data ["HWS"; "av"] (PFloat five_and_a_half)
  /\ WindData.wind_direction (MarsWeatherData.wind r)
     = field_or sol_data ["WD"; "most_common"; "compass_point"] (PStr "NE")
  /\ MarsWeatherData.season r = field_or sol_data ["Season"] (PStr "Unknown").

Section WithPlatform.
Context {P : Platform}.

(** The instant the specification dates a record from: the
    [First_UTC] of the sol keyed "1", or the mission start, read as an
    ISO 8601 instant and moved by [n] whole days. *)
Definition anchored_instant (data : pyval) (n : Z) : result datetime :=
  iso <- replace_Z (field_or data ["1"; "First_UTC"] (PStr mission_start)) ;;
  base <- fromisoformat iso ;;
  add_days base n.

End WithPlatform.

(** A date written as YYYY-MM-DD. *)
Definition ymd_text (dt : datetime) : string :=
  zero_pad 4 (year dt) ++ "-" ++ zero_pad 2 (month dt) ++ "-"
    ++ zero_pad 2 (day dt).

(** The payload [data] with the [First_UTC] field of the sol keyed [k]
    set to [v] (nothing else changes; a sol that is not a mapping is
    left alone). *)
Definition with_first_utc (data : pyval) (k : string) (v : pyval) : pyval :=
  match data with
  | PDict d =>
      match dict_lookup k d with
      | Some (PDict sd) => PDict (dict_set k (PDict (dict_set "First_UTC" v sd)) d)
      | _ => data
      end
  | _ => data
  end.

(** The terrestrial date of the record a run returned. *)
Definition returned_date (x : result MarsWeatherData.t * World) : option pyval :=
  match fst x with
  | inr r => Some (MarsWeatherData.terrestrial_date r)
  | inl _ => None
  end.

(** [c * 9/5 + 32] in binary64 arithmetic. *)
Definition fahrenheit_of (c : spec_float) : spec_float :=
  fadd (fdiv (fmul c (float_of_Z 9)) (float_of_Z 5)) (float_of_Z 32).

(** The same on an integer [z]: [z * 9] is exact, its quotient by 5 is
    rounded once, and 32 is added; [None] when the quotient is beyond
    the floats. *)
Definition fahrenheit_of_int (z : Z) : option spec_float :=
  let q := fdiv (exact_of_Z (z * 9)) (exact_of_Z 5) in
  if float_is_inf q then None else Some (fadd q (float_of_Z 32)).

(** The conversion of one field: a number converts, to a float; an
    integer too large for one overflows; nothing else is a
    temperature. *)
Definition converted (v : pyval) : result pyval :=
  match as_num v with
  | Some (NFloat f) => inr (PFloat (fahrenheit_of f))
  | Some (NInt z) =>
      match fahrenheit_of_int z with
      | Some f => inr (PFloat f)
      | None => raise OverflowError
      end
  | None => raise TypeError
  end.

(** Three temperatures shown to one decimal, each followed by [sym]. *)
Definition shown_temps (sym : string) (mn mx av : spec_float)
  : list (string * string) :=
  [("min", format_float_1f mn ++ sym);
   ("max", format_float_1f mx ++ sym);
   ("avg", format_float_1f av ++ sym)].

(** The five documented defaults of the configuration. *)
Definition documented_defaults : list (string * pyval) :=
  [("api_key", PStr "DEMO_KEY");
   ("temperature_unit", PStr "Celsius");
   ("auto_refresh", PBool true);
   ("refresh_interval", PInt 300);
   ("notifications_enabled", PBool true)].

(** The exception the [try] block of [get_mars_weather] meets before
    any parsing: the transport's, or that of decoding a 200 body. *)
Definition request_failure (net : result Response) : option exc :=
  match net with
  | inl e => Some e
  | inr response =>
      if status_code response =? 200 then
        match json response with
        | inl e => Some e
        | inr _ => None
        end
      else None
  end.

(** The last character of a text, as a string. *)
Definition last_char (s : string) : string := last (characters s) EmptyString.

(** The sixteen compass points, clockwise from north. *)
Definition compass16 : list string :=
  ["N"; "NNE"; "NE"; "ENE"; "E"; "ESE"; "SE"; "SSE";
   "S"; "SSW"; "SW"; "WSW"; "W"; "WNW"; "NW"; "NNW"].

(** [i] times 22.5, as a float. *)
Definition bearing (i : nat) : pyval :=
  PFloat (fdiv (float_of_Z (45 * Z.of_nat i)) (float_of_Z 2)).

(** The keys [from_dict] subscripts its argument with. *)
Definition record_keys : list string :=
  ["sol"; "terrestrial_date"; "season"; "temperature"; "pressure"; "wind"].

End Spec.

(* ================================================================== *)
(** * Test data                                                        *)
(* ================================================================== *)

Module Fixtures.
Import Py Calendar Utils ApiClient.

(** The platform of the examples: an [int] with the limit of 4300
    digits and the digits of Unicode 14.0, as Python 3.11 has it; a C
    library that does not pad the year, as glibc; and for
    [fromisoformat] the grammar of the strings [isoformat] emits,
    which 3.11 reads among others. *)
Definition interpreter0 : Interpreter :=
  {| int_max_str_digits := 4300; int_of_text := int_of_unicode 4300 |}.

#[export] Instance platform0 : Platform | 100.
Proof.
  refine {| interpreter := interpreter0;
            isoformat := isoformat_basic;
            isoformat_valid := _;
            isoformat_mission_start := eq_refl;
            pads_year := false |}.
  intros s dt. unfold isoformat_basic.
  destruct (parse_iso (list_ascii_of_string s)) as [dt0 |]; [| discriminate].
  destruct (valid_datetime dt0) eqn:Hv; [| discriminate].
  intros H. injection H as <-. exact Hv.
Defined.

(** A world: some entropy, no draw made yet, the clock at noon. *)
Definition world0 : World :=
  mkWorld (fun n => N.of_nat (n * 37 + 13)) 0
    (mkDatetime 2024 2 29 12 0 0 0 None).

(** Two sols listed out of numeric order, [610] before [600]. *)
Definition payload_out_of_order : pyval :=
  PDict
    [("sol_keys", PList [PStr "610"; PStr "600"]);
     ("610", PDict [("AT", PDict [("av", PInt (-61))]);
                    ("Season", PStr "summer")]);
     ("600", PDict [("AT", PDict [("av", PInt (-60)); ("mn", PInt (-95))]);
                    ("WD", PDict [("most_common", PDict [])]);
                    ("Season", PStr "winter")])].

(** The record the code builds from it. *)
Definition record_600 : MarsWeatherData.t :=
  MarsWeatherData.mk (PInt 600) (PStr "2020-07-19") (PStr "winter")
    (TemperatureData.mk (PInt (-95)) (PInt (-20)) (PInt (-60)))
    (PressureData.mk (PInt 650) (PInt 600) (PInt 700))
    (WindData.mk (PFloat f5_5) (PStr "NE")).

(** A record with no pressure extremes and no wind direction. *)
Definition record_sparse : MarsWeatherData.t :=
  MarsWeatherData.mk (PInt 700) (PStr "2020-10-27") (PStr "Unknown")
    (TemperatureData.mk (PInt (-80)) (PInt (-20)) (PInt (-50)))
    (PressureData.mk (PInt 650) PNone PNone)
    (WindData.mk (PFloat f5_5) PNone).

(** The only sol is the one keyed ["1"], with its own [First_UTC]. *)
Definition payload_sol_one : pyval :=
  PDict
    [("sol_keys", PList [PStr "1"]);
     ("1", PDict [("First_UTC", PStr "2020-01-01T00:00:00Z")])].

(** Sol 1 anchors the calendar; sol 259 carries its own [First_UTC]. *)
Definition payload_anchor : pyval :=
  PDict
    [("sol_keys", PList [PStr "1"; PStr "259"]);
     ("1", PDict [("First_UTC", PStr "2018-11-27T05:50:25Z")]);
     ("259", PDict [("First_UTC", PStr "2019-08-19T08:03:59Z");
                    ("PRE", PDict [("av", PFloat f5_5)])])].

(** The sol that lies 737024 days before the mission start: the first
    day of year 1. *)
Definition payload_year_one : pyval :=
  PDict [("sol_keys", PList [PStr "-737024"]); ("-737024", PDict [])].

(** The numeral 12 in full-width digits (U+FF11, U+FF12), as its six
    UTF-8 bytes. *)
Definition fullwidth_12 : string :=
  string_of_list_ascii (map ascii_of_nat [239; 188; 145; 239; 188; 146])%nat.

(** A sol keyed by it; and a [sol_keys] that is a string ending in the
    full-width digit 2, with a sol keyed by that character. *)
Definition payload_fullwidth : pyval :=
  PDict [("sol_keys", PList [PStr fullwidth_12]); (fullwidth_12, PDict [])].

Definition payload_fullwidth_text : pyval :=
  PDict [("sol_keys", PStr fullwidth_12);
         (string_of_list_ascii (map ascii_of_nat [239; 188; 146])%nat, PDict [])].

(** [sol_keys] names a sol the payload does not carry. *)
Definition payload_dangling : pyval :=
  PDict [("sol_keys", PList [PStr "42"])].

(** A home directory in which [.mars_weather] cannot be created. *)
Definition fs_readonly_home : ConfigFs :=
  mkConfigFs false (inl (Exc PermissionError "")) false
    (inl (Exc FileNotFoundError "")).

(** A configuration file that only sets the temperature unit. *)
Definition fs_fahrenheit_only : ConfigFs :=
  mkConfigFs true (inr tt) true
    (inr (PDict [("temperature_unit", PStr "Fahrenheit")])).

(** The record of the specification's conversion example. *)
Definition celsius_example : TemperatureData.t :=
  TemperatureData.mk (PInt (-80)) (PInt (-20)) (PInt (-50)).

(** A world whose fourth draw is 0 and whose fifth is 70. *)
Definition world_inverted : World :=
  mkWorld (fun n => if Nat.eqb n 4 then 70%N else 0%N) 0
    (mkDatetime 2024 2 29 12 0 0 0 None).

(** Only sol 600, and nothing before it. *)
Definition payload_only_600 : pyval :=
  PDict
    [("600", PDict [("AT", PDict [("av", PInt (-60)); ("mn", PInt (-95))]);
                    ("WD", PDict [("most_common", PDict [])]);
                    ("Season", PStr "winter")]);
     ("sol_keys", PList [PStr "600"])].

(** The stored form of [record_600] with one more key, the others in
    reverse order. *)
Definition stored_600_annotated : list (string * pyval) :=
  [("cached_at", PStr "2020-07-19T10:00:00");
   ("wind", PDict [("wind_speed", PFloat f5_5); ("wind_direction", PStr "NE")]);
   ("pressure",
      PDict [("pressure", PInt 650); ("min_pressure", PInt 600);
             ("max_pressure", PInt 700)]);
   ("temperature",
      PDict [("min_temp", PInt (-95)); ("max_temp", PInt (-20));
             ("avg_temp", PInt (-60))]);
   ("season", PStr "winter");
   ("terrestrial_date", PStr "2020-07-19");
   ("sol", PInt 600)].

(** A cache directory that holds sol 600 only. *)
Definition cache_of_600 : CacheFs :=
  mkCacheFs true
    (fun n => if String.eqb n "weather_sol_600.json"
              then Some (inr (MarsWeatherData.to_dict record_600)) else None).

(** No cache directory yet. *)
Definition cache_absent : CacheFs := mkCacheFs false (fun _ => None).

(** The sols of the examples are integers: no [repr] is asked for. *)
Definition repr_unused (v : pyval) : string := "".

End Fixtures.


(* ================================================================== *)
(** * Properties                                                       *)
(* ================================================================== *)

Import Py Calendar Utils ApiClient Spec Fixtures.

(** ** Results and dictionaries *)

Lemma rbind_inr {A B : Type} (r : result A) (k : A -> result B) (b : B) :
  rbind r k = inr b -> exists a, r = inr a /\ k a = inr b.
Proof.
  destruct r as [e | a]; simpl; intros H.
  - discriminate.
  - exists a. split; [reflexivity | exact H].
Qed.

(** Inverts a chain of binds that is known to return. *)
Ltac invert_binds H :=
  repeat match type of H with
         | rbind _ _ = inr _ =>
             let a := fresh "v" in
             let Ha := fresh "Hv" in
             apply rbind_inr in H; destruct H as (a & Ha & H)
         end.

Lemma dict_lookup_set_same (k : string) (v : pyval) (d : list (string * pyval)) :
  dict_lookup k (dict_set k v d) = Some v.
Proof.
  induction d as [| [k' v'] d IH]; simpl.
  - rewrite String.eqb_refl. reflexivity.
  - destruct (String.eqb k k') eqn:E; simpl; rewrite E.
    + reflexivity.
    + exact IH.
Qed.

Lemma dict_lookup_set_other (k k0 : string) (v : pyval) (d : list (string * pyval)) :
  k0 <> k -> dict_lookup k0 (dict_set k v d) = dict_lookup k0 d.
Proof.
  intros Hne.
  induction d as [| [k' v'] d IH]; simpl.
  - destruct (String.eqb k0 k) eqn:E; [| reflexivity].
    apply String.eqb_eq in E. contradiction.
  - destruct (String.eqb k k') eqn:E; simpl.
    + apply String.eqb_eq in E. subst k'.
      destruct (String.eqb k0 k) eqn:E0; [| reflexivity].
      apply String.eqb_eq in E0. contradiction.
    + rewrite IH. reflexivity.
Qed.

Lemma dict_lookup_app (k : string) (l1 l2 : list (string * pyval)) :
  dict_lookup k (l1 ++ l2)%list =
  match dict_lookup k l1 with
  | Some v => Some v
  | None => dict_lookup k l2
  end.
Proof.
  induction l1 as [| [a b] l1 IH]; simpl.
  - reflexivity.
  - destruct (String.eqb k a); [reflexivity | exact IH].
Qed.

Lemma dict_lookup_absent (k : string) (d : list (string * pyval)) :
  ~ In k (map fst d) -> dict_lookup k d = None.
Proof.
  induction d as [| [a b] d IH]; simpl; intros Hn.
  - reflexivity.
  - destruct (String.eqb k a) eqn:E.
    + apply String.eqb_eq in E. subst a. exfalso. apply Hn. left. reflexivity.
    + apply IH. intros Hin. apply Hn. right. exact Hin.
Qed.

(** In a dict, where no key occurs twice, reading order is immaterial. *)
Lemma dict_lookup_rev (k : string) (d : list (string * pyval)) :
  NoDup (map fst d) -> dict_lookup k (rev d) = dict_lookup k d.
Proof.
  induction d as [| [a b] d IH]; simpl; intros Hnd.
  - reflexivity.
  - inversion Hnd as [| x xs Hnotin Hnd']; subst.
    rewrite dict_lookup_app, (IH Hnd'). simpl.
    destruct (String.eqb k a) eqn:E.
    + apply String.eqb_eq in E. subst a.
      rewrite (dict_lookup_absent k d Hnotin). reflexivity.
    + destruct (dict_lookup k d); reflexivity.
Qed.

Lemma dict_lookup_fold_set (k : string) (c acc : list (string * pyval)) :
  dict_lookup k (fold_left (fun a kv => dict_set (fst kv) (snd kv) a) c acc) =
  match dict_lookup k (rev c) with
  | Some v => Some v
  | None => dict_lookup k acc
  end.
Proof.
  revert acc.
  induction c as [| [k1 v1] c IH]; intros acc; simpl.
  - reflexivity.
  - rewrite IH, dict_lookup_app. simpl.
    destruct (dict_lookup k (rev c)) as [v |]; [reflexivity |].
    destruct (String.eqb k k1) eqn:E.
    + apply String.eqb_eq in E. subst k1. apply dict_lookup_set_same.
    + apply dict_lookup_set_other. intros ->.
      rewrite String.eqb_refl in E. discriminate.
Qed.

(** A key of the overlay wins; any other key keeps the base's value. *)
Lemma dict_lookup_merge (k : string) (c d : list (string * pyval)) :
  NoDup (map fst c) ->
  dict_lookup k (dict_merge d c) =
  match dict_lookup k c with
  | Some v => Some v
  | None => dict_lookup k d
  end.
Proof.
  intros Hnd. unfold dict_merge.
  rewrite dict_lookup_fold_set, (dict_lookup_rev k c Hnd). reflexivity.
Qed.

(** A check that holds on every integer of a range holds on each. *)
Lemma range_check (P : Z -> bool) (lo : Z) (n : nat) :
  forallb P (map (fun i => lo + Z.of_nat i) (seq 0 n)) = true ->
  forall z, lo <= z < lo + Z.of_nat n -> P z = true.
Proof.
  intros Hall z Hz.
  rewrite forallb_forall in Hall. apply Hall.
  apply in_map_iff. exists (Z.to_nat (z - lo)). split; [lia |].
  apply in_seq. lia.
Qed.

(** ** The data model ([utils.py]) *)

(** Whatever [to_fahrenheit] returns holds three floats. *)
Lemma fahrenheit_yields_float (c v : pyval) :
  TemperatureData.fahrenheit c = inr v -> exists f, v = PFloat f.
Proof.
  unfold TemperatureData.fahrenheit. intros H. invert_binds H.
  assert (Hf : exists g, v1 = PFloat g).
  { unfold py_truediv in Hv0.
    destruct (as_num v0) as [[x | x] |]; simpl in Hv0; try discriminate.
    - invert_binds Hv0. inversion Hv0. eauto.
    - inversion Hv0. eauto. }
  destruct Hf as (g & ->).
  unfold py_add in H. simpl in H. invert_binds H.
  inversion H. eauto.
Qed.

(** C7. Deserializing the serialized form of any weather record gives
    the record back: [from_dict (to_dict r)] returns [r], whatever its
    fields hold; in particular when the pressure extremes and the wind
    direction are [None]. *)
Theorem from_dict_to_dict (r : MarsWeatherData.t) :
  MarsWeatherData.from_dict (MarsWeatherData.to_dict r) = inr r.
Proof.
  destruct r as [s d se [mn mx av] [p pmn pmx] [ws wd]].
  reflexivity.
Qed.

(** The round trip on a record without pressure extremes and without a
    wind direction. *)
Example from_dict_to_dict_sparse :
  MarsWeatherData.from_dict (MarsWeatherData.to_dict record_sparse)
  = inr record_sparse.
Proof. reflexivity. Qed.

(** The expression [c * 9/5 + 32] on any value. *)
Lemma fahrenheit_converted (v : pyval) :
  TemperatureData.fahrenheit v = converted v.
Proof.
  destruct v as [| b | z | f | s | l | d]; try reflexivity.
  - destruct b; reflexivity.
  - unfold TemperatureData.fahrenheit, converted, fahrenheit_of_int.
    cbn [py_mul as_num rbind py_truediv]. unfold int_truediv.
    change (5 =? 0) with false. cbv iota zeta.
    destruct (float_is_inf (fdiv (exact_of_Z (z * 9)) (exact_of_Z 5)));
      reflexivity.
Qed.

Lemma float_same_eq (f g : spec_float) : float_same f g = true -> f = g.
Proof.
  destruct f as [s | s | | s m e], g as [s' | s' | | s' m' e'];
    cbn [float_same]; try discriminate; intros H.
  - apply Bool.eqb_prop in H. congruence.
  - apply Bool.eqb_prop in H. congruence.
  - reflexivity.
  - apply andb_true_iff in H. destruct H as [H He].
    apply andb_true_iff in H. destruct H as [Hs Hm].
    apply Bool.eqb_prop in Hs. apply Pos.eqb_eq in Hm. apply Z.eqb_eq in He.
    congruence.
Qed.

(** The method called on an object of the heap: the object returned
    sits where the heap had none, and the heap's own objects are the
    ones they were. *)
Lemma to_fahrenheit_call_runs (h : TemperatureData.heap) (self : nat)
      (o : TemperatureData.t) :
  nth_error h self = Some o ->
  TemperatureData.to_fahrenheit_call self h
  = match TemperatureData.to_fahrenheit o with
    | inr o' => (inr (List.length h), (h ++ [o'])%list)
    | inl e => (inl e, h)
    end.
Proof.
  intros Hself.
  unfold TemperatureData.to_fahrenheit_call, TemperatureData.to_fahrenheit,
    TemperatureData.op_bind, TemperatureData.getattr, TemperatureData.op_pure,
    TemperatureData.construct.
  rewrite Hself.
  destruct (TemperatureData.fahrenheit (TemperatureData.min_temp o));
    [reflexivity |].
  cbn [rbind]. rewrite Hself.
  destruct (TemperatureData.fahrenheit (TemperatureData.max_temp o));
    [reflexivity |].
  cbn [rbind]. rewrite Hself.
  destruct (TemperatureData.fahrenheit (TemperatureData.avg_temp o));
    reflexivity.
Qed.

(** C9. The Fahrenheit conversion computes [c * 9/5 + 32] on each of
    min, max and avg, whatever the record holds: a float converts by
    the formula in binary64, an integer (a boolean counts as one) by
    the exact product, a correctly rounded quotient and the sum, which
    up to 1000 in absolute value is the formula on the float of the
    integer; a field that is no number, or an integer beyond the
    floats, makes the call raise.  Called on an object, it returns an
    object that was not there before and leaves every object of the
    heap, the one it was called on among them, with the fields it had.
    The record (-80, -20, -50) converts to values equal to -112, -4
    and -58. *)
Theorem to_fahrenheit_elementwise :
  (forall t : TemperatureData.t,
      TemperatureData.to_fahrenheit t
      = (mn <- converted (TemperatureData.min_temp t) ;;
         mx <- converted (TemperatureData.max_temp t) ;;
         av <- converted (TemperatureData.avg_temp t) ;;
         inr (TemperatureData.mk mn mx av)))
  /\ (forall a b c : spec_float,
         TemperatureData.to_fahrenheit
           (TemperatureData.mk (PFloat a) (PFloat b) (PFloat c))
         = inr (TemperatureData.mk (PFloat (fahrenheit_of a))
                  (PFloat (fahrenheit_of b)) (PFloat (fahrenheit_of c))))
  /\ (forall z : Z,
         - 1000 <= z <= 1000 ->
         fahrenheit_of_int z = Some (fahrenheit_of (float_of_Z z)))
  /\ (forall (h : TemperatureData.heap) (self : nat) (o : TemperatureData.t),
         nth_error h self = Some o ->
         (forall e, TemperatureData.to_fahrenheit o = inl e ->
                    TemperatureData.to_fahrenheit_call self h = (inl e, h))
         /\ (forall o', TemperatureData.to_fahrenheit o = inr o' ->
               exists r h',
                 TemperatureData.to_fahrenheit_call self h = (inr r, h')
                 /\ nth_error h r = None
                 /\ r <> self
                 /\ nth_error h' r = Some o'
                 /\ nth_error h' self = Some o
                 /\ (forall p x, nth_error h p = Some x ->
                                 nth_error h' p = Some x)))
  /\ (exists t',
         TemperatureData.to_fahrenheit celsius_example = inr t'
         /\ num_eq (TemperatureData.min_temp t') (PInt (-112)) = true
         /\ num_eq (TemperatureData.max_temp t') (PInt (-4)) = true
         /\ num_eq (TemperatureData.avg_temp t') (PInt (-58)) = true).
Proof.
  split; [| split; [| split; [| split]]].
  - intros t. unfold TemperatureData.to_fahrenheit.
    rewrite !fahrenheit_converted. reflexivity.
  - intros a b c. reflexivity.
  - intros z Hz.
    pose (ok := fun z => match fahrenheit_of_int z with
                         | Some f => float_same f (fahrenheit_of (float_of_Z z))
                         | None => false
                         end).
    assert (Hok : ok z = true).
    { apply (range_check ok (- 1000) 2001); [vm_compute; reflexivity | lia]. }
    unfold ok in Hok.
    destruct (fahrenheit_of_int z) as [f |]; [| discriminate].
    apply float_same_eq in Hok. congruence.
  - intros h self o Hself.
    rewrite (to_fahrenheit_call_runs h self o Hself).
    assert (Hlt : (self < List.length h)%nat).
    { apply nth_error_Some. rewrite Hself. discriminate. }
    split.
    + intros e ->. reflexivity.
    + intros o' ->.
      exists (List.length h), (h ++ [o'])%list.
      split; [reflexivity |].
      split; [apply nth_error_None; lia |].
      split; [lia |].
      split; [rewrite nth_error_app2 by lia; rewrite Nat.sub_diag; reflexivity |].
      split; [rewrite nth_error_app1 by exact Hlt; exact Hself |].
      intros p x Hp.
      assert (Hp' : (p < List.length h)%nat).
      { apply nth_error_Some. rewrite Hp. discriminate. }
      rewrite nth_error_app1 by exact Hp'. exact Hp.
  - eexists. split; [vm_compute; reflexivity |].
    repeat split; vm_compute; reflexivity.
Qed.

(** The conversion called on the example record, the only object of
    its heap. *)
Lemma to_fahrenheit_elementwise_witness :
  exists r h',
    TemperatureData.to_fahrenheit_call 0 [celsius_example] = (inr r, h')
    /\ nth_error [celsius_example] r = None
    /\ r <> 0%nat
    /\ nth_error h' r
       = Some (TemperatureData.mk (PFloat (float_of_Z (-112)))
                 (PFloat (float_of_Z (-4))) (PFloat (float_of_Z (-58))))
    /\ nth_error h' 0 = Some celsius_example
    /\ (forall p x, nth_error [celsius_example] p = Some x ->
                    nth_error h' p = Some x).
Proof.
  apply (proj2 (proj1 (proj2 (proj2 (proj2 to_fahrenheit_elementwise)))
                  [celsius_example] 0%nat celsius_example eq_refl)).
  vm_compute. reflexivity.
Defined.

(** ** Formatting *)

Lemma str_length_app (x y : string) :
  String.length (x ++ y) = (String.length x + String.length y)%nat.
Proof. induction x as [| c x IH]; simpl; [reflexivity | rewrite IH; reflexivity]. Qed.

(** Two strings that end in suffixes of one length end in one suffix. *)
Lemma str_app_suffix (x y a b : string) :
  String.length a = String.length b -> x ++ a = y ++ b -> a = b.
Proof.
  revert y.
  induction x as [| c x IH]; intros [| c' y] Hlen Heq; simpl in Heq.
  - exact Heq.
  - exfalso. apply (f_equal String.length) in Heq. simpl in Heq.
    rewrite str_length_app in Heq. lia.
  - exfalso. apply (f_equal String.length) in Heq. simpl in Heq.
    rewrite str_length_app in Heq. lia.
  - inversion Heq. eapply IH; eassumption.
Qed.

(** C10. [format_temp] converts to Fahrenheit exactly when the
    lower-cased unit is "fahrenheit".  Any other unit string, a token
    outside {"Celsius", "Fahrenheit"} included, takes the Celsius
    branch; on a record of floats that branch returns the three values
    with the Celsius symbol and raises nothing. *)
Theorem format_temp_fahrenheit_iff_lowercase (u : string) :
  (forall t : TemperatureData.t,
      lower u = "fahrenheit" ->
      TemperatureData.format_temp t u
      = (f <- TemperatureData.to_fahrenheit t ;;
         TemperatureData.render f (degree ++ "F")))
  /\ (forall t : TemperatureData.t,
         lower u <> "fahrenheit" ->
         TemperatureData.format_temp t u
         = TemperatureData.render t (degree ++ "C"))
  /\ (forall a b c : spec_float,
         lower u <> "fahrenheit" ->
         TemperatureData.format_temp
           (TemperatureData.mk (PFloat a) (PFloat b) (PFloat c)) u
         = inr (shown_temps (degree ++ "C") a b c))
  /\ (forall a b c : spec_float,
         TemperatureData.format_temp
           (TemperatureData.mk (PFloat a) (PFloat b) (PFloat c)) u
         = inr (shown_temps (degree ++ "F")
                  (fahrenheit_of a) (fahrenheit_of b) (fahrenheit_of c))
         <-> lower u = "fahrenheit").
Proof.
  assert (HF : forall t, lower u = "fahrenheit" ->
    TemperatureData.format_temp t u
    = (f <- TemperatureData.to_fahrenheit t ;;
       TemperatureData.render f (degree ++ "F"))).
  { intros t Hu. unfold TemperatureData.format_temp. rewrite Hu. reflexivity. }
  assert (HC : forall t, lower u <> "fahrenheit" ->
    TemperatureData.format_temp t u
    = TemperatureData.render t (degree ++ "C")).
  { intros t Hu. unfold TemperatureData.format_temp.
    destruct (String.eqb (lower u) "fahrenheit") eqn:E; [| reflexivity].
    apply String.eqb_eq in E. contradiction. }
  split; [exact HF |]. split; [exact HC |]. split.
  - intros a b c Hu. rewrite (HC _ Hu). reflexivity.
  - intros a b c. split.
    + intros Hout.
      destruct (String.eqb (lower u) "fahrenheit") eqn:E.
      * apply String.eqb_eq in E. exact E.
      * exfalso.
        assert (Hu : lower u <> "fahrenheit").
        { intros Hu. rewrite Hu in E. discriminate. }
        rewrite (HC _ Hu) in Hout.
        unfold TemperatureData.render, shown_temps in Hout. simpl in Hout.
        inversion Hout as [[Hmin Hmax Havg]].
        apply str_app_suffix in Hmin; [discriminate | reflexivity].
    + intros Hu. rewrite (HF _ Hu). reflexivity.
Qed.

(** An unknown unit token formats in Celsius; "FAHRENHEIT" converts. *)
Lemma format_temp_fahrenheit_iff_lowercase_witness :
  TemperatureData.format_temp
    (TemperatureData.mk (PFloat (float_of_Z (-80))) (PFloat (float_of_Z (-20)))
       (PFloat (float_of_Z (-50)))) "kelvin"
  = inr (shown_temps (degree ++ "C")
           (float_of_Z (-80)) (float_of_Z (-20)) (float_of_Z (-50)))
  /\ TemperatureData.format_temp celsius_example "FAHRENHEIT"
     = (f <- TemperatureData.to_fahrenheit celsius_example ;;
        TemperatureData.render f (degree ++ "F")).
Proof.
  split.
  - apply (proj1 (proj2 (proj2 (format_temp_fahrenheit_iff_lowercase "kelvin")))).
    vm_compute. discriminate.
  - apply (proj1 (format_temp_fahrenheit_iff_lowercase "FAHRENHEIT")).
    vm_compute. reflexivity.
Defined.

(** Whenever the conversion returns, the Fahrenheit branch formats:
    the converted fields are floats, and a float always formats. *)
Lemma format_temp_fahrenheit_returns (t t' : TemperatureData.t) (u : string) :
  lower u = "fahrenheit" ->
  TemperatureData.to_fahrenheit t = inr t' ->
  exists a b c,
    t' = TemperatureData.mk (PFloat a) (PFloat b) (PFloat c)
    /\ TemperatureData.format_temp t u = inr (shown_temps (degree ++ "F") a b c).
Proof.
  intros Hu Hconv.
  unfold TemperatureData.format_temp. rewrite Hu. cbn [String.eqb].
  replace (String.eqb "fahrenheit" "fahrenheit") with true by reflexivity.
  rewrite Hconv. cbn [rbind].
  unfold TemperatureData.to_fahrenheit in Hconv. invert_binds Hconv.
  inversion Hconv; subst t'; clear Hconv.
  repeat match goal with
         | Hf : TemperatureData.fahrenheit _ = inr ?x |- _ =>
             destruct (fahrenheit_yields_float _ _ Hf) as (? & ->); clear Hf
         end.
  do 3 eexists. split; reflexivity.
Qed.

(** ** The configuration store *)

(** Once the configuration directory is there, [load_config] absorbs
    every failure of the file and overlays what the file holds. *)
Lemma load_config_when_directory_ready (fs : ConfigFs) :
  get_config_path fs = inr tt ->
  (file_exists fs = false -> load_config fs = inr documented_defaults)
  /\ (forall e, json_load fs = inl e -> load_config fs = inr documented_defaults)
  /\ (forall v, json_load fs = inr v -> (forall c, v <> PDict c) ->
                load_config fs = inr documented_defaults)
  /\ (forall c, file_exists fs = true -> json_load fs = inr (PDict c) ->
                NoDup (map fst c) ->
                exists merged,
                  load_config fs = inr merged
                  /\ forall k, dict_lookup k merged
                               = match dict_lookup k c with
                                 | Some v => Some v
                                 | None => dict_lookup k documented_defaults
                                 end).
Proof.
  intros Hdir. unfold load_config. rewrite Hdir. simpl.
  repeat split.
  - intros ->. reflexivity.
  - intros e ->. destruct (file_exists fs); reflexivity.
  - intros v -> Hnd. destruct (file_exists fs); [| reflexivity].
    destruct v; try reflexivity. exfalso. eapply Hnd. reflexivity.
  - intros c -> -> Hnd. simpl. eexists. split; [reflexivity |].
    intros k. apply dict_lookup_merge. exact Hnd.
Qed.

(** C8 (the code departs from the claim). When [~/.mars_weather] does
    not exist and cannot be created, [load_config] does not return the
    defaults: the failure of [os.makedirs], raised from
    [get_config_path] before the [try] is entered, leaves the function. *)
Theorem load_config_raises_without_directory (fs : ConfigFs) (e : exc) :
  dir_exists fs = false -> makedirs fs = inl e -> load_config fs = inl e.
Proof.
  intros Hd Hm. unfold load_config, get_config_path. rewrite Hd, Hm.
  reflexivity.
Qed.

(** A home directory that is not writable. *)
Lemma load_config_raises_without_directory_witness :
  load_config fs_readonly_home = inl (Exc PermissionError "").
Proof.
  apply (load_config_raises_without_directory fs_readonly_home); reflexivity.
Defined.

(** [save_config], which asks for the path inside its [try], reports
    the same failure as [False]. *)
Example save_config_readonly_home (write : result unit) :
  save_config fs_readonly_home write = false.
Proof. reflexivity. Qed.

(** A file that only sets the unit overrides that key alone. *)
Example load_config_fahrenheit_only :
  load_config fs_fahrenheit_only
  = inr [("api_key", PStr "DEMO_KEY");
         ("temperature_unit", PStr "Fahrenheit");
         ("auto_refresh", PBool true);
         ("refresh_interval", PInt 300);
         ("notifications_enabled", PBool true)].
Proof. reflexivity. Qed.

(** ** The synthetic generator *)

Lemma mod_range (x n : Z) : 0 < n -> 0 <= x mod n <= n - 1.
Proof. intros Hn. pose proof (Z.mod_pos_bound x n Hn). lia. Qed.

Lemma nth_mod_In {A : Type} (d : A) (l : list A) (x : Z) :
  l <> [] -> In (nth (Z.to_nat (x mod Z.of_nat (List.length l))) l d) l.
Proof.
  intros Hne. apply nth_In.
  assert (Hlen : 0 < Z.of_nat (List.length l)).
  { destruct l; [contradiction | simpl; lia]. }
  pose proof (Z.mod_pos_bound x _ Hlen). lia.
Qed.

(** The generator never fails, and what it returns is within the
    documented ranges. *)
Lemma demo_returns_synthetic {Pf : Platform} (w : World) :
  exists r w', _get_demo_weather_data w = (inr r, w') /\ synthetic_record r.
Proof.
  unfold _get_demo_weather_data.
  cbv [bind randint randbelow ret choice uniform random datetime_now
       entropy cursor now].
  eexists. eexists. split; [reflexivity |].
  unfold synthetic_record.
  do 11 eexists.
  split; [reflexivity |].
  repeat match goal with
         | |- _ /\ _ => split
         end;
    try (apply nth_mod_In; discriminate);
    match goal with
    | |- context [?x mod ?n] =>
        let H := fresh in
        assert (H : 0 < n) by (vm_compute; reflexivity);
        pose proof (mod_range x n H); lia
    end.
Qed.

(** ** The fetch protocol *)

(** C1 (the code departs from the claim). On status 403 and on status
    429 the [raise] of [get_mars_weather] is caught by the function's
    own [except Exception] clause: the call returns a synthetic record
    and nothing reaches the caller. *)
Theorem status_403_and_429_return_demo_data {Pf : Platform}
        (st : Z) (body : result pyval) (w : World) :
  st = 403 \/ st = 429 ->
  get_mars_weather (inr (mkResponse st body)) w = _get_demo_weather_data w
  /\ exists r w',
       get_mars_weather (inr (mkResponse st body)) w = (inr r, w')
       /\ synthetic_record r.
Proof.
  intros Hst.
  assert (Heq : get_mars_weather (inr (mkResponse st body)) w
                = _get_demo_weather_data w).
  { destruct Hst as [-> | ->]; reflexivity. }
  split; [exact Heq |].
  rewrite Heq. apply demo_returns_synthetic.
Qed.

(** Status 403 with an empty body, in the sample world. *)
Lemma status_403_and_429_return_demo_data_witness :
  get_mars_weather (inr (mkResponse 403 (inr (PDict [])))) world0
  = _get_demo_weather_data world0
  /\ exists r w',
       get_mars_weather (inr (mkResponse 403 (inr (PDict [])))) world0 = (inr r, w')
       /\ synthetic_record r.
Proof.
  apply (status_403_and_429_return_demo_data 403 (inr (PDict [])) world0).
  left. reflexivity.
Defined.

(** C6. A timeout of the transport leaves [get_mars_weather] as the
    time-out error and a connection failure as the connection error;
    a status other than 200, 403 and 429, and any other exception
    raised while the request is made or its body decoded, yields a
    synthetic record and raises nothing. *)
Theorem get_mars_weather_error_policy {Pf : Platform} (w : World) :
  (forall e, is_req_timeout (exc_cls e) = true ->
             get_mars_weather (inl e) w = (inl timeout_error, w))
  /\ (forall e, is_req_timeout (exc_cls e) = false ->
                is_req_connection_error (exc_cls e) = true ->
                get_mars_weather (inl e) w = (inl connection_error, w))
  /\ (forall st body, st <> 200 -> st <> 403 -> st <> 429 ->
                      get_mars_weather (inr (mkResponse st body)) w
                      = _get_demo_weather_data w)
  /\ (forall e, is_req_timeout (exc_cls e) = false ->
                is_req_connection_error (exc_cls e) = false ->
                get_mars_weather (inl e) w = _get_demo_weather_data w
                /\ get_mars_weather (inr (mkResponse 200 (inl e))) w
                   = _get_demo_weather_data w)
  /\ (exists r w', _get_demo_weather_data w = (inr r, w') /\ synthetic_record r).
Proof.
  assert (Hraised : forall e,
            get_mars_weather (inl e) w = fetch_handler e w
            /\ get_mars_weather (inr (mkResponse 200 (inl e))) w
               = fetch_handler e w).
  { intros e. split; reflexivity. }
  split; [| split; [| split; [| split]]].
  - intros e He. rewrite (proj1 (Hraised e)).
    unfold fetch_handler. rewrite He. reflexivity.
  - intros e Ht Hc. rewrite (proj1 (Hraised e)).
    unfold fetch_handler. rewrite Ht, Hc. reflexivity.
  - intros st body H200 H403 H429.
    unfold get_mars_weather, try_except, fetch_body, bind, lift.
    cbn [status_code].
    destruct (Z.eqb_spec st 200); [contradiction |].
    destruct (Z.eqb_spec st 403); [contradiction |].
    destruct (Z.eqb_spec st 429); [contradiction |].
    destruct (demo_returns_synthetic w) as (r & w' & Hd & _).
    rewrite Hd. reflexivity.
  - intros e Ht Hc. destruct (Hraised e) as [-> ->].
    unfold fetch_handler. rewrite Ht, Hc. split; reflexivity.
  - apply demo_returns_synthetic.
Qed.

(** A connect time-out, a refused connection, status 500 and a body
    that is not JSON. *)
Lemma get_mars_weather_error_policy_witness :
  get_mars_weather (inl (Exc ReqConnectTimeout "")) world0
  = (inl timeout_error, world0)
  /\ get_mars_weather (inl (Exc ReqConnectionError "")) world0
     = (inl connection_error, world0)
  /\ get_mars_weather (inr (mkResponse 500 (inr PNone))) world0
     = _get_demo_weather_data world0
  /\ get_mars_weather (inr (mkResponse 200 (inl (Exc JSONDecodeError "")))) world0
     = _get_demo_weather_data world0.
Proof.
  pose proof (get_mars_weather_error_policy world0) as (Ht & Hc & Hs & Ho & _).
  split; [apply Ht; reflexivity |].
  split; [apply Hc; reflexivity |].
  split; [apply Hs; discriminate |].
  apply (Ho (Exc JSONDecodeError "")); reflexivity.
Defined.

(** ** The parser *)

(** The [try] block raises without having drawn a random number. *)
Lemma parse_body_raises_in_place {Pf : Platform} (data : pyval) (w w' : World) (e : exc) :
  parse_body data w = (inl e, w') -> w' = w.
Proof.
  unfold parse_body, bind, lift.
  destruct (py_get data "sol_keys" (PList [])) as [e0 | keys].
  - intros H. inversion H. reflexivity.
  - destruct (negb (py_truthy keys)).
    + intros H. destruct (demo_returns_synthetic w) as (r & w1 & Hd & _).
      rewrite Hd in H. discriminate.
    + destruct (py_getitem keys (PInt (-1))) as [e1 | latest].
      * intros H. inversion H. reflexivity.
      * intros H. inversion H. reflexivity.
Qed.

(** C3. When [sol_keys] is absent or is the empty list, and whenever
    the extraction raises, [_parse_weather_data] raises nothing: it
    returns what the synthetic generator returns, a record with sol in
    3000..3500, a season of the four, a wind direction of the eight
    compass points, and temperatures and pressures in their ranges. *)
Theorem parse_falls_back_to_synthetic {Pf : Platform} (data : pyval) (w : World) :
  sol_keys_absent_or_empty data
  \/ (exists e w', parse_body data w = (inl e, w')) ->
  exists r w',
    _parse_weather_data data w = (inr r, w')
    /\ _get_demo_weather_data w = (inr r, w')
    /\ synthetic_record r.
Proof.
  intros Hcase.
  destruct (demo_returns_synthetic w) as (r & w' & Hd & Hr).
  exists r, w'. split; [| split; assumption].
  unfold _parse_weather_data, try_except.
  destruct Hcase as [(d & -> & Hkeys) | (e & w1 & Hraise)].
  - assert (Hbody : parse_body (PDict d) w = _get_demo_weather_data w).
    { unfold parse_body, bind, lift. simpl.
      destruct Hkeys as [-> | ->]; reflexivity. }
    rewrite Hbody, Hd. reflexivity.
  - rewrite Hraise.
    rewrite (parse_body_raises_in_place data w w1 e Hraise). exact Hd.
Qed.

(** A payload without [sol_keys], and one whose latest sol is missing. *)
Lemma parse_falls_back_to_synthetic_witness :
  (exists r w',
      _parse_weather_data (PDict []) world0 = (inr r, w')
      /\ _get_demo_weather_data world0 = (inr r, w')
      /\ synthetic_record r)
  /\ (exists r w',
         _parse_weather_data payload_dangling world0 = (inr r, w')
         /\ _get_demo_weather_data world0 = (inr r, w')
         /\ synthetic_record r).
Proof.
  split.
  - apply (parse_falls_back_to_synthetic (PDict []) world0).
    left. exists []. split; [reflexivity | left; reflexivity].
  - apply (parse_falls_back_to_synthetic payload_dangling world0).
    right. exists (Exc KeyError ""), world0. reflexivity.
Defined.

Lemma seq_index_last (n : nat) :
  (0 < n)%nat -> seq_index (Z.of_nat n) (-1) = Some (n - 1)%nat.
Proof.
  intros Hn. unfold seq_index.
  change (-1 <? 0) with true. cbv iota.
  destruct (Z.leb_spec 0 (-1 + Z.of_nat n)); [| lia].
  destruct (Z.ltb_spec (-1 + Z.of_nat n) (Z.of_nat n)); [| lia].
  cbn [andb]. f_equal. lia.
Qed.

(** [keys[-1]] on a non-empty list is its last element. *)
Lemma py_getitem_last (ks : list pyval) :
  ks <> [] -> py_getitem (PList ks) (PInt (-1)) = inr (last ks PNone).
Proof.
  intros Hne.
  destruct (exists_last Hne) as (front & x & ->).
  rewrite last_last.
  unfold py_getitem, as_index.
  rewrite seq_index_last by (rewrite length_app; simpl; lia).
  rewrite length_app. cbn [List.length].
  replace (List.length front + 1 - 1)%nat with (List.length front) by lia.
  rewrite nth_error_app2 by lia. rewrite Nat.sub_diag. reflexivity.
Qed.

(** With a non-empty list of keys the [try] block is the extraction
    from the last of them. *)
Lemma parse_body_nonempty {Pf : Platform} (d : list (string * pyval)) (ks : list pyval) (w : World) :
  dict_lookup "sol_keys" d = Some (PList ks) -> ks <> [] ->
  parse_body (PDict d) w = (parse_latest (PDict d) (last ks PNone), w).
Proof.
  intros Hk Hne. unfold parse_body, bind, lift. simpl. rewrite Hk.
  destruct ks as [| k ks']; [contradiction |].
  simpl py_truthy. simpl negb. cbv iota.
  rewrite (py_getitem_last (k :: ks') Hne). reflexivity.
Qed.

(** With a non-empty list of keys, the parser returns what the
    extraction from the last key returns, and falls back when it raises. *)
Lemma parse_nonempty {Pf : Platform} (d : list (string * pyval)) (ks : list pyval) (w : World) :
  dict_lookup "sol_keys" d = Some (PList ks) -> ks <> [] ->
  _parse_weather_data (PDict d) w
  = match parse_latest (PDict d) (last ks PNone) with
    | inr r => (inr r, w)
    | inl _ => _get_demo_weather_data w
    end.
Proof.
  intros Hk Hne. unfold _parse_weather_data, try_except.
  rewrite (parse_body_nonempty d ks w Hk Hne).
  destruct (parse_latest (PDict d) (last ks PNone)); reflexivity.
Qed.

(** What a successful extraction has read: the latest key is a string,
    the payload carries a sol under it, and the record's sol is its
    integer value. *)
Lemma parse_latest_sol {Pf : Platform} (data latest : pyval) (r : MarsWeatherData.t) :
  parse_latest data latest = inr r ->
  exists s z sol_data,
    latest = PStr s
    /\ py_getitem data (PStr s) = inr sol_data
    /\ int_of_string s = Some z
    /\ MarsWeatherData.sol r = PInt z.
Proof.
  unfold parse_latest. intros H. invert_binds H.
  inversion H; subst r; clear H. simpl.
  assert (Hs : exists s, latest = PStr s).
  { destruct data; simpl in Hv; try discriminate.
    destruct latest; simpl in Hv; try discriminate. eauto. }
  destruct Hs as (s & ->).
  exists s.
  repeat match goal with
         | Hi : py_int (PStr s) = inr _ |- _ =>
             simpl in Hi; destruct (int_of_string s) as [z |];
             [inversion Hi; subst; clear Hi | discriminate]
         | Hi : inr _ = inr _ |- _ => inversion Hi; subst; clear Hi
         end.
  do 2 eexists. repeat split; eassumption || reflexivity.
Qed.

(** The out-of-order payload parses, and to sol 600. *)
Example parse_out_of_order :
  _parse_weather_data payload_out_of_order world0 = (inr record_600, world0).
Proof. vm_compute. reflexivity. Qed.

(** C2, as the claim states it, fails: with [sol_keys] = ["610","600"]
    the last element is "600", and the record has sol 600, not 610. *)
Lemma latest_of_610_600_is_600 :
  fst (_parse_weather_data payload_out_of_order world0) = inr record_600
  /\ MarsWeatherData.sol record_600 = PInt 600
  /\ MarsWeatherData.sol record_600 <> PInt 610.
Proof.
  split; [vm_compute; reflexivity |].
  split; [reflexivity | discriminate].
Qed.

(** C2 (amended). For a payload whose [sol_keys] is a non-empty list,
    the parser extracts from the last element of the list, in list
    order: it returns the record read off that sol, whose sol number is
    the integer the last key spells, or falls back when the extraction
    raises.  For [sol_keys] = ["610","600"] the record has sol 600. *)
Theorem parse_selects_last_sol_key {Pf : Platform}
        (d : list (string * pyval)) (ks : list pyval) (w : World) :
  dict_lookup "sol_keys" d = Some (PList ks) -> ks <> [] ->
  _parse_weather_data (PDict d) w
  = match parse_latest (PDict d) (last ks PNone) with
    | inr r => (inr r, w)
    | inl _ => _get_demo_weather_data w
    end
  /\ (forall r, parse_latest (PDict d) (last ks PNone) = inr r ->
                exists s z sol_data,
                  last ks PNone = PStr s
                  /\ dict_lookup s d = Some sol_data
                  /\ int_of_string s = Some z
                  /\ MarsWeatherData.sol r = PInt z)
  /\ (ks = [PStr "610"; PStr "600"] ->
      forall r, parse_latest (PDict d) (last ks PNone) = inr r ->
                MarsWeatherData.sol r = PInt 600).
Proof.
  intros Hk Hne.
  assert (Hsol : forall r, parse_latest (PDict d) (last ks PNone) = inr r ->
                exists s z sol_data,
                  last ks PNone = PStr s
                  /\ dict_lookup s d = Some sol_data
                  /\ int_of_string s = Some z
                  /\ MarsWeatherData.sol r = PInt z).
  { intros r Hr.
    destruct (parse_latest_sol _ _ _ Hr) as (s & z & sd & Hl & Hg & Hi & Hz).
    exists s, z, sd. repeat split; try assumption.
    simpl in Hg. destruct (dict_lookup s d); [| discriminate].
    inversion Hg. reflexivity. }
  split; [| split].
  - apply parse_nonempty; assumption.
  - exact Hsol.
  - intros -> r Hr.
    destruct (Hsol r Hr) as (s & z & sd & Hl & _ & Hi & Hz).
    simpl in Hl. inversion Hl; subst s.
    vm_compute in Hi. inversion Hi; subst z. exact Hz.
Qed.

(** The out-of-order payload. *)
Lemma parse_selects_last_sol_key_witness :
  _parse_weather_data payload_out_of_order world0
  = match parse_latest payload_out_of_order (PStr "600") with
    | inr r => (inr r, world0)
    | inl _ => _get_demo_weather_data world0
    end
  /\ (forall r, parse_latest payload_out_of_order (PStr "600") = inr r ->
                MarsWeatherData.sol r = PInt 600).
Proof.
  pose proof (parse_selects_last_sol_key
                [("sol_keys", PList [PStr "610"; PStr "600"]);
                 ("610", PDict [("AT", PDict [("av", PInt (-61))]);
                                ("Season", PStr "summer")]);
                 ("600", PDict [("AT", PDict [("av", PInt (-60)); ("mn", PInt (-95))]);
                                ("WD", PDict [("most_common", PDict [])]);
                                ("Season", PStr "winter")])]
                [PStr "610"; PStr "600"] world0 eq_refl
                ltac:(discriminate)) as (Hrun & _ & Hsol).
  split; [exact Hrun | exact (Hsol eq_refl)].
Defined.

(** A chain of [get] calls that returns has read the field at the path,
    or its default. *)
Lemma get_field_1 (v0 : pyval) (a : string) (default v : pyval) :
  py_get v0 a default = inr v -> v = field_or v0 [a] default.
Proof.
  destruct v0; simpl; try discriminate.
  unfold field_or. simpl. intros H. inversion H.
  destruct (dict_lookup a d); reflexivity.
Qed.

Lemma get_field_2 (v0 : pyval) (a b : string) (default x v : pyval) :
  py_get v0 a (PDict []) = inr x -> py_get x b default = inr v ->
  v = field_or v0 [a; b] default.
Proof.
  destruct v0; simpl; try discriminate.
  unfold field_or. simpl. intros Hx Hv. inversion Hx; subst x; clear Hx.
  destruct (dict_lookup a d) as [y |].
  - destruct y; simpl in Hv; try discriminate. inversion Hv.
    destruct (dict_lookup b d0); reflexivity.
  - simpl in Hv. inversion Hv. reflexivity.
Qed.

Lemma get_field_3 (v0 : pyval) (a b c : string) (default x y v : pyval) :
  py_get v0 a (PDict []) = inr x -> py_get x b (PDict []) = inr y ->
  py_get y c default = inr v ->
  v = field_or v0 [a; b; c] default.
Proof.
  destruct v0; simpl; try discriminate.
  unfold field_or. simpl. intros Hx Hy Hv. inversion Hx; subst x; clear Hx.
  destruct (dict_lookup a d) as [x |].
  - destruct x; simpl in Hy; try discriminate.
    inversion Hy; subst y; clear Hy.
    destruct (dict_lookup b d0) as [y |].
    + destruct y; simpl in Hv; try discriminate. inversion Hv.
      destruct (dict_lookup c d1); reflexivity.
    + simpl in Hv. inversion Hv. reflexivity.
  - simpl in Hy. inversion Hy; subst y. simpl in Hv. inversion Hv. reflexivity.
Qed.

(** The literal [5.5] is exact, and prints as itself. *)
Example f5_5_exact :
  f5_5 = S754_finite false (11 * 2 ^ 49) (-50) /\ format_float_1f f5_5 = "5.5".
Proof. split; vm_compute; reflexivity. Qed.

(** C4. On a payload with a non-empty [sol_keys] whose extraction
    succeeds, the parser returns the extracted record, and each field
    of it is the value found in the latest sol at its path, taken as it
    is, or the default of the table when a level of the path is
    missing: AT mn/mx/av -80/-20/-50, PRE mn/mx/av 600/700/650, HWS av
    5.5, WD.most_common.compass_point "NE", Season "Unknown". *)
Theorem parse_default_table {Pf : Platform}
        (d : list (string * pyval)) (ks : list pyval) (w : World)
        (r : MarsWeatherData.t) :
  dict_lookup "sol_keys" d = Some (PList ks) -> ks <> [] ->
  parse_latest (PDict d) (last ks PNone) = inr r ->
  _parse_weather_data (PDict d) w = (inr r, w)
  /\ exists sol_data,
       py_getitem (PDict d) (last ks PNone) = inr sol_data
       /\ follows_default_table sol_data r.
Proof.
  intros Hk Hne H. split.
  - rewrite (parse_nonempty d ks w Hk Hne), H. reflexivity.
  - unfold parse_latest in H. invert_binds H.
    inversion H; subst r; clear H.
    eexists. split; [eassumption |].
    unfold follows_default_table. simpl.
    repeat split;
      solve [ eapply get_field_1; eassumption
            | eapply get_field_2; eassumption
            | eapply get_field_3; eassumption ].
Qed.

(** Sol 600 of the out-of-order payload: AT has mn and av but no mx,
    WD has an empty most_common, PRE and HWS are missing. *)
Lemma parse_default_table_witness :
  _parse_weather_data payload_out_of_order world0 = (inr record_600, world0)
  /\ exists sol_data,
       py_getitem payload_out_of_order (PStr "600") = inr sol_data
       /\ follows_default_table sol_data record_600.
Proof.
  apply (parse_default_table
           [("sol_keys", PList [PStr "610"; PStr "600"]);
            ("610", PDict [("AT", PDict [("av", PInt (-61))]);
                           ("Season", PStr "summer")]);
            ("600", PDict [("AT", PDict [("av", PInt (-60)); ("mn", PInt (-95))]);
                           ("WD", PDict [("most_common", PDict [])]);
                           ("Season", PStr "winter")])]
           [PStr "610"; PStr "600"] world0 record_600).
  - reflexivity.
  - discriminate.
  - vm_compute. reflexivity.
Defined.

(** ** The terrestrial date *)

(** Setting [First_UTC] inside a sol other than the one keyed "1"
    changes nothing of what the extraction from that sol reads. *)
Lemma parse_latest_ignores_first_utc {Pf : Platform}
      (d sd : list (string * pyval)) (k : string) (v : pyval) :
  dict_lookup k d = Some (PDict sd) -> k <> "1" ->
  parse_latest (PDict (dict_set k (PDict (dict_set "First_UTC" v sd)) d)) (PStr k)
  = parse_latest (PDict d) (PStr k).
Proof.
  intros Hk Hne. unfold parse_latest.
  cbn [py_getitem]. rewrite dict_lookup_set_same, Hk. cbn [rbind].
  cbn [py_get].
  rewrite !dict_lookup_set_other by congruence.
  reflexivity.
Qed.

(** The date of a successful extraction is that of the anchored
    instant, as [strftime] writes it. *)
Lemma parse_latest_date {Pf : Platform} (data latest : pyval) (r : MarsWeatherData.t) :
  parse_latest data latest = inr r ->
  exists k n moved sd,
    latest = PStr k
    /\ int_of_string k = Some n
    /\ py_getitem data (PStr k) = inr (PDict sd)
    /\ anchored_instant data n = inr moved
    /\ MarsWeatherData.terrestrial_date r = PStr (strftime_Ymd moved).
Proof.
  unfold parse_latest. intros Hrun. invert_binds Hrun.
  inversion Hrun; subst r; clear Hrun. cbn [MarsWeatherData.terrestrial_date].
  assert (Hs : exists k, latest = PStr k).
  { match goal with
    | Hg : py_getitem data latest = inr _ |- _ =>
        destruct data; simpl in Hg; try discriminate;
        destruct latest; simpl in Hg; try discriminate
    end. eauto. }
  destruct Hs as (k & ->).
  match goal with
  | Hg : py_getitem data (PStr k) = inr ?x, Ha : py_get ?x "AT" _ = inr _ |- _ =>
      destruct x as [| | | | | | sd]; try (simpl in Ha; discriminate)
  end.
  match goal with
  | Hi : py_int (PStr k) = inr _ |- _ =>
      cbn [py_int] in Hi; destruct (int_of_string k) as [n |] eqn:Hint;
      [inversion Hi; subst; clear Hi | discriminate]
  end.
  match goal with
  | Hi : py_int (PStr k) = inr _ |- _ =>
      cbn [py_int] in Hi; rewrite Hint in Hi; inversion Hi; subst; clear Hi
  end.
  exists k. do 3 eexists.
  split; [reflexivity |]. split; [eassumption |]. split; [eassumption |].
  split; [| reflexivity].
  unfold anchored_instant, mission_start.
  match goal with
  | H1 : py_get data "1" _ = inr ?x, H2 : py_get ?x "First_UTC" _ = inr ?y |- _ =>
      rewrite <- (get_field_2 data "1" "First_UTC" _ x y H1 H2)
  end.
  repeat match goal with
         | Hr : ?e = inr _ |- context [?e] => rewrite Hr; cbn [rbind]
         end.
  reflexivity.
Qed.

(** C5, as the claim states it, fails in its last clause: when the
    latest sol is the sol keyed "1", its own [First_UTC] is the anchor,
    and changing it changes the date. *)
Lemma first_utc_of_latest_sol_one_is_read :
  returned_date (_parse_weather_data payload_sol_one world0)
  = Some (PStr "2020-01-02")
  /\ returned_date
       (_parse_weather_data
          (with_first_utc payload_sol_one "1" (PStr "2021-06-01T00:00:00Z"))
          world0)
     = Some (PStr "2021-06-02").
Proof. split; vm_compute; reflexivity. Qed.

(** The text of a date: YYYY-MM-DD from year 1000 on and wherever
    the C library pads; otherwise the year stands without its leading
    zeros. *)
Lemma strftime_Ymd_text {Pf : Platform} (dt : datetime) :
  (pads_year = true \/ 1000 <= year dt -> strftime_Ymd dt = ymd_text dt)
  /\ (pads_year = false -> year dt < 1000 ->
      strftime_Ymd dt
      = str_of_N (Z.to_N (year dt)) ++ "-" ++ zero_pad 2 (month dt) ++ "-"
          ++ zero_pad 2 (day dt)).
Proof.
  unfold strftime_Ymd, year_text, ymd_text. split.
  - intros [-> | Hy]; [reflexivity |].
    apply Z.leb_le in Hy. rewrite Hy, orb_true_r. reflexivity.
  - intros -> Hy. apply Z.leb_gt in Hy. rewrite Hy. reflexivity.
Qed.

(** On a C library that does not pad, a date of year 1 is not written
    YYYY-MM-DD. *)
Example date_of_year_one :
  returned_date (_parse_weather_data payload_year_one world0)
  = Some (PStr "1-01-01").
Proof. vm_compute. reflexivity. Qed.

(** Where [int] reads the digits of other scripts, a sol keyed in
    full-width digits is read: sol 12, twelve days after the mission
    start; and the last character of a string of them is one digit. *)
Example fullwidth_sol_is_read :
  (exists r,
      _parse_weather_data payload_fullwidth world0 = (inr r, world0)
      /\ MarsWeatherData.sol r = PInt 12
      /\ MarsWeatherData.terrestrial_date r = PStr "2018-12-09")
  /\ (exists r,
         _parse_weather_data payload_fullwidth_text world0 = (inr r, world0)
         /\ MarsWeatherData.sol r = PInt 2
         /\ MarsWeatherData.terrestrial_date r = PStr "2018-11-29").
Proof.
  split; eexists; (split; [vm_compute; reflexivity |]); split; reflexivity.
Qed.

(** C5 (amended). On a successfully parsed payload the terrestrial date
    is the [First_UTC] of the sol keyed "1" (the mission start when the
    path is absent), read by [fromisoformat], moved by as many whole
    days as the latest sol key spells, and written by [strftime]:
    YYYY-MM-DD from year 1000 on and wherever the C library pads the
    year, the year without leading zeros otherwise.  Unless the latest
    sol is the one keyed "1", its own [First_UTC] is not read: whatever
    it is set to, the parser returns the same record. *)
Theorem terrestrial_date_anchored_on_sol_one {Pf : Platform}
        (d : list (string * pyval)) (ks : list pyval) (w : World)
        (r : MarsWeatherData.t) :
  dict_lookup "sol_keys" d = Some (PList ks) -> ks <> [] ->
  parse_latest (PDict d) (last ks PNone) = inr r ->
  _parse_weather_data (PDict d) w = (inr r, w)
  /\ exists k n moved,
       last ks PNone = PStr k
       /\ int_of_string k = Some n
       /\ anchored_instant (PDict d) n = inr moved
       /\ MarsWeatherData.terrestrial_date r = PStr (strftime_Ymd moved)
       /\ (pads_year = true \/ 1000 <= year moved ->
           MarsWeatherData.terrestrial_date r = PStr (ymd_text moved))
       /\ (pads_year = false -> year moved < 1000 ->
           MarsWeatherData.terrestrial_date r
           = PStr (str_of_N (Z.to_N (year moved)) ++ "-"
                     ++ zero_pad 2 (month moved) ++ "-"
                     ++ zero_pad 2 (day moved)))
       /\ (k <> "1" ->
           forall v, _parse_weather_data (with_first_utc (PDict d) k v) w
                     = (inr r, w)).
Proof.
  intros Hk Hne H. split.
  - rewrite (parse_nonempty d ks w Hk Hne), H. reflexivity.
  - destruct (parse_latest_date _ _ _ H)
      as (k & n & moved & sd & Hlast & Hint & Hget & Hdate & Hr).
    exists k, n, moved.
    split; [exact Hlast |]. split; [exact Hint |]. split; [exact Hdate |].
    split; [exact Hr |].
    split; [intros Hy; rewrite Hr, (proj1 (strftime_Ymd_text moved) Hy);
            reflexivity |].
    split; [intros Hp Hy; rewrite Hr, (proj2 (strftime_Ymd_text moved) Hp Hy);
            reflexivity |].
    intros Hne1 v.
    cbn [py_getitem] in Hget.
    destruct (dict_lookup k d) as [x |] eqn:Hkd; [| discriminate].
    inversion Hget; subst x; clear Hget.
    unfold with_first_utc. rewrite Hkd.
    assert (Hkeys : dict_lookup "sol_keys"
                      (dict_set k (PDict (dict_set "First_UTC" v sd)) d)
                    = Some (PList ks)).
    { rewrite dict_lookup_set_other; [exact Hk |].
      intros <-. rewrite Hk in Hkd. discriminate. }
    rewrite (parse_nonempty _ ks w Hkeys Hne), Hlast.
    rewrite (parse_latest_ignores_first_utc d sd k v Hkd Hne1).
    rewrite <- Hlast, H. reflexivity.
Qed.

(** Sol 259 carries its own [First_UTC]; the date comes from sol 1. *)
Lemma terrestrial_date_anchored_on_sol_one_witness :
  _parse_weather_data payload_anchor world0
  = (inr (MarsWeatherData.mk (PInt 259) (PStr "2019-08-13") (PStr "Unknown")
            (TemperatureData.mk (PInt (-80)) (PInt (-20)) (PInt (-50)))
            (PressureData.mk (PFloat f5_5) (PInt 600) (PInt 700))
            (WindData.mk (PFloat f5_5) (PStr "NE"))), world0)
  /\ exists k n moved,
       PStr "259" = PStr k
       /\ int_of_string k = Some n
       /\ anchored_instant payload_anchor n = inr moved
       /\ PStr "2019-08-13" = PStr (strftime_Ymd moved)
       /\ (pads_year = true \/ 1000 <= year moved ->
           PStr "2019-08-13" = PStr (ymd_text moved))
       /\ (pads_year = false -> year moved < 1000 ->
           PStr "2019-08-13"
           = PStr (str_of_N (Z.to_N (year moved)) ++ "-"
                     ++ zero_pad 2 (month moved) ++ "-"
                     ++ zero_pad 2 (day moved)))
       /\ (k <> "1" ->
           forall v, _parse_weather_data (with_first_utc payload_anchor k v) world0
                     = (inr (MarsWeatherData.mk (PInt 259) (PStr "2019-08-13")
                               (PStr "Unknown")
                               (TemperatureData.mk (PInt (-80)) (PInt (-20)) (PInt (-50)))
                               (PressureData.mk (PFloat f5_5) (PInt 600) (PInt 700))
                               (WindData.mk (PFloat f5_5) (PStr "NE"))), world0)).
Proof.
  apply (terrestrial_date_anchored_on_sol_one
           [("sol_keys", PList [PStr "1"; PStr "259"]);
            ("1", PDict [("First_UTC", PStr "2018-11-27T05:50:25Z")]);
            ("259", PDict [("First_UTC", PStr "2019-08-19T08:03:59Z");
                           ("PRE", PDict [("av", PFloat f5_5)])])]
           [PStr "1"; PStr "259"] world0).
  - reflexivity.
  - discriminate.
  - vm_compute. reflexivity.
Defined.

(* ================================================================== *)
(** * Further properties of the code                                   *)
(* ================================================================== *)

(** ** What leaves the weather source *)

(** The parser returns a record in every case. *)
Lemma parse_returns {Pf : Platform} (data : pyval) (w : World) :
  exists r w', _parse_weather_data data w = (inr r, w').
Proof.
  unfold _parse_weather_data, try_except.
  destruct (parse_body data w) as [[e | r] w1]; [| eauto].
  destruct (demo_returns_synthetic w1) as (rd & wd & Hd & _). eauto.
Qed.

(** X2. [_parse_weather_data] never raises: whatever the payload, it
    returns a record, which is either read off the payload, no random
    number being drawn, or the synthetic generator's. *)
Theorem parse_never_raises {Pf : Platform} (data : pyval) (w : World) :
  exists r w',
    _parse_weather_data data w = (inr r, w')
    /\ ((w' = w /\ exists latest, parse_latest data latest = inr r)
        \/ (_get_demo_weather_data w = (inr r, w') /\ synthetic_record r)).
Proof.
  destruct (demo_returns_synthetic w) as (rd & wd & Hd & Hsyn).
  unfold _parse_weather_data, try_except.
  destruct (parse_body data w) as [[e | r] w1] eqn:Hbody.
  - rewrite (parse_body_raises_in_place data w w1 e Hbody).
    exists rd, wd. split; [exact Hd |]. right. split; assumption.
  - exists r, w1. split; [reflexivity |].
    unfold parse_body, bind, lift in Hbody.
    destruct (py_get data "sol_keys" (PList [])) as [e0 | keys];
      [discriminate |].
    destruct (negb (py_truthy keys)).
    + right. rewrite Hbody in Hd. injection Hd as Hr Hw. subst rd wd.
      split; [exact Hbody | exact Hsyn].
    + destruct (py_getitem keys (PInt (-1))) as [e1 | latest];
        [discriminate |].
      injection Hbody as Hlatest Hw. left. split; [symmetry; exact Hw |].
      exists latest. exact Hlatest.
Qed.

(** The handler, applied to the exception the body raised. *)
Lemma fetch_handler_cases {Pf : Platform} (e : exc) (w : World) :
  (is_req_timeout (exc_cls e) = true /\ fetch_handler e w = (inl timeout_error, w))
  \/ (is_req_timeout (exc_cls e) = false
      /\ is_req_connection_error (exc_cls e) = true
      /\ fetch_handler e w = (inl connection_error, w))
  \/ (is_req_timeout (exc_cls e) = false
      /\ is_req_connection_error (exc_cls e) = false
      /\ fetch_handler e w = _get_demo_weather_data w).
Proof.
  unfold fetch_handler.
  destruct (is_req_timeout (exc_cls e)); [left; split; reflexivity |].
  destruct (is_req_connection_error (exc_cls e)).
  - right. left. repeat split.
  - right. right. repeat split.
Qed.

(** [get_mars_weather], by what the request met. *)
Lemma get_mars_weather_by_failure {Pf : Platform} (net : result Response) (w : World) :
  match request_failure net with
  | Some e => get_mars_weather net w = fetch_handler e w
  | None => exists r w', get_mars_weather net w = (inr r, w')
  end.
Proof.
  unfold request_failure, get_mars_weather, try_except, fetch_body, bind, lift.
  destruct net as [e | [st body]]; [reflexivity |].
  cbn [status_code json].
  destruct (st =? 200) eqn:E200.
  - destruct body as [e | data]; [reflexivity |].
    destruct (parse_returns data w) as (r & w' & Hrun).
    rewrite Hrun. eauto.
  - destruct (st =? 403); [| destruct (st =? 429)];
      cbn [throw fetch_handler invalid_key_error rate_limit_error exc_cls
           is_req_timeout is_req_connection_error];
      destruct (demo_returns_synthetic w) as (r & w' & Hd & _);
      rewrite Hd; eauto.
Qed.

(** X1. Only two exceptions ever leave [get_mars_weather]: the
    time-out error and the connection error, each raised exactly when
    the request (or the decoding of a 200 body) raised a [requests]
    exception of that class, and before any random number is drawn.
    In every other case the call returns a record. *)
Theorem get_mars_weather_raises_only_two {Pf : Platform} (net : result Response) (w : World) :
  (forall e w',
      get_mars_weather net w = (inl e, w') ->
      w' = w
      /\ exists cause,
           request_failure net = Some cause
           /\ ((is_req_timeout (exc_cls cause) = true /\ e = timeout_error)
               \/ (is_req_timeout (exc_cls cause) = false
                   /\ is_req_connection_error (exc_cls cause) = true
                   /\ e = connection_error)))
  /\ (forall cause,
         request_failure net = Some cause ->
         is_req_timeout (exc_cls cause) = true
         \/ is_req_connection_error (exc_cls cause) = true ->
         exists e, get_mars_weather net w = (inl e, w))
  /\ (request_failure net = None \/
      (exists cause, request_failure net = Some cause
                     /\ is_req_timeout (exc_cls cause) = false
                     /\ is_req_connection_error (exc_cls cause) = false) ->
      exists r w', get_mars_weather net w = (inr r, w')).
Proof.
  pose proof (get_mars_weather_by_failure net w) as Hrun.
  split; [| split].
  - intros e w' Hraise.
    destruct (request_failure net) as [cause |].
    + rewrite Hrun in Hraise.
      destruct (fetch_handler_cases cause w)
        as [(Ht & Hh) | [(Ht & Hc & Hh) | (Ht & Hc & Hh)]];
        rewrite Hh in Hraise.
      * inversion Hraise; subst. split; [reflexivity |].
        exists cause. split; [reflexivity |]. left. split; [assumption | reflexivity].
      * inversion Hraise; subst. split; [reflexivity |].
        exists cause. split; [reflexivity |]. right. repeat split; assumption.
      * destruct (demo_returns_synthetic w) as (r & w1 & Hd & _).
        rewrite Hd in Hraise. discriminate.
    + destruct Hrun as (r & w1 & Hret). rewrite Hret in Hraise. discriminate.
  - intros cause Hcause Hclass. rewrite Hcause in Hrun. rewrite Hrun.
    destruct (fetch_handler_cases cause w)
      as [(Ht & Hh) | [(Ht & Hc & Hh) | (Ht & Hc & Hh)]]; rewrite Hh.
    + eauto.
    + eauto.
    + destruct Hclass as [Hx | Hx]; rewrite Hx in *; discriminate.
  - intros [Hnone | (cause & Hcause & Ht & Hc)].
    + rewrite Hnone in Hrun. exact Hrun.
    + rewrite Hcause in Hrun. rewrite Hrun.
      unfold fetch_handler. rewrite Ht, Hc.
      destruct (demo_returns_synthetic w) as (r & w1 & Hd & _). eauto.
Qed.

(** A read time-out raises; a body that is not JSON does not. *)
Lemma get_mars_weather_raises_only_two_witness :
  (exists e, get_mars_weather (inl (Exc ReqReadTimeout "")) world0 = (inl e, world0))
  /\ (exists r w',
         get_mars_weather (inr (mkResponse 200 (inl (Exc JSONDecodeError "")))) world0
         = (inr r, w')).
Proof.
  split.
  - apply (proj1 (proj2 (get_mars_weather_raises_only_two
                           (inl (Exc ReqReadTimeout "")) world0))
             (Exc ReqReadTimeout "")).
    + reflexivity.
    + left. reflexivity.
  - apply (proj2 (proj2 (get_mars_weather_raises_only_two
                           (inr (mkResponse 200 (inl (Exc JSONDecodeError ""))))
                           world0))).
    right. exists (Exc JSONDecodeError ""). repeat split.
Defined.

(** ** What the parser reads *)

Lemma characters_nonempty (s : string) : s <> "" -> characters s <> [].
Proof.
  destruct s as [| c s']; [contradiction |]. intros _. cbn [characters].
  destruct (characters s') as [| [| d ds] rest]; try discriminate.
  destruct (is_continuation d); discriminate.
Qed.

Lemma nth_error_last {A : Type} (l : list A) (d : A) :
  l <> [] -> nth_error l (List.length l - 1) = Some (last l d).
Proof.
  intros Hne. destruct (exists_last Hne) as (front & x & ->).
  rewrite last_last, length_app. cbn [List.length].
  replace (List.length front + 1 - 1)%nat with (List.length front) by lia.
  rewrite nth_error_app2 by lia. rewrite Nat.sub_diag. reflexivity.
Qed.

Lemma str_at_last (s : string) :
  s <> "" -> str_at s (str_len s - 1) = Some (last_char s).
Proof.
  intros Hne. unfold str_at, str_len, last_char.
  apply nth_error_last. apply characters_nonempty. exact Hne.
Qed.

(** [text[-1]] on a non-empty string is its last character. *)
Lemma py_getitem_last_char (s : string) :
  s <> "" -> py_getitem (PStr s) (PInt (-1)) = inr (PStr (last_char s)).
Proof.
  intros Hne. unfold py_getitem, as_index.
  assert (Hlen : (0 < str_len s)%nat).
  { unfold str_len. pose proof (characters_nonempty s Hne) as Hc.
    destruct (characters s); [contradiction | simpl; lia]. }
  rewrite (seq_index_last _ Hlen), (str_at_last s Hne). reflexivity.
Qed.

(** X3. What [sol_keys] may be.  A payload that is not an object, and
    one whose [sol_keys] is null, a boolean, a number or an object,
    yields the generator's record; a [sol_keys] that is a non-empty
    string is indexed like a list, and its last character is the
    latest sol key. *)
Theorem parse_sol_keys_by_type {Pf : Platform} (w : World) :
  (forall data, (forall d, data <> PDict d) ->
                _parse_weather_data data w = _get_demo_weather_data w)
  /\ (forall d v,
         dict_lookup "sol_keys" d = Some v ->
         (forall ks, v <> PList ks) -> (forall s, v <> PStr s) ->
         _parse_weather_data (PDict d) w = _get_demo_weather_data w)
  /\ (forall d s,
         dict_lookup "sol_keys" d = Some (PStr s) -> s <> "" ->
         _parse_weather_data (PDict d) w
         = match parse_latest (PDict d) (PStr (last_char s)) with
           | inr r => (inr r, w)
           | inl _ => _get_demo_weather_data w
           end).
Proof.
  destruct (demo_returns_synthetic w) as (rd & wd & Hd & _).
  split; [| split].
  - intros data Hnot.
    unfold _parse_weather_data, try_except, parse_body, bind, lift.
    destruct data; try reflexivity.
    exfalso. eapply Hnot. reflexivity.
  - intros d v Hv Hlist Hstr.
    unfold _parse_weather_data, try_except.
    assert (Hfalsy : py_truthy v = false ->
               match parse_body (PDict d) w with
               | (inr a, w') => (inr a, w')
               | (inl _, w') => _get_demo_weather_data w'
               end = _get_demo_weather_data w).
    { intros Ht. unfold parse_body, bind, lift. cbn [py_get].
      rewrite Hv, Ht. cbn [negb]. rewrite Hd. reflexivity. }
    assert (Hraise : forall e, py_truthy v = true ->
               py_getitem v (PInt (-1)) = inl e ->
               match parse_body (PDict d) w with
               | (inr a, w') => (inr a, w')
               | (inl _, w') => _get_demo_weather_data w'
               end = _get_demo_weather_data w).
    { intros e Ht Hg. unfold parse_body, bind, lift. cbn [py_get].
      rewrite Hv, Ht, Hg. reflexivity. }
    destruct v as [| b | z | f | s | l | dd].
    + apply Hfalsy. reflexivity.
    + destruct b; [eapply Hraise | apply Hfalsy]; reflexivity.
    + destruct (z =? 0) eqn:Ez;
        [apply Hfalsy | eapply Hraise]; cbn [py_truthy]; try rewrite Ez;
        reflexivity.
    + destruct (float_is_zero f) eqn:Ef;
        [apply Hfalsy | eapply Hraise]; cbn [py_truthy]; try rewrite Ef;
        reflexivity.
    + exfalso. eapply Hstr. reflexivity.
    + exfalso. eapply Hlist. reflexivity.
    + destruct dd as [| kv dd']; [apply Hfalsy | eapply Hraise]; reflexivity.
  - intros d s Hv Hne.
    unfold _parse_weather_data, try_except, parse_body, bind, lift.
    cbn [py_get]. rewrite Hv.
    assert (Ht : py_truthy (PStr s) = true).
    { destruct s; [contradiction | reflexivity]. }
    rewrite Ht. cbn [negb]. rewrite (py_getitem_last_char s Hne).
    destruct (parse_latest (PDict d) (PStr (last_char s))); reflexivity.
Qed.

(** A payload that is a list, [sol_keys] set to 7, and [sol_keys] set
    to the string "17" with a sol under "7". *)
Lemma parse_sol_keys_by_type_witness :
  _parse_weather_data (PList []) world0 = _get_demo_weather_data world0
  /\ _parse_weather_data (PDict [("sol_keys", PInt 7)]) world0
     = _get_demo_weather_data world0
  /\ _parse_weather_data
       (PDict [("sol_keys", PStr "17"); ("7", PDict [])]) world0
     = match parse_latest (PDict [("sol_keys", PStr "17"); ("7", PDict [])])
               (PStr "7") with
       | inr r => (inr r, world0)
       | inl _ => _get_demo_weather_data world0
       end.
Proof.
  pose proof (parse_sol_keys_by_type world0) as (Hobj & Hkind & Hstr).
  split; [apply Hobj; discriminate |].
  split.
  - apply (Hkind [("sol_keys", PInt 7)] (PInt 7)); [reflexivity | |];
      discriminate.
  - apply (Hstr [("sol_keys", PStr "17"); ("7", PDict [])] "17");
      [reflexivity | discriminate].
Defined.

(** The extraction reads the payload at the latest key and at "1", and
    nowhere else. *)
Lemma parse_latest_reads_two_keys {Pf : Platform}
      (d d' : list (string * pyval)) (latest : pyval) :
  (forall k, latest = PStr k -> dict_lookup k d = dict_lookup k d') ->
  dict_lookup "1" d = dict_lookup "1" d' ->
  parse_latest (PDict d) latest = parse_latest (PDict d') latest.
Proof.
  intros Hk H1. unfold parse_latest.
  destruct latest as [| b | z | f | k | l | dd]; try reflexivity.
  cbn [py_getitem]. rewrite (Hk k eq_refl).
  cbn [py_get]. rewrite H1. reflexivity.
Qed.

(** X5. The parser's result depends on three things only: the last
    element of [sol_keys], the payload's entry under that key, and its
    entry under "1".  Two payloads that agree on these give the same
    result, whatever else they hold: the other sols, the earlier keys
    and every other top-level field are never read. *)
Theorem parse_depends_on_latest_and_sol_one {Pf : Platform}
        (d d' : list (string * pyval)) (ks ks' : list pyval) (w : World) :
  dict_lookup "sol_keys" d = Some (PList ks) -> ks <> [] ->
  dict_lookup "sol_keys" d' = Some (PList ks') -> ks' <> [] ->
  last ks PNone = last ks' PNone ->
  (forall k, last ks PNone = PStr k -> dict_lookup k d = dict_lookup k d') ->
  dict_lookup "1" d = dict_lookup "1" d' ->
  _parse_weather_data (PDict d) w = _parse_weather_data (PDict d') w.
Proof.
  intros Hks Hne Hks' Hne' Hlast Hk H1.
  rewrite (parse_nonempty d ks w Hks Hne), (parse_nonempty d' ks' w Hks' Hne').
  rewrite <- Hlast.
  rewrite (parse_latest_reads_two_keys d d' (last ks PNone) Hk H1).
  reflexivity.
Qed.

(** The two payloads share the last key, its sol and the absence of a
    sol "1"; the second holds nothing else. *)
Lemma parse_depends_on_latest_and_sol_one_witness :
  _parse_weather_data payload_out_of_order world0
  = _parse_weather_data payload_only_600 world0.
Proof.
  apply (parse_depends_on_latest_and_sol_one
           [("sol_keys", PList [PStr "610"; PStr "600"]);
            ("610", PDict [("AT", PDict [("av", PInt (-61))]);
                           ("Season", PStr "summer")]);
            ("600", PDict [("AT", PDict [("av", PInt (-60)); ("mn", PInt (-95))]);
                           ("WD", PDict [("most_common", PDict [])]);
                           ("Season", PStr "winter")])]
           [("600", PDict [("AT", PDict [("av", PInt (-60)); ("mn", PInt (-95))]);
                           ("WD", PDict [("most_common", PDict [])]);
                           ("Season", PStr "winter")]);
            ("sol_keys", PList [PStr "600"])]
           [PStr "610"; PStr "600"] [PStr "600"] world0).
  - reflexivity.
  - discriminate.
  - reflexivity.
  - discriminate.
  - reflexivity.
  - intros k Hk. injection Hk as <-. reflexivity.
  - reflexivity.
Defined.

(** ** The range of a parsed sol *)

Lemma days_before_year_range (y : Z) :
  1 <= y <= 9998 -> 0 <= days_before_year y <= 3651405.
Proof.
  intros Hy. unfold days_before_year. cbv zeta.
  assert (H4 : (y - 1) / 4 <= 2500)
    by (apply Z.div_le_upper_bound; lia).
  assert (H400 : 0 <= (y - 1) / 400)
    by (apply Z.div_pos; lia).
  assert (H41 : (y - 1) / 400 <= (y - 1) / 100)
    by (apply Z.div_le_compat_l; lia).
  assert (H42 : (y - 1) / 100 <= (y - 1) / 4)
    by (apply Z.div_le_compat_l; lia).
  lia.
Qed.

(** The day of the year of an accepted month and day. *)
Lemma day_of_year_range (y m d : Z) :
  1 <= m <= 12 -> 1 <= d <= days_in_month y m ->
  1 <= days_before_month y m + d <= 365 + (if is_leap y then 1 else 0).
Proof.
  intros Hm Hd. unfold days_before_month.
  assert (Hc : m = 1 \/ m = 2 \/ m = 3 \/ m = 4 \/ m = 5 \/ m = 6 \/ m = 7
               \/ m = 8 \/ m = 9 \/ m = 10 \/ m = 11 \/ m = 12) by lia.
  clear Hm.
  repeat (destruct Hc as [-> | Hc]); try subst m;
    cbn [days_in_month days_before_month_common Z.ltb Z.compare
         Pos.compare Pos.compare_cont andb] in *;
    destruct (is_leap y); lia.
Qed.

(** A date the constructor accepts has an ordinal of the calendar. *)
Lemma valid_date_ordinal (y m d : Z) :
  valid_date y m d = true -> 1 <= ymd2ord y m d <= MAXORDINAL.
Proof.
  unfold valid_date. intros H.
  repeat match type of H with
         | (_ && _) = true => apply andb_true_iff in H; destruct H as [H ?]
         end.
  repeat match goal with
         | Hb : (_ <=? _) = true |- _ => apply Z.leb_le in Hb
         end.
  pose proof (day_of_year_range y m d ltac:(lia) ltac:(lia)) as Hdoy.
  unfold ymd2ord, MAXORDINAL.
  destruct (Z.eq_dec y 9999) as [-> | Hy].
  - change (is_leap 9999) with false in Hdoy.
    change (days_before_year 9999) with 3651694. lia.
  - pose proof (days_before_year_range y ltac:(lia)) as Hdby.
    destruct (is_leap y); lia.
Qed.

(** What [fromisoformat] returns is a date of the calendar. *)
Lemma fromisoformat_valid {Pf : Platform} (s : string) (dt : datetime) :
  fromisoformat s = inr dt ->
  valid_date (year dt) (month dt) (day dt) = true.
Proof.
  unfold fromisoformat.
  destruct (isoformat s) as [dt0 |] eqn:Hs; [| discriminate].
  intros H. injection H as <-.
  pose proof (isoformat_valid s dt0 Hs) as Hv.
  unfold valid_datetime in Hv.
  apply andb_true_iff in Hv. destruct Hv as [Hv _].
  apply andb_true_iff in Hv. destruct Hv as [Hv _]. exact Hv.
Qed.

(** The mission start is read on every platform. *)
Lemma fromisoformat_mission_start {Pf : Platform} :
  fromisoformat "2018-11-27T00:00:00+00:00"
  = inr (mkDatetime 2018 11 27 0 0 0 0 (Some 0)).
Proof. unfold fromisoformat. rewrite isoformat_mission_start. reflexivity. Qed.

(** A sum of days that is returned stays within the calendar. *)
Lemma add_days_within (dt dt' : datetime) (n : Z) :
  add_days dt n = inr dt' ->
  1 <= ymd2ord (year dt) (month dt) (day dt) + n <= MAXORDINAL.
Proof.
  unfold add_days.
  destruct (999999999 <? Z.abs n); [discriminate |].
  destruct ((1 <=? ymd2ord (year dt) (month dt) (day dt) + n)
            && (ymd2ord (year dt) (month dt) (day dt) + n <=? MAXORDINAL))
    eqn:Hin; [| discriminate].
  intros _. apply andb_true_iff in Hin. destruct Hin as [Hlo Hhi].
  apply Z.leb_le in Hlo. apply Z.leb_le in Hhi. lia.
Qed.

(** X4. A record is read off the payload only when the latest key is a
    string that [int] reads as an integer of at most 3652058 in
    absolute value, the number of days the calendar spans: the date
    sum must stay within years 1 to 9999.  When the payload has no sol
    "1", the anchor is the mission start and the sol lies between
    -737024 and 2915034.  Any other latest key falls back to synthetic
    data. *)
Theorem parsed_sol_is_bounded {Pf : Platform} (data latest : pyval) (r : MarsWeatherData.t) :
  parse_latest data latest = inr r ->
  exists k n,
    latest = PStr k
    /\ int_of_string k = Some n
    /\ MarsWeatherData.sol r = PInt n
    /\ - 3652058 <= n <= 3652058
    /\ (forall d, data = PDict d -> dict_lookup "1" d = None ->
                  - 737024 <= n <= 2915034).
Proof.
  intros H.
  destruct (parse_latest_sol _ _ _ H) as (k & n & sd & Hk & _ & Hint & Hsol).
  destruct (parse_latest_date _ _ _ H)
    as (k' & n' & moved & sd' & Hk' & Hint' & _ & Hdate & _).
  rewrite Hk in Hk'. injection Hk' as <-.
  rewrite Hint in Hint'. injection Hint' as <-.
  exists k, n.
  split; [assumption |]. split; [assumption |]. split; [assumption |].
  split.
  - unfold anchored_instant in Hdate. invert_binds Hdate.
    match goal with
    | Hf : fromisoformat _ = inr ?b |- _ =>
        pose proof (valid_date_ordinal _ _ _ (fromisoformat_valid _ _ Hf));
        pose proof (add_days_within _ _ _ Hdate)
    end.
    unfold MAXORDINAL in *. lia.
  - intros d -> Hone.
    unfold anchored_instant, field_or in Hdate. cbn [path_lookup] in Hdate.
    rewrite Hone in Hdate.
    change (replace_Z (PStr mission_start))
      with (@inr exc string "2018-11-27T00:00:00+00:00") in Hdate.
    cbn [rbind] in Hdate.
    rewrite fromisoformat_mission_start in Hdate.
    cbn [rbind] in Hdate.
    pose proof (add_days_within _ _ _ Hdate) as Hw.
    change (ymd2ord (year (mkDatetime 2018 11 27 0 0 0 0 (Some 0)))
              (month (mkDatetime 2018 11 27 0 0 0 0 (Some 0)))
              (day (mkDatetime 2018 11 27 0 0 0 0 (Some 0)))) with 737025 in Hw.
    unfold MAXORDINAL in Hw. lia.
Qed.

(** Sol 600 of the out-of-order payload. *)
Lemma parsed_sol_is_bounded_witness :
  exists k n,
    PStr "600" = PStr k
    /\ int_of_string k = Some n
    /\ MarsWeatherData.sol record_600 = PInt n
    /\ - 3652058 <= n <= 3652058
    /\ (forall d, payload_out_of_order = PDict d -> dict_lookup "1" d = None ->
                  - 737024 <= n <= 2915034).
Proof.
  apply (parsed_sol_is_bounded payload_out_of_order (PStr "600") record_600).
  vm_compute. reflexivity.
Defined.

(** ** The synthetic record *)

(** X6. In every synthetic record the temperatures are ordered,
    min < avg < max, with min at least -105 and max at most -10; the
    three pressures are drawn apart from one another, and a record
    whose average pressure is below its minimum does come out. *)
Theorem synthetic_temperatures_ordered {Pf : Platform} :
  (forall w, exists r w' mn av mx,
      _get_demo_weather_data w = (inr r, w')
      /\ MarsWeatherData.temperature r
         = TemperatureData.mk (PInt mn) (PInt mx) (PInt av)
      /\ mn < av < mx /\ - 105 <= mn /\ mx <= - 10)
  /\ (exists r w',
         _get_demo_weather_data world_inverted = (inr r, w')
         /\ PressureData.pressure (MarsWeatherData.pressure r) = PInt 600
         /\ PressureData.min_pressure (MarsWeatherData.pressure r) = PInt 650).
Proof.
  split.
  - intros w.
    destruct (demo_returns_synthetic w) as (r & w' & Hd & Hsyn).
    destruct Hsyn as (sol & avg & dmin & dmax & p & pmin & pmax & speed & dir
                      & sea & date & -> & Hsol & Hsea & Hdir & Havg & Hdmin
                      & Hdmax & _).
    exists (MarsWeatherData.mk (PInt sol) (PStr date) (PStr sea)
              (TemperatureData.mk (PInt (avg - dmin)) (PInt (avg + dmax)) (PInt avg))
              (PressureData.mk (PInt p) (PInt pmin) (PInt pmax))
              (WindData.mk (PFloat speed) (PStr dir))),
      w', (avg - dmin), avg, (avg + dmax).
    split; [exact Hd |]. split; [reflexivity |]. lia.
  - eexists. eexists. split; [vm_compute; reflexivity |].
    split; reflexivity.
Qed.

(** An integer temperature of the synthetic range formats, and converts
    to a float. *)
Lemma synthetic_temperature_shows (z : Z) :
  - 105 <= z <= - 10 ->
  (exists s, format_1f (PInt z) = inr s)
  /\ (exists f, TemperatureData.fahrenheit (PInt z) = inr (PFloat f)).
Proof.
  intros Hz.
  pose (ok := fun z =>
                match format_1f (PInt z), TemperatureData.fahrenheit (PInt z) with
                | inr _, inr (PFloat _) => true
                | _, _ => false
                end).
  assert (Hok : ok z = true).
  { apply (range_check ok (- 105) 96); [vm_compute; reflexivity | lia]. }
  unfold ok in Hok.
  destruct (format_1f (PInt z)) as [e | s]; [discriminate |].
  destruct (TemperatureData.fahrenheit (PInt z)) as [e | [| | | f | | |]];
    try discriminate.
  split; eauto.
Qed.

(** An integer pressure of the synthetic range formats. *)
Lemma synthetic_pressure_shows (z : Z) :
  580 <= z <= 850 -> exists s, format_0f (PInt z) = inr s.
Proof.
  intros Hz.
  pose (ok := fun z => match format_0f (PInt z) with inr _ => true | inl _ => false end).
  assert (Hok : ok z = true).
  { apply (range_check ok 580 271); [vm_compute; reflexivity | lia]. }
  unfold ok in Hok.
  destruct (format_0f (PInt z)) as [e | s]; [discriminate | eauto].
Qed.

(** X7. Every synthetic record can be shown: its temperatures format
    in Celsius and in Fahrenheit, its pressure formats with entries
    avg, min and max, its wind formats with the direction it holds, and
    that direction has a bearing, a multiple of 45 degrees below 360. *)
Theorem synthetic_record_shows {Pf : Platform} (w : World) :
  exists r w' celsius fahr avg mn mx speed k,
    _get_demo_weather_data w = (inr r, w')
    /\ TemperatureData.format_temp (MarsWeatherData.temperature r) "Celsius"
       = inr celsius
    /\ TemperatureData.format_temp (MarsWeatherData.temperature r) "Fahrenheit"
       = inr fahr
    /\ PressureData.format_pressure (MarsWeatherData.pressure r)
       = inr [("avg", avg); ("min", mn); ("max", mx)]
    /\ WindData.format_wind (MarsWeatherData.wind r)
       = inr [("speed", PStr speed);
              ("direction", WindData.wind_direction (MarsWeatherData.wind r))]
    /\ WindData.get_wind_direction_degrees (MarsWeatherData.wind r)
       = inr (PInt (45 * k))
    /\ 0 <= k < 8.
Proof.
  destruct (demo_returns_synthetic w) as (r & w' & Hd & Hsyn).
  destruct Hsyn as (sol & avg & dmin & dmax & p & pmin & pmax & speed & dir
                    & sea & date & -> & Hsol & Hsea & Hdir & Havg & Hdmin
                    & Hdmax & Hp & Hpmin & Hpmax).
  destruct (synthetic_temperature_shows (avg - dmin) ltac:(lia))
    as ((s1 & Hs1) & (f1 & Hf1)).
  destruct (synthetic_temperature_shows (avg + dmax) ltac:(lia))
    as ((s2 & Hs2) & (f2 & Hf2)).
  destruct (synthetic_temperature_shows avg ltac:(lia))
    as ((s3 & Hs3) & (f3 & Hf3)).
  destruct (synthetic_pressure_shows p ltac:(lia)) as (t1 & Ht1).
  destruct (synthetic_pressure_shows pmin ltac:(lia)) as (t2 & Ht2).
  destruct (synthetic_pressure_shows pmax ltac:(lia)) as (t3 & Ht3).
  assert (Hdeg : exists k,
             table_get WindData.direction_map (PStr dir) PNone = inr (PInt (45 * k))
             /\ 0 <= k < 8
             /\ py_truthy (PStr dir) = true).
  { cbn [In] in Hdir.
    destruct Hdir as [<- | [<- | [<- | [<- | [<- | [<- | [<- | [<- | []]]]]]]]];
      [exists 0 | exists 1 | exists 2 | exists 3
       | exists 4 | exists 5 | exists 6 | exists 7];
      (split; [reflexivity | split; [lia | reflexivity]]). }
  destruct Hdeg as (k & Hk & Hkr & Htruthy).
  do 2 eexists. do 6 eexists. exists k.
  split; [exact Hd |].
  cbn [MarsWeatherData.temperature MarsWeatherData.pressure MarsWeatherData.wind].
  split.
  { unfold TemperatureData.format_temp.
    change (String.eqb (lower "Celsius") "fahrenheit") with false. cbv iota.
    unfold TemperatureData.render.
    cbn [TemperatureData.min_temp TemperatureData.max_temp TemperatureData.avg_temp].
    rewrite Hs1, Hs2, Hs3. cbn [rbind]. reflexivity. }
  split.
  { unfold TemperatureData.format_temp.
    change (String.eqb (lower "Fahrenheit") "fahrenheit") with true. cbv iota.
    unfold TemperatureData.to_fahrenheit.
    cbn [TemperatureData.min_temp TemperatureData.max_temp TemperatureData.avg_temp].
    rewrite Hf1, Hf2, Hf3. cbn [rbind]. reflexivity. }
  split.
  { unfold PressureData.format_pressure.
    cbn [PressureData.pressure PressureData.min_pressure
         PressureData.max_pressure py_is_not_none].
    rewrite Ht1, Ht2, Ht3. cbn [rbind List.app]. reflexivity. }
  split.
  { unfold WindData.format_wind, py_or.
    cbn [WindData.wind_speed WindData.wind_direction].
    rewrite Htruthy. reflexivity. }
  split; [| exact Hkr].
  unfold WindData.get_wind_direction_degrees.
  cbn [WindData.wind_direction]. exact Hk.
Qed.

(** ** The compass *)

(** No entry of either table of bearings is [None]. *)
Lemma bearing_is_not_none (s : string) (v : pyval) :
  dict_lookup s WeatherUI.direction_map = Some v -> py_is_not_none v = true.
Proof.
  unfold WeatherUI.direction_map. cbn [dict_lookup].
  repeat match goal with
         | |- context [String.eqb s ?b] => destruct (String.eqb s b)
         end;
    intros H; try discriminate; injection H as <-; reflexivity.
Qed.

(** A string that is none of the sixteen labels is in neither table. *)
Lemma not_a_label (s : string) :
  ~ In s compass16 -> dict_lookup s WeatherUI.direction_map = None.
Proof. intros Hs. apply dict_lookup_absent. exact Hs. Qed.

(** The two tables of bearings, in [utils.py] and in [weather_ui.py],
    hold the same entries. *)
Lemma direction_maps_equal : WindData.direction_map = WeatherUI.direction_map.
Proof. reflexivity. Qed.

(** X8. The two conversions of a compass label to degrees agree on the
    sixteen labels, where the [i]-th label, clockwise from north, is at
    [i] times 22.5 degrees.  They part on everything else that can be
    a key: for a string that is not one of the labels, and for [None],
    a boolean or a number, the method of [WindData] answers [None] and
    the one of the window answers 0, the bearing of north.  On a list
    or a dict, which cannot be hashed, both raise [TypeError]. *)
Theorem compass_degrees_agree_on_labels :
  (forall i, (i < 16)%nat ->
     exists v,
       WindData.get_wind_direction_degrees
         (WindData.mk PNone (PStr (nth i compass16 ""))) = inr v
       /\ WeatherUI.get_direction_degrees (PStr (nth i compass16 "")) = inr v
       /\ num_eq v (bearing i) = true)
  /\ (forall speed direction,
         WeatherUI.get_direction_degrees direction
         = match WindData.get_wind_direction_degrees
                   (WindData.mk speed direction) with
           | inr PNone => inr (PInt 0)
           | other => other
           end)
  /\ (forall speed s,
         ~ In s compass16 ->
         WindData.get_wind_direction_degrees (WindData.mk speed (PStr s))
         = inr PNone
         /\ WeatherUI.get_direction_degrees (PStr s) = inr (PInt 0))
  /\ (forall speed direction,
         (forall s, direction <> PStr s) ->
         (forall l, direction <> PList l) ->
         (forall d, direction <> PDict d) ->
         WindData.get_wind_direction_degrees (WindData.mk speed direction)
         = inr PNone
         /\ WeatherUI.get_direction_degrees direction = inr (PInt 0))
  /\ (forall speed direction,
         (exists l, direction = PList l) \/ (exists d, direction = PDict d) ->
         WindData.get_wind_direction_degrees (WindData.mk speed direction)
         = inl (Exc TypeError "")
         /\ WeatherUI.get_direction_degrees direction = inl (Exc TypeError "")).
Proof.
  split; [| split; [| split; [| split]]].
  - intros i Hi.
    do 16 (destruct i as [| i];
           [eexists; split; [reflexivity | split; [reflexivity |]];
            vm_compute; reflexivity |]).
    lia.
  - intros speed direction.
    unfold WindData.get_wind_direction_degrees, WeatherUI.get_direction_degrees.
    cbn [WindData.wind_direction]. rewrite direction_maps_equal.
    destruct direction as [| b | z | f | s | l | dd]; try reflexivity.
    cbn [table_get].
    destruct (dict_lookup s WeatherUI.direction_map) as [v |] eqn:E;
      [| reflexivity].
    pose proof (bearing_is_not_none s v E) as Hv.
    destruct v; try reflexivity. discriminate.
  - intros speed s Hs.
    unfold WindData.get_wind_direction_degrees, WeatherUI.get_direction_degrees.
    cbn [WindData.wind_direction table_get].
    rewrite direction_maps_equal, (not_a_label s Hs). split; reflexivity.
  - intros speed direction Hs Hl Hd.
    destruct direction as [| b | z | f | s | l | dd];
      try (split; reflexivity).
    + exfalso. eapply Hs. reflexivity.
    + exfalso. eapply Hl. reflexivity.
    + exfalso. eapply Hd. reflexivity.
  - intros speed direction [(l & ->) | (d & ->)]; split; reflexivity.
Qed.

(** South-west is at 225 degrees for both; "north" is no label, 7 is
    no string, and a list is no key. *)
Lemma compass_degrees_agree_on_labels_witness :
  (exists v,
      WindData.get_wind_direction_degrees (WindData.mk PNone (PStr "SW")) = inr v
      /\ WeatherUI.get_direction_degrees (PStr "SW") = inr v
      /\ num_eq v (bearing 10) = true)
  /\ (WindData.get_wind_direction_degrees (WindData.mk PNone (PStr "north"))
      = inr PNone
      /\ WeatherUI.get_direction_degrees (PStr "north") = inr (PInt 0))
  /\ (WindData.get_wind_direction_degrees (WindData.mk PNone (PInt 7))
      = inr PNone
      /\ WeatherUI.get_direction_degrees (PInt 7) = inr (PInt 0))
  /\ (WindData.get_wind_direction_degrees (WindData.mk PNone (PList [PStr "N"]))
      = inl (Exc TypeError "")
      /\ WeatherUI.get_direction_degrees (PList [PStr "N"])
         = inl (Exc TypeError "")).
Proof.
  pose proof compass_degrees_agree_on_labels
    as (Hlabels & _ & Hother & Hkey & Hlist).
  split; [| split; [| split]].
  - apply (Hlabels 10%nat). lia.
  - apply (Hother PNone "north").
    cbn [In compass16]. intros H.
    repeat (destruct H as [H | H]; [discriminate |]). exact H.
  - apply (Hkey PNone (PInt 7)); discriminate.
  - apply (Hlist PNone (PList [PStr "N"])). left. exists [PStr "N"]. reflexivity.
Defined.

(** A bearing looked up by the window is never [None]. *)
Lemma get_direction_degrees_not_none (direction degrees : pyval) :
  WeatherUI.get_direction_degrees direction = inr degrees ->
  py_is_not_none degrees = true /\ exists n, as_num degrees = Some n.
Proof.
  unfold WeatherUI.get_direction_degrees, table_get.
  destruct direction as [| b | z | f | s | l | dd];
    try discriminate;
    try (intros H; injection H as <-; split; [reflexivity | eexists; reflexivity]).
  destruct (dict_lookup s WeatherUI.direction_map) as [v |] eqn:E.
  - intros H. injection H as <-.
    split; [exact (bearing_is_not_none s v E) |].
    revert E. unfold WeatherUI.direction_map. cbn [dict_lookup].
    repeat match goal with
           | |- context [String.eqb s ?b] => destruct (String.eqb s b)
           end;
      intros H; try discriminate; injection H as <-; eexists; reflexivity.
  - intros H. injection H as <-. split; [reflexivity | eexists; reflexivity].
Qed.

(** The text [format_wind] shows for a direction. *)
Lemma shown_direction_unknown (direction : pyval) :
  py_truthy direction && py_ne_str direction "Unknown" = false
  <-> py_or direction (PStr "Unknown") = PStr "Unknown".
Proof.
  unfold py_or.
  destruct (py_truthy direction) eqn:Ht; cbn [andb]; [| tauto].
  destruct direction as [| b | z | f | s | l | dd]; cbn [py_ne_str];
    try (split; [discriminate | intros H; discriminate]).
  destruct (String.eqb s "Unknown") eqn:E; cbn [negb].
  - apply String.eqb_eq in E. subst s. tauto.
  - split; [discriminate |]. intros H. injection H as ->.
    rewrite String.eqb_refl in E. discriminate.
Qed.

(** X9. Whenever [draw_wind_compass] returns, it has drawn an arrow
    exactly when the direction that [format_wind] shows is not
    "Unknown": no arrow for a missing, empty or "Unknown" direction,
    and an arrow for every other one, at the bearing 0 of north when
    the direction is not one of the sixteen labels. *)
Theorem arrow_drawn_iff_direction_shown
        (direction speed : pyval) (arrow : option (pyval * pyval)) :
  WeatherUI.draw_wind_compass direction speed = inr arrow ->
  (arrow = None <-> py_or direction (PStr "Unknown") = PStr "Unknown")
  /\ (forall s degrees len,
         direction = PStr s -> ~ In s compass16 ->
         arrow = Some (degrees, len) -> degrees = PInt 0).
Proof.
  unfold WeatherUI.draw_wind_compass. intros Hrun.
  pose proof (shown_direction_unknown direction) as Hshown.
  destruct (py_truthy direction && py_ne_str direction "Unknown") eqn:Hguard.
  - invert_binds Hrun.
    match goal with
    | Hg : WeatherUI.get_direction_degrees direction = inr ?d |- _ =>
        destruct (get_direction_degrees_not_none _ _ Hg) as (Hnn & _);
        rewrite Hnn in Hrun; rename Hg into Hdeg
    end.
    invert_binds Hrun. injection Hrun as <-.
    split.
    + split; [discriminate |]. intros Hu. apply Hshown in Hu. discriminate.
    + intros s degrees len -> Hs Harrow. injection Harrow as <- <-.
      unfold WeatherUI.get_direction_degrees in Hdeg. cbn [table_get] in Hdeg.
      rewrite (not_a_label s Hs) in Hdeg. injection Hdeg as <-. reflexivity.
  - injection Hrun as <-. split.
    + split; [intros _; apply Hshown; reflexivity | reflexivity].
    + intros s degrees len _ _ Harrow. discriminate.
Qed.

(** "north-east" is no label: the arrow points north. *)
Lemma arrow_drawn_iff_direction_shown_witness :
  (Some (PInt 0, PInt 10) = None
   <-> py_or (PStr "north-east") (PStr "Unknown") = PStr "Unknown")
  /\ (forall s degrees len,
         PStr "north-east" = PStr s -> ~ In s compass16 ->
         Some (PInt 0, PInt 10) = Some (degrees, len) -> degrees = PInt 0).
Proof.
  apply (arrow_drawn_iff_direction_shown (PStr "north-east") (PInt 2)).
  vm_compute. reflexivity.
Defined.

(** The two comparisons of [min(35, max(10, x))] leave a number between
    10 and 35. *)
Lemma clamp_within (scaled longest len : pyval) :
  py_max (PInt 10) scaled = inr longest ->
  py_min (PInt 35) longest = inr len ->
  num_le (PInt 10) len = true /\ num_le len (PInt 35) = true.
Proof.
  unfold py_max, py_min, py_gt, py_lt, num_le.
  destruct (as_num scaled) as [y |] eqn:Hy; cbn [as_num rbind]; [| discriminate].
  destruct (num_cmp (NInt 10) y) as [[| |] |] eqn:Hc;
    intros Hmax; injection Hmax as <-;
    try (cbn [as_num rbind]; intros H; injection H as <-;
         split; reflexivity).
  rewrite Hy. cbn [rbind].
  destruct (num_cmp y (NInt 35)) as [[| |] |] eqn:Hc';
    intros H; injection H as <-;
    try (split; reflexivity).
  rewrite Hy, Hc, Hc'. split; reflexivity.
Qed.

(** X10. The arrow of the compass, whenever one is drawn, is between 10
    and 35 long, inside the circle of radius 40, whatever the wind
    speed; and one is drawn for every labelled direction and every
    numeric speed. *)
Theorem arrow_length_within_circle :
  (forall direction speed degrees len,
      WeatherUI.draw_wind_compass direction speed = inr (Some (degrees, len)) ->
      num_le (PInt 10) len = true /\ num_le len (PInt 35) = true)
  /\ (forall i speed n,
         (i < 16)%nat -> as_num speed = Some n ->
         exists degrees len,
           WeatherUI.draw_wind_compass (PStr (nth i compass16 "")) speed
           = inr (Some (degrees, len))).
Proof.
  split.
  - unfold WeatherUI.draw_wind_compass. intros direction speed degrees len Hrun.
    destruct (py_truthy direction && py_ne_str direction "Unknown");
      [| discriminate].
    invert_binds Hrun.
    match goal with
    | Hg : WeatherUI.get_direction_degrees direction = inr ?d |- _ =>
        destruct (get_direction_degrees_not_none _ _ Hg) as (Hnn & _);
        rewrite Hnn in Hrun
    end.
    invert_binds Hrun. injection Hrun as <- <-.
    eapply clamp_within; eassumption.
  - intros i speed n Hi Hn.
    assert (Hscaled : exists scaled m,
               py_mul speed (PInt 3) = inr scaled /\ as_num scaled = Some m).
    { unfold py_mul. rewrite Hn. cbn [as_num].
      destruct n as [z | f].
      - eexists. eexists. split; reflexivity.
      - cbn [num_float rbind].
        change (float_of_int 3) with (@inr exc spec_float (float_of_Z 3)).
        cbn [rbind]. eexists. eexists. split; reflexivity. }
    destruct Hscaled as (scaled & m & Hmul & Hm).
    assert (Hclamp : exists longest len,
               py_max (PInt 10) scaled = inr longest
               /\ py_min (PInt 35) longest = inr len).
    { unfold py_max, py_min, py_gt, py_lt. rewrite Hm. cbn [as_num rbind].
      destruct (match num_cmp (NInt 10) m with Some Lt => true | _ => false end).
      - exists scaled. rewrite Hm. cbn [rbind]. eexists. split; reflexivity.
      - exists (PInt 10). cbn [as_num rbind]. eexists. split; reflexivity. }
    destruct Hclamp as (longest & len & Hmax & Hmin).
    unfold WeatherUI.draw_wind_compass.
    do 16 (destruct i as [| i];
           [cbn [nth compass16];
            match goal with
            | |- context [py_truthy ?d && py_ne_str ?d ?u] =>
                change (py_truthy d && py_ne_str d u) with true
            end;
            cbv iota;
            match goal with
            | |- context [WeatherUI.get_direction_degrees ?d] =>
                let v := eval vm_compute in (WeatherUI.get_direction_degrees d) in
                change (WeatherUI.get_direction_degrees d) with v
            end;
            cbn [rbind py_is_not_none];
            match goal with
            | |- context [py_sub ?a ?b] =>
                let v := eval vm_compute in (py_sub a b) in
                change (py_sub a b) with v
            end;
            cbn [rbind]; rewrite Hmul; cbn [rbind]; rewrite Hmax; cbn [rbind];
            rewrite Hmin; cbn [rbind]; eexists; eexists; reflexivity |]).
    lia.
Qed.

(** A gale from the east, and a breeze at 2 m/s. *)
Lemma arrow_length_within_circle_witness :
  (num_le (PInt 10) (PInt 35) = true /\ num_le (PInt 35) (PInt 35) = true)
  /\ (exists degrees len,
         WeatherUI.draw_wind_compass (PStr "E") (PFloat f2_0)
         = inr (Some (degrees, len))).
Proof.
  pose proof arrow_length_within_circle as (Hbound & Hdrawn).
  split.
  - apply (Hbound (PStr "E") (PInt 40) (PInt 90) (PInt 35)).
    vm_compute. reflexivity.
  - apply (Hdrawn 4%nat (PFloat f2_0) (NFloat f2_0)); [lia | reflexivity].
Defined.

(** ** Units *)

(** The unit is Fahrenheit for the words "fahrenheit" and "f", in any
    case of letters, and Celsius for everything else. *)
Lemma validate_temperature_unit_cases (u : string) :
  (validate_temperature_unit u = "Fahrenheit"
   /\ (lower u = "fahrenheit" \/ lower u = "f"))
  \/ (validate_temperature_unit u = "Celsius"
      /\ lower u <> "fahrenheit" /\ lower u <> "f").
Proof.
  unfold validate_temperature_unit. cbn [existsb].
  destruct (String.eqb_spec (lower u) "celsius") as [Hc | Hc];
    [right; rewrite Hc; repeat split; discriminate |].
  destruct (String.eqb_spec (lower u) "c") as [Hc1 | Hc1];
    [right; rewrite Hc1; repeat split; discriminate |].
  destruct (String.eqb_spec (lower u) "fahrenheit") as [Hf | Hf];
    [left; split; [reflexivity | left; exact Hf] |].
  destruct (String.eqb_spec (lower u) "f") as [Hf1 | Hf1];
    [left; split; [reflexivity | right; exact Hf1] |].
  right. repeat split; assumption.
Qed.

(** X11. [validate_temperature_unit] returns one of the two unit names,
    "Fahrenheit" exactly for the words "fahrenheit" and "f" in any case
    of letters and "Celsius" for every other string, and validating
    twice changes nothing. *)
Theorem validate_temperature_unit_normalises (u : string) :
  (validate_temperature_unit u = "Celsius"
   \/ validate_temperature_unit u = "Fahrenheit")
  /\ (validate_temperature_unit u = "Fahrenheit"
      <-> lower u = "fahrenheit" \/ lower u = "f")
  /\ validate_temperature_unit (validate_temperature_unit u)
     = validate_temperature_unit u.
Proof.
  destruct (validate_temperature_unit_cases u)
    as [(Hv & Hw) | (Hv & Hnf & Hnf1)]; rewrite Hv.
  - split; [right; reflexivity |]. split; [tauto | reflexivity].
  - split; [left; reflexivity |]. split; [| reflexivity].
    split; [discriminate |]. intros [H | H]; contradiction.
Qed.

(** X12. A unit passed through [validate_temperature_unit] makes
    [format_temp] convert exactly when the unit is "fahrenheit" or "f"
    in any case of letters.  Unvalidated, the word "f" formats in
    Celsius: [format_temp] itself only knows "fahrenheit". *)
Theorem format_temp_after_validation (t : TemperatureData.t) (u : string) :
  (lower u = "fahrenheit" \/ lower u = "f" ->
   TemperatureData.format_temp t (validate_temperature_unit u)
   = (f <- TemperatureData.to_fahrenheit t ;;
      TemperatureData.render f (degree ++ "F")))
  /\ (lower u <> "fahrenheit" -> lower u <> "f" ->
      TemperatureData.format_temp t (validate_temperature_unit u)
      = TemperatureData.render t (degree ++ "C"))
  /\ (lower u = "f" ->
      TemperatureData.format_temp t u
      = TemperatureData.render t (degree ++ "C")).
Proof.
  destruct (validate_temperature_unit_cases u)
    as [(Hv & Hw) | (Hv & Hnf & Hnf1)]; rewrite Hv.
  - split; [intros _; reflexivity |].
    split; [intros H1 H2; destruct Hw; contradiction |].
    intros Hf. unfold TemperatureData.format_temp. rewrite Hf. reflexivity.
  - split; [intros [H | H]; contradiction |].
    split; [intros _ _; reflexivity |].
    intros Hf. contradiction.
Qed.

(** The letter "F". *)
Lemma format_temp_after_validation_witness :
  TemperatureData.format_temp celsius_example (validate_temperature_unit "F")
  = (f <- TemperatureData.to_fahrenheit celsius_example ;;
     TemperatureData.render f (degree ++ "F"))
  /\ TemperatureData.format_temp celsius_example "F"
     = TemperatureData.render celsius_example (degree ++ "C").
Proof.
  pose proof (format_temp_after_validation celsius_example "F") as (Hv & _ & Hraw).
  split; [apply Hv; right; reflexivity | apply Hraw; reflexivity].
Defined.

(** ** The stores *)

(** X13. A configuration that [save_config] reports saved is the one
    [load_config] then returns, over the defaults: each key of the
    saved object has its saved value, and when the saved object has
    the five default keys the loaded one has the same value under
    every key.  The save is not atomic: when the dump fails and leaves
    a file that does not decode, the next load returns the defaults,
    whatever was stored before. *)
Theorem save_config_then_load_config
        (fs : ConfigFs) (io : write_outcome) (c : list (string * pyval)) :
  (fst (save_config_to fs io (PDict c)) = true ->
   NoDup (map fst c) ->
   exists loaded,
     load_config (snd (save_config_to fs io (PDict c))) = inr loaded
     /\ (forall k, dict_lookup k loaded
                   = match dict_lookup k c with
                     | Some v => Some v
                     | None => dict_lookup k default_config
                     end)
     /\ ((forall k, dict_lookup k default_config <> None ->
                    dict_lookup k c <> None) ->
         forall k, dict_lookup k loaded = dict_lookup k c))
  /\ (forall e e', get_config_path fs = inr tt ->
                   io = DumpFails e (inl e') ->
                   fst (save_config_to fs io (PDict c)) = false
                   /\ load_config (snd (save_config_to fs io (PDict c)))
                      = inr default_config)
  /\ fst (save_config_to fs io (PDict c)) = save_config fs (write_result io).
Proof.
  split; [| split].
  - unfold save_config_to.
    destruct (get_config_path fs) as [e | []]; [discriminate |].
    destruct io as [| e | e remains]; try discriminate.
    intros _ Hnd. cbn [snd].
    exists (dict_merge default_config c).
    split; [reflexivity |].
    assert (Hlook : forall k, dict_lookup k (dict_merge default_config c)
                              = match dict_lookup k c with
                                | Some v => Some v
                                | None => dict_lookup k default_config
                                end).
    { intros k. apply dict_lookup_merge. exact Hnd. }
    split; [exact Hlook |].
    intros Hfull k. rewrite Hlook.
    destruct (dict_lookup k c) as [v |] eqn:Hk; [reflexivity |].
    destruct (dict_lookup k default_config) as [v |] eqn:Hd; [| reflexivity].
    exfalso. apply (Hfull k); [rewrite Hd; discriminate | exact Hk].
  - intros e e' Hpath ->. unfold save_config_to. rewrite Hpath.
    split; reflexivity.
  - unfold save_config_to, save_config.
    destruct (get_config_path fs) as [e | []]; [reflexivity |].
    destruct io; reflexivity.
Qed.

(** The settings dialog saves the loaded defaults with another unit;
    and a dump that fails half way. *)
Lemma save_config_then_load_config_witness :
  (exists loaded,
      load_config
        (snd (save_config_to fs_fahrenheit_only WriteDone
                (PDict [("api_key", PStr "DEMO_KEY");
                        ("temperature_unit", PStr "Fahrenheit");
                        ("auto_refresh", PBool true);
                        ("refresh_interval", PInt 300);
                        ("notifications_enabled", PBool true)])))
      = inr loaded
      /\ (forall k, dict_lookup k loaded
                    = match dict_lookup k
                              [("api_key", PStr "DEMO_KEY");
                               ("temperature_unit", PStr "Fahrenheit");
                               ("auto_refresh", PBool true);
                               ("refresh_interval", PInt 300);
                               ("notifications_enabled", PBool true)] with
                      | Some v => Some v
                      | None => dict_lookup k default_config
                      end)
      /\ ((forall k, dict_lookup k default_config <> None ->
                     dict_lookup k
                       [("api_key", PStr "DEMO_KEY");
                        ("temperature_unit", PStr "Fahrenheit");
                        ("auto_refresh", PBool true);
                        ("refresh_interval", PInt 300);
                        ("notifications_enabled", PBool true)] <> None) ->
          forall k, dict_lookup k loaded
                    = dict_lookup k
                        [("api_key", PStr "DEMO_KEY");
                         ("temperature_unit", PStr "Fahrenheit");
                         ("auto_refresh", PBool true);
                         ("refresh_interval", PInt 300);
                         ("notifications_enabled", PBool true)]))
  /\ (fst (save_config_to fs_fahrenheit_only
             (DumpFails (Exc OSError_ "") (inl (Exc JSONDecodeError "")))
             (PDict [])) = false
      /\ load_config
           (snd (save_config_to fs_fahrenheit_only
                   (DumpFails (Exc OSError_ "") (inl (Exc JSONDecodeError "")))
                   (PDict [])))
         = inr default_config).
Proof.
  split.
  - apply (proj1 (save_config_then_load_config fs_fahrenheit_only WriteDone _)).
    + reflexivity.
    + repeat constructor; cbn [In map fst]; intuition discriminate.
  - apply (proj1 (proj2 (save_config_then_load_config fs_fahrenheit_only
                           (DumpFails (Exc OSError_ "") (inl (Exc JSONDecodeError "")))
                           []))
             (Exc OSError_ "") (Exc JSONDecodeError ""));
      reflexivity.
Defined.

(** ** What the window is told *)

(** X14. The background fetch asks the window for an error dialog only
    when the request (or the decoding of a 200 body) raised a time-out
    or a connection error of [requests], with the message of that
    error after the prefix, and before any random number is drawn.  A
    response with any status other than 200, 403 and 429 included, has
    the window updated with the synthetic generator's record: neither
    "Invalid API key" nor "No weather data available" is ever shown
    for it. *)
Theorem fetch_weather_data_ui_calls {Pf : Platform} (net : result Response) (w : World) :
  (forall msg w',
      Main._fetch_weather_data net w = (Main.show_error msg, w') ->
      w' = w
      /\ exists cause,
           request_failure net = Some cause
           /\ ((is_req_timeout (exc_cls cause) = true
                /\ msg = "Failed to fetch weather data: " ++ exc_msg timeout_error)
               \/ (is_req_timeout (exc_cls cause) = false
                   /\ is_req_connection_error (exc_cls cause) = true
                   /\ msg = "Failed to fetch weather data: "
                            ++ exc_msg connection_error)))
  /\ (forall response,
         net = inr response -> status_code response <> 200 ->
         exists r w',
           _get_demo_weather_data w = (inr r, w')
           /\ Main._fetch_weather_data net w = (Main.update_ui_with_weather r, w')).
Proof.
  unfold Main._fetch_weather_data, Main.instance_truthy.
  split.
  - pose proof (get_mars_weather_by_failure net w) as Hrun.
    intros msg w' Hcall.
    destruct (request_failure net) as [cause |].
    + rewrite Hrun in Hcall.
      destruct (fetch_handler_cases cause w)
        as [(Ht & Hh) | [(Ht & Hc & Hh) | (Ht & Hc & Hh)]];
        rewrite Hh in Hcall.
      * injection Hcall as <- <-. split; [reflexivity |].
        exists cause. split; [reflexivity |]. left. split; [assumption | reflexivity].
      * injection Hcall as <- <-. split; [reflexivity |].
        exists cause. split; [reflexivity |]. right. repeat split; assumption.
      * destruct (demo_returns_synthetic w) as (r & w1 & Hd & _).
        rewrite Hd in Hcall. discriminate.
    + destruct Hrun as (r & w1 & Hr). rewrite Hr in Hcall. discriminate.
  - intros [st body] -> Hst. cbn [status_code] in Hst.
    destruct (demo_returns_synthetic w) as (r & w1 & Hd & _).
    exists r, w1. split; [exact Hd |].
    unfold get_mars_weather, try_except, fetch_body, bind, lift.
    cbn [status_code json].
    destruct (st =? 200) eqn:E; [apply Z.eqb_eq in E; contradiction |].
    destruct (st =? 403); [| destruct (st =? 429)];
      cbn [throw fetch_handler invalid_key_error rate_limit_error exc_cls
           is_req_timeout is_req_connection_error];
      rewrite Hd; reflexivity.
Qed.

(** Status 403: the window shows synthetic weather. *)
Lemma fetch_weather_data_ui_calls_witness :
  exists r w',
    _get_demo_weather_data world0 = (inr r, w')
    /\ Main._fetch_weather_data (inr (mkResponse 403 (inr (PDict [])))) world0
       = (Main.update_ui_with_weather r, w').
Proof.
  apply (proj2 (fetch_weather_data_ui_calls
                  (inr (mkResponse 403 (inr (PDict [])))) world0)
           (mkResponse 403 (inr (PDict [])))).
  - reflexivity.
  - discriminate.
Defined.

(** ** The cache *)

(** Two integers with the same decimal numeral are equal. *)
Lemma str_of_Z_inj (z z' : Z) : str_of_Z z = str_of_Z z' -> z = z'.
Proof.
  unfold str_of_Z. intros H. apply DecimalZ.to_int_inj.
  assert (Hn : forall x, Z.to_int x <> Decimal.Pos Decimal.Nil
                         /\ Z.to_int x <> Decimal.Neg Decimal.Nil).
  { intros x. destruct x; simpl; split; try discriminate;
      intros E; injection E as E; revert E;
      apply DecimalPos.Unsigned.to_uint_nonnil. }
  pose proof (NilZero.isi (Z.to_int z) (proj1 (Hn z)) (proj2 (Hn z))) as H1.
  pose proof (NilZero.isi (Z.to_int z') (proj1 (Hn z')) (proj2 (Hn z'))) as H2.
  rewrite H in H1. rewrite H1 in H2. now injection H2.
Qed.

(** A common suffix can be dropped from an equation of strings. *)
Lemma append_inv_tail (a b t : string) : a ++ t = b ++ t -> a = b.
Proof.
  intros H.
  assert (Hl : forall x y, list_ascii_of_string (x ++ y)
                           = (list_ascii_of_string x ++ list_ascii_of_string y)%list).
  { intros x y. induction x as [| c x IH]; [reflexivity |].
    cbn [append list_ascii_of_string]. rewrite IH. reflexivity. }
  apply (f_equal list_ascii_of_string) in H. rewrite !Hl in H.
  apply app_inv_tail in H.
  apply (f_equal string_of_list_ascii) in H.
  rewrite !string_of_list_ascii_of_string in H. exact H.
Qed.

Section CacheProperties.

Variable repr_other : pyval -> string.

Lemma cache_file_name_inj (n m : Z) :
  cache_file_name repr_other (PInt n) = cache_file_name repr_other (PInt m) ->
  n = m.
Proof.
  unfold cache_file_name. cbn [py_str]. intros H.
  apply str_of_Z_inj.
  apply (append_inv_tail _ _ ".json").
  cbn [append] in H. repeat injection H as H. exact H.
Qed.

Lemma get_cache_path_ready (mk : result unit) (fs : CacheFs) :
  cache_dir_exists fs = true -> get_cache_path mk fs = (inr tt, fs).
Proof. intros H. unfold get_cache_path. rewrite H. reflexivity. Qed.

(** X15. A record that [cache_weather_data] reports as cached is what
    [load_cached_weather_data] returns for its sol from then on,
    whatever the record's fields hold and whether or not the cache
    directory existed before; the load leaves the cache as it is. *)
Theorem cache_then_load
        (mk mk' : result unit) (io : write_outcome)
        (data : MarsWeatherData.t) (fs fs' : CacheFs) :
  cache_weather_data repr_other mk io data fs = (true, fs') ->
  load_cached_weather_data repr_other mk' (MarsWeatherData.sol data) fs'
  = (Some data, fs').
Proof.
  unfold cache_weather_data, load_cached_weather_data.
  assert (Hdir : cache_dir_exists (snd (get_cache_path mk fs)) = true
                 \/ exists e, fst (get_cache_path mk fs) = inl e).
  { unfold get_cache_path.
    destruct (cache_dir_exists fs) eqn:E; cbn [negb].
    - left. exact E.
    - destruct mk as [e | u]; [right; exists e; reflexivity | left; reflexivity]. }
  destruct (get_cache_path mk fs) as [[e | u] fs1]; [discriminate |].
  cbn [fst snd] in Hdir. destruct Hdir as [Hdir | (e & He)]; [| discriminate].
  destruct io as [| e | e remains]; try discriminate.
  intros H. injection H as <-.
  rewrite get_cache_path_ready by exact Hdir.
  cbn [write_file cache_file]. rewrite String.eqb_refl. cbn [rbind].
  destruct data as [s d se [mn mx av] [p pmn pmx] [ws wd]].
  reflexivity.
Qed.

(** X16. Caching a record of one integer sol, whether the write
    completes, cannot start or breaks off half way, leaves what is
    loaded for every other integer sol unchanged: distinct sols have
    distinct cache files. *)
Theorem cache_touches_one_sol
        (mk mk' : result unit) (io : write_outcome)
        (data : MarsWeatherData.t) (fs : CacheFs) (n m : Z) :
  MarsWeatherData.sol data = PInt n -> m <> n ->
  cache_dir_exists fs = true ->
  fst (load_cached_weather_data repr_other mk' (PInt m)
         (snd (cache_weather_data repr_other mk io data fs)))
  = fst (load_cached_weather_data repr_other mk' (PInt m) fs).
Proof.
  intros Hsol Hne Hdir.
  assert (Hname : String.eqb (cache_file_name repr_other (PInt m))
                    (cache_file_name repr_other (PInt n)) = false).
  { apply String.eqb_neq. intros E. apply Hne.
    exact (cache_file_name_inj _ _ E). }
  unfold cache_weather_data, load_cached_weather_data.
  rewrite (get_cache_path_ready mk fs Hdir), (get_cache_path_ready mk' fs Hdir).
  rewrite Hsol.
  destruct io as [| e | e remains]; cbn [snd].
  - rewrite get_cache_path_ready by exact Hdir.
    cbn [write_file cache_file]. rewrite Hname.
    destruct (cache_file fs _) as [[e | v] |]; cbn [rbind]; try reflexivity.
    destruct (MarsWeatherData.from_dict v); reflexivity.
  - rewrite get_cache_path_ready by exact Hdir. reflexivity.
  - rewrite get_cache_path_ready by exact Hdir.
    cbn [write_file cache_file]. rewrite Hname.
    destruct (cache_file fs _) as [[e' | v] |]; cbn [rbind]; try reflexivity.
    destruct (MarsWeatherData.from_dict v); reflexivity.
Qed.

End CacheProperties.

(** Sol 600 is cached where no cache directory was; it is then loaded
    although the directory could not be made again. *)
Lemma cache_then_load_witness :
  load_cached_weather_data repr_unused (inl (Exc OSError_ ""))
    (MarsWeatherData.sol record_600)
    (snd (cache_weather_data repr_unused (inr tt) WriteDone record_600
            cache_absent))
  = (Some record_600,
     snd (cache_weather_data repr_unused (inr tt) WriteDone record_600
            cache_absent)).
Proof.
  apply (cache_then_load repr_unused (inr tt) (inl (Exc OSError_ "")) WriteDone
           record_600 cache_absent).
  reflexivity.
Defined.

(** Caching sol 700 leaves what is loaded for sol 600 as it was. *)
Lemma cache_touches_one_sol_witness :
  fst (load_cached_weather_data repr_unused (inr tt) (PInt 600)
         (snd (cache_weather_data repr_unused (inr tt) WriteDone record_sparse
                 cache_of_600)))
  = fst (load_cached_weather_data repr_unused (inr tt) (PInt 600) cache_of_600).
Proof.
  apply (cache_touches_one_sol repr_unused (inr tt) (inr tt) WriteDone
           record_sparse cache_of_600 700 600).
  - reflexivity.
  - discriminate.
  - reflexivity.
Defined.

(** ** What [from_dict] reads *)

(** X17. [from_dict] reads six keys of its argument and nothing else:
    two mappings with the same values under these keys give the same
    result, whatever their order and their other keys; and a mapping
    that lacks one of the six is refused with an exception. *)
Theorem from_dict_reads_six_keys (d d' : list (string * pyval)) :
  ((forall k, In k record_keys -> dict_lookup k d = dict_lookup k d') ->
   MarsWeatherData.from_dict (PDict d) = MarsWeatherData.from_dict (PDict d'))
  /\ (forall k, In k record_keys -> dict_lookup k d = None ->
                exists e, MarsWeatherData.from_dict (PDict d) = inl e).
Proof.
  split.
  - intros H. unfold MarsWeatherData.from_dict. cbn [py_getitem].
    rewrite (H "sol"), (H "terrestrial_date"), (H "season"),
      (H "temperature"), (H "pressure"), (H "wind")
      by (cbn [In record_keys]; tauto).
    reflexivity.
  - intros k Hk Hnone. unfold MarsWeatherData.from_dict. cbn [py_getitem].
    cbn [In record_keys] in Hk.
    repeat (destruct Hk as [<- | Hk]); [.. | contradiction];
      rewrite Hnone;
      repeat match goal with
             | |- exists e, rbind ?r _ = inl e =>
                 let E := fresh "E" in
                 destruct r as [? | ?] eqn:E; cbn [rbind];
                 [eexists; reflexivity | try discriminate E]
             end.
Qed.

(** A stored record with one more key, in another order; and one
    without a season. *)
Lemma from_dict_reads_six_keys_witness :
  MarsWeatherData.from_dict (PDict stored_600_annotated)
  = MarsWeatherData.from_dict (MarsWeatherData.to_dict record_600)
  /\ exists e,
       MarsWeatherData.from_dict
         (PDict [("sol", PInt 600); ("terrestrial_date", PStr "2020-07-19")])
       = inl e.
Proof.
  split.
  - apply (proj1 (from_dict_reads_six_keys stored_600_annotated
                    [("sol", PInt 600);
                     ("terrestrial_date", PStr "2020-07-19");
                     ("season", PStr "winter");
                     ("temperature",
                        PDict [("min_temp", PInt (-95)); ("max_temp", PInt (-20));
                               ("avg_temp", PInt (-60))]);
                     ("pressure",
                        PDict [("pressure", PInt 650); ("min_pressure", PInt 600);
                               ("max_pressure", PInt 700)]);
                     ("wind",
                        PDict [("wind_speed", PFloat f5_5);
                               ("wind_direction", PStr "NE")])])).
    intros k Hk. cbn [In record_keys] in Hk.
    repeat (destruct Hk as [<- | Hk]; [reflexivity |]). contradiction.
  - apply (proj2 (from_dict_reads_six_keys
                    [("sol", PInt 600); ("terrestrial_date", PStr "2020-07-19")]
                    []) "season").
    + cbn [In record_keys]. tauto.
    + reflexivity.
Defined.
